(** * solo-learn: [BaseMethod] and [BaseMomentumMethod]

    A shallow embedding of [solo/methods/base.py]: construction of a method
    (learning-rate rescaling, backbone registry, backbone surgery), optimizer
    and scheduler configuration, the multi-crop training step, validation
    aggregation and the step-gated momentum update.

    Conventions of the embedding.
    - Python [float]s and zero-dimensional tensors are exact rationals ([Qc],
      canonical fractions, so that equality is Leibniz equality).  The
      statements below are about which values are combined and how, not about
      rounding.
    - Python [int]s are [Z]; list lengths and crop counts are [nat].
    - A call that can raise returns a [result]; the exception classes that
      occur in the file are the constructors of [exn].
    - [dict]s are [gmap string value].
    - Code of other packages ([torch], [torchvision], [pytorch_lightning],
      [solo.utils]) is taken as a parameter, bundled in a type class. *)

From Stdlib Require Import ZArith QArith Qcanon String List Bool Lia.
From stdpp Require Import base tactics option list strings gmap.

Open Scope string_scope.

(** ** The fragment of Python the file relies on *)

Module Py.

Inductive exn : Type :=
| AssertionError
| ValueError (msg : string)
| AttributeError (attr : string)
| TypeError
| IndexError
| KeyError (key : string)
| ZeroDivisionError
| RuntimeError.

Inductive result (A : Type) : Type :=
| Ok (a : A)
| Raise (e : exn).

Arguments Ok {A} a.
Arguments Raise {A} e.

Definition bind {A B : Type} (c : result A) (k : A -> result B) : result B :=
  match c with
  | Ok a => k a
  | Raise e => Raise e
  end.

Definition raises {A : Type} (c : result A) : Prop :=
  exists e, c = Raise e.

(** [assert cond] *)
Definition assert (cond : bool) : result unit :=
  if cond then Ok tt else Raise AssertionError.

(** Values stored in keyword dictionaries and parameter groups. *)
Inductive value : Type :=
| VNone
| VBool (b : bool)
| VInt (n : Z)
| VFloat (x : Qc)
| VStr (s : string)
| VParams (owner : string).

(** Truth value of an object in a boolean context. *)
Definition truthy (v : value) : bool :=
  match v with
  | VNone => false
  | VBool b => b
  | VInt n => negb (n =? 0)%Z
  | VFloat x => negb (bool_decide (x = 0%Qc))
  | VStr s => negb (String.eqb s "")
  | VParams _ => true
  end.

(** Truth value of an [Union[int, None]]. *)
Definition truthy_int (o : option Z) : bool :=
  match o with
  | None => false
  | Some n => negb (n =? 0)%Z
  end.

(** [needle in hay] on strings. *)
Definition contains (needle hay : string) : bool :=
  match String.index 0 needle hay with
  | Some _ => true
  | None => false
  end.

(** [d.pop(key, default)]: the value and the dictionary without the key. *)
Definition pop (key : string) (dflt : value) (d : gmap string value)
  : value * gmap string value :=
  (default dflt (d !! key), delete key d).

(** [sum(xs)]: starts from 0 and adds from the left. *)
Definition sum (xs : list Qc) : Qc :=
  fold_left Qcplus xs 0%Qc.

(** [[f(x) for x in xs]] where [f] can raise. *)
Fixpoint for_each {A B : Type} (f : A -> result B) (xs : list A) : result (list B) :=
  match xs with
  | [] => Ok []
  | x :: rest =>
      bind (f x) (fun y => bind (for_each f rest) (fun ys => Ok (y :: ys)))
  end.

End Py.

Notation "'do' x <- c ; k" := (Py.bind c (fun x => k))
  (at level 10, x name, c at level 100, k at level 200,
   format "'[v' 'do'  x  <-  c ; '/' k ']'").
Notation "'check' c ; k" := (Py.bind c (fun _ : unit => k))
  (at level 10, c at level 100, k at level 200,
   format "'[v' 'check'  c ; '/' k ']'").

(** ** Modules of [torch.nn], as far as the constructor inspects them *)

Module NN.

Inductive Layer : Type :=
| Identity
| Conv2d (in_channels out_channels kernel_size stride padding : Z) (bias : bool)
| Linear (in_features out_features : Z)
| Native (name : string).

(** A backbone instance: the attributes [BaseMethod.__init__] reads or
    overwrites.  An attribute the architecture does not have is [None]. *)
Record Backbone : Type := {
  arch : string;
  inplanes : option Z;
  num_features : option Z;
  fc : option Layer;
  conv1 : option Layer;
  maxpool : option Layer;
}.

Definition set_fc (l : Layer) (m : Backbone) : Backbone :=
  {| arch := arch m; inplanes := inplanes m; num_features := num_features m;
     fc := Some l; conv1 := conv1 m; maxpool := maxpool m |}.

Definition set_conv1 (l : Layer) (m : Backbone) : Backbone :=
  {| arch := arch m; inplanes := inplanes m; num_features := num_features m;
     fc := fc m; conv1 := Some l; maxpool := maxpool m |}.

Definition set_maxpool (l : Layer) (m : Backbone) : Backbone :=
  {| arch := arch m; inplanes := inplanes m; num_features := num_features m;
     fc := fc m; conv1 := conv1 m; maxpool := Some l |}.

(** [obj.attr] where [obj] may be the [None] object. *)
Definition getattr {A : Type} (name : string) (proj : Backbone -> option A)
  (obj : option Backbone) : Py.result A :=
  match obj with
  | None => Py.Raise (Py.AttributeError name)
  | Some m =>
      match proj m with
      | Some a => Py.Ok a
      | None => Py.Raise (Py.AttributeError name)
      end
  end.

(** [obj.attr = v] where [obj] may be the [None] object. *)
Definition setattr (name : string) (upd : Backbone -> Backbone)
  (obj : option Backbone) : Py.result (option Backbone) :=
  match obj with
  | None => Py.Raise (Py.AttributeError name)
  | Some m => Py.Ok (Some (upd m))
  end.

End NN.

(** ** The backbone registry *)

Module Registry.

(** The factory functions that [_SUPPORTED_BACKBONES] maps names to. *)
Inductive Factory : Type :=
| resnet18 | resnet50 | wide_resnet50_2 | wide_resnet50_4 | wide_resnet50_8
| resnetlarge1 | resnetlarge2
| vit_tiny | vit_small | vit_base | vit_large
| swin_tiny | swin_small | swin_base | swin_large
| poolformer_s12 | poolformer_s24 | poolformer_s36
| poolformer_m36 | poolformer_m48
| convnext_tiny | convnext_small | convnext_base | convnext_large.

Definition _SUPPORTED_BACKBONES : gmap string Factory :=
  list_to_map
    [ ("resnet18", resnet18);
      ("resnet50", resnet50);
      ("wide_resnet50_2", wide_resnet50_2);
      ("wide_resnet50_4", wide_resnet50_4);
      ("wide_resnet50_8", wide_resnet50_8);
      ("resnetlarge1", resnetlarge1);
      ("resnetlarge2", resnetlarge2);
      ("vit_tiny", vit_tiny);
      ("vit_small", vit_small);
      ("vit_base", vit_base);
      ("vit_large", vit_large);
      ("swin_tiny", swin_tiny);
      ("swin_small", swin_small);
      ("swin_base", swin_base);
      ("swin_large", swin_large);
      ("poolformer_s12", poolformer_s12);
      ("poolformer_s24", poolformer_s24);
      ("poolformer_s36", poolformer_s36);
      ("poolformer_m36", poolformer_m36);
      ("poolformer_m48", poolformer_m48);
      ("convnext_tiny", convnext_tiny);
      ("convnext_small", convnext_small);
      ("convnext_base", convnext_base);
      ("convnext_large", convnext_large) ].

(** The network constructors of [torchvision] and [solo.utils.backbones]:
    the factory, the positional [out_size] when one is passed, and the keyword
    arguments. *)
Class Constructors : Type :=
  instantiate :
    Factory -> option Z -> gmap string Py.value -> Py.result NN.Backbone.

(** Calling a registered factory.  [resnetlarge1(out_size, *args, **kwargs)]
    has the body [pass]: once its arguments bind it returns the [None]
    object.  A keyword [out_size] next to the positional one does not bind. *)
Definition call `{Constructors} (f : Factory) (out_size : option Z)
  (kwargs : gmap string Py.value) : Py.result (option NN.Backbone) :=
  match f with
  | resnetlarge1 =>
      match out_size with
      | None => Py.Raise Py.TypeError
      | Some _ =>
          match kwargs !! "out_size" with
          | Some _ => Py.Raise Py.TypeError
          | None => Py.Ok None
          end
      end
  | _ =>
      do m <- instantiate f out_size kwargs;
      Py.Ok (Some m)
  end.

End Registry.

(** ** Optimizers and schedulers of [torch.optim], [pl_bolts] and [solo.utils.lars] *)

Module Optim.

(** A parameter group: a dictionary with the keys [name], [params] and,
    optionally, [lr], [weight_decay] and [static_lr]. *)
Abbreviation Group := (gmap string Py.value).

Inductive Class_ : Type := SGD | Adam | AdamW.

(** An optimizer is the record of the call that built it. *)
Inductive Optimizer : Type :=
| Torch (cls : Class_) (param_groups : list Group) (lr weight_decay : Qc)
    (extra : gmap string Py.value)
| LARSWrapper (inner : Optimizer) (eta : Qc) (clip exclude_bias_n_norm : bool).

Inductive Schedule : Type :=
| LinearWarmupCosineAnnealingLR (warmup_epochs : Qc) (max_epochs : Z)
    (warmup_start_lr eta_min : Qc)
| CosineAnnealingLR (T_max : Z) (eta_min : Qc)
| MultiStepLR (milestones : option (list Z)).

(** The state a scheduler's [get_lr] reads: the epoch counter. *)
Abbreviation Clock := nat.

(** A callable returning one rate per parameter group. *)
Abbreviation GetLr := (Clock -> Py.result (list Qc)).

Record Scheduler : Type := {
  schedule : Schedule;
  optimizer : Optimizer;
  get_lr : GetLr;
}.

(** The [get_lr] methods of the scheduler classes. *)
Class Schedules : Type :=
  class_get_lr : Schedule -> Optimizer -> GetLr.

Definition new_scheduler `{Schedules} (s : Schedule) (o : Optimizer) : Scheduler :=
  {| schedule := s; optimizer := o; get_lr := class_get_lr s o |}.

(** [scheduler.get_lr = f] *)
Definition set_get_lr (f : GetLr) (s : Scheduler) : Scheduler :=
  {| schedule := schedule s; optimizer := optimizer s; get_lr := f |}.

End Optim.

(** ** Tensors and the functions of the networks *)

Module Torch.

(** The modules a method owns. *)
Inductive Which : Type :=
| Backbone
| Classifier
| MomentumBackbone
| MomentumClassifier.

(** Tensor values and the functions the steps apply to them: the forward
    pass of each module at its current parameters, [F.cross_entropy] with
    [ignore_index=-1], the share of samples (in percent) whose target is
    among the [k] largest logits, [targets.repeat(n)], [torch.cat], the
    boolean mask [targets != v] and the selection of the rows of a tensor,
    or of the entries of the targets, at which a mask holds. *)
Class Net : Type := {
  Tensor : Type;
  Targets : Type;
  Mask : Type;
  size0 : Targets -> Z;
  size1 : Tensor -> nat;
  forward : Which -> Tensor -> Tensor;
  detach : Tensor -> Tensor;
  cross_entropy : Tensor -> Targets -> Qc;
  correct_at : nat -> Tensor -> Targets -> Qc;
  repeat_targets : nat -> Targets -> Targets;
  cat : list Tensor -> Tensor;
  ne : Targets -> Z -> Mask;
  select : Tensor -> Mask -> Tensor;
  select_targets : Targets -> Mask -> Targets;
}.

(** The second element of a batch: one tensor, or the list of crops. *)
Inductive Crops `{Net} : Type :=
| Single (x : Tensor)
| Several (xs : list Tensor).

(** [X = [X] if isinstance(X, torch.Tensor) else X] *)
Definition as_list `{Net} (X : Crops) : list Tensor :=
  match X with
  | Single x => [x]
  | Several xs => xs
  end.

End Torch.

(** ** Helpers of [solo.utils.metrics] *)

Module Metrics.

Import Torch.

(** Modelled from the spec: [accuracy_at_k] lives in [solo.utils.metrics],
    which is not among the sources.  It returns one accuracy per requested
    [k]; section 7(c) of the spec names top-5 accuracy over fewer than five
    classes as the case that needs [k] clamped, so a [k] above the number of
    classes is an error of the underlying top-k selection. *)
Definition accuracy_at_k `{Net} (outputs : Tensor) (targets : Targets)
  (top_k : nat * nat) : Py.result (Qc * Qc) :=
  if (Nat.max (fst top_k) (snd top_k) <=? size1 outputs)%nat
  then Py.Ok (correct_at (fst top_k) outputs targets,
              correct_at (snd top_k) outputs targets)
  else Py.Raise Py.RuntimeError.

(** A validation output: the dictionary [validation_step] returns. *)
Abbreviation Output := (gmap string Qc).

(** [out[key]] *)
Definition item (key : string) (out : Output) : Py.result Qc :=
  match out !! key with
  | Some v => Py.Ok v
  | None => Py.Raise (Py.KeyError key)
  end.

(** The loop of [weighted_mean]: the running [value] and [n]. *)
Fixpoint accumulate (outputs : list Output) (key batch_size_key : string)
  (value n : Qc) : Py.result (Qc * Qc) :=
  match outputs with
  | [] => Py.Ok (value, n)
  | out :: rest =>
      do b <- item batch_size_key out;
      do v <- item key out;
      accumulate rest key batch_size_key (value + b * v)%Qc (n + b)%Qc
  end.

(** Modelled from the spec: [weighted_mean] lives in [solo.utils.metrics],
    which is not among the sources.  Following sections 4.4 and 8 of the
    spec it is the batch-size-weighted mean: the sum over the outputs of
    value times batch size, divided by the total batch size. *)
Definition weighted_mean (outputs : list Output) (key batch_size_key : string)
  : Py.result Qc :=
  do vn <- accumulate outputs key batch_size_key 0%Qc 0%Qc;
  if bool_decide (snd vn = 0%Qc) then Py.Raise Py.ZeroDivisionError
  else Py.Ok (fst vn / snd vn)%Qc.

End Metrics.

(** ** [BaseMethod] *)

Module BaseMethod.

Import Registry.

(** The arguments of [__init__]. *)
Module Args.
Record t : Type := {
  backbone : string;
  num_classes : Z;
  backbone_args : gmap string Py.value;
  max_epochs : Z;
  batch_size : Z;
  optimizer : string;
  lars : bool;
  lr : Qc;
  weight_decay : Qc;
  classifier_lr : Qc;
  exclude_bias_n_norm : bool;
  accumulate_grad_batches : option Z;
  extra_optimizer_args : gmap string Py.value;
  scheduler : string;
  min_lr : Qc;
  warmup_start_lr : Qc;
  warmup_epochs : Qc;
  num_large_crops : nat;
  num_small_crops : nat;
  eta_lars : Qc;
  grad_clip_lars : bool;
  lr_decay_steps : option (list Z);
  knn_eval : bool;
  knn_k : Z;
  out_size : Z;
  kwargs : gmap string Py.value;
}.
End Args.

(** The attributes assigned before the registry is consulted
    (the assignments up to the rescaling of the learning rates). *)
Record Hparams : Type := {
  backbone_args : gmap string Py.value;
  num_classes : Z;
  max_epochs : Z;
  batch_size : Z;
  optimizer : string;
  lars : bool;
  lr : Qc;
  weight_decay : Qc;
  classifier_lr : Qc;
  exclude_bias_n_norm : bool;
  accumulate_grad_batches : option Z;
  extra_optimizer_args : gmap string Py.value;
  scheduler : string;
  lr_decay_steps : option (list Z);
  min_lr : Qc;
  warmup_start_lr : Qc;
  warmup_epochs : Qc;
  num_large_crops : nat;
  num_small_crops : nat;
  eta_lars : Qc;
  grad_clip_lars : bool;
  knn_eval : bool;
  knn_k : Z;
  out_size : Z;
  num_crops : nat;
  extra_args : gmap string Py.value;
  multicrop : bool;
}.

(** [WeightedKNNClassifier(k=..., distance_fx=...)] *)
Record KNN : Type := {
  k : Z;
  distance_fx : string;
}.

(** A constructed [BaseMethod]. *)
Record t : Type := {
  hparams :> Hparams;
  base_model : Factory;
  backbone_name : string;
  backbone : option NN.Backbone;
  features_dim : Z;
  classifier : NN.Layer;
  knn : option KNN;
}.

(** [int] to [float], as the product of a float and an int does. *)
Definition of_int (n : Z) : Qc := Q2Qc (inject_Z n).

(** The plain attribute assignments at the head of [__init__]. *)
Definition store (a : Args.t) : Hparams :=
  {| backbone_args := Args.backbone_args a;
     num_classes := Args.num_classes a;
     max_epochs := Args.max_epochs a;
     batch_size := Args.batch_size a;
     optimizer := Args.optimizer a;
     lars := Args.lars a;
     lr := Args.lr a;
     weight_decay := Args.weight_decay a;
     classifier_lr := Args.classifier_lr a;
     exclude_bias_n_norm := Args.exclude_bias_n_norm a;
     accumulate_grad_batches := Args.accumulate_grad_batches a;
     extra_optimizer_args := Args.extra_optimizer_args a;
     scheduler := Args.scheduler a;
     lr_decay_steps := Args.lr_decay_steps a;
     min_lr := Args.min_lr a;
     warmup_start_lr := Args.warmup_start_lr a;
     warmup_epochs := Args.warmup_epochs a;
     num_large_crops := Args.num_large_crops a;
     num_small_crops := Args.num_small_crops a;
     eta_lars := Args.eta_lars a;
     grad_clip_lars := Args.grad_clip_lars a;
     knn_eval := Args.knn_eval a;
     knn_k := Args.knn_k a;
     out_size := Args.out_size a;
     num_crops := Args.num_large_crops a + Args.num_small_crops a;
     extra_args := Args.kwargs a;
     multicrop := negb (Args.num_small_crops a =? 0)%nat |}.

(** Assignment to the four learning-rate attributes. *)
Definition set_lrs (new_lr new_classifier_lr new_min_lr new_warmup_start_lr : Qc)
  (h : Hparams) : Hparams :=
  {| backbone_args := backbone_args h;
     num_classes := num_classes h;
     max_epochs := max_epochs h;
     batch_size := batch_size h;
     optimizer := optimizer h;
     lars := lars h;
     lr := new_lr;
     weight_decay := weight_decay h;
     classifier_lr := new_classifier_lr;
     exclude_bias_n_norm := exclude_bias_n_norm h;
     accumulate_grad_batches := accumulate_grad_batches h;
     extra_optimizer_args := extra_optimizer_args h;
     scheduler := scheduler h;
     lr_decay_steps := lr_decay_steps h;
     min_lr := new_min_lr;
     warmup_start_lr := new_warmup_start_lr;
     warmup_epochs := warmup_epochs h;
     num_large_crops := num_large_crops h;
     num_small_crops := num_small_crops h;
     eta_lars := eta_lars h;
     grad_clip_lars := grad_clip_lars h;
     knn_eval := knn_eval h;
     knn_k := knn_k h;
     out_size := out_size h;
     num_crops := num_crops h;
     extra_args := extra_args h;
     multicrop := multicrop h |}.

(** [if self.accumulate_grad_batches: self.lr = self.lr * ...] *)
Definition scale_lr (h : Hparams) : Hparams :=
  if Py.truthy_int (accumulate_grad_batches h) then
    match accumulate_grad_batches h with
    | Some n =>
        set_lrs (lr h * of_int n) (classifier_lr h * of_int n)
                (min_lr h * of_int n) (warmup_start_lr h * of_int n) h
    | None => h
    end
  else h.

(** [self._SUPPORTED_BACKBONES[backbone]] *)
Definition getitem (name : string) : Py.result Factory :=
  match _SUPPORTED_BACKBONES !! name with
  | Some f => Py.Ok f
  | None => Py.Raise (Py.KeyError name)
  end.

(** The surgery on a backbone of the resnet family, and the feature
    dimension read off the other families. *)
Definition adapt (name : string) (out_size : Z) (cifar : Py.value)
  (backbone : option NN.Backbone) : Py.result (option NN.Backbone * Z) :=
  if Py.contains "resnet" name then
    do inplanes <- NN.getattr "inplanes" NN.inplanes backbone;
    let features_dim :=
      if Py.contains "large" name then out_size else inplanes in
    do backbone <- NN.setattr "fc" (NN.set_fc NN.Identity) backbone;
    do backbone <-
      (if Py.truthy cifar then
         do b <- NN.setattr "conv1"
                   (NN.set_conv1 (NN.Conv2d 3 64 3 1 2 false)) backbone;
         NN.setattr "maxpool" (NN.set_maxpool NN.Identity) b
       else Py.Ok backbone);
    Py.Ok (backbone, features_dim)
  else
    do num_features <- NN.getattr "num_features" NN.num_features backbone;
    Py.Ok (backbone, num_features).

(** Instantiation of the backbone: the keyword arguments without [cifar],
    the swin window, and the positional [out_size] of the large resnets. *)
Definition build `{Constructors} (name : string) (base_model : Factory)
  (out_size : Z) (backbone_args : gmap string Py.value)
  : Py.result (option NN.Backbone * Z) :=
  let '(cifar, kwargs) := Py.pop "cifar" (Py.VBool false) backbone_args in
  let kwargs :=
    if Py.contains "swin" name && Py.truthy cifar
    then <["window_size" := Py.VInt 4]> kwargs
    else kwargs in
  do backbone <-
    (if Py.contains "resnetlarge" name
     then call base_model (Some out_size) kwargs
     else call base_model None kwargs);
  adapt name out_size cifar backbone.

Definition __init__ `{Constructors} (a : Args.t) : Py.result t :=
  let h := scale_lr (store a) in
  check Py.assert (bool_decide (is_Some (_SUPPORTED_BACKBONES !! Args.backbone a)));
  do base_model <- getitem (Args.backbone a);
  let backbone_name := Args.backbone a in
  do bf <- build backbone_name base_model (Args.out_size a) (backbone_args h);
  Py.Ok {| hparams := h;
           base_model := base_model;
           backbone_name := backbone_name;
           backbone := fst bf;
           features_dim := snd bf;
           classifier := NN.Linear (snd bf) (num_classes h);
           knn := if knn_eval h
                  then Some {| k := knn_k h; distance_fx := "euclidean" |}
                  else None |}.

(** *** Optimizer and scheduler configuration *)

(** [lrs[idx] = lr] for the pairs of [zip(param_group_indexes, lrs_to_replace)]. *)
Fixpoint overwrite (pairs : list (nat * Qc)) (lrs : list Qc) : Py.result (list Qc) :=
  match pairs with
  | [] => Py.Ok lrs
  | (idx, lr) :: rest =>
      if (idx <? length lrs)%nat
      then overwrite rest (<[idx := lr]> lrs)
      else Py.Raise Py.IndexError
  end.

(** The module-level function [static_lr].  The scheduler state that the
    bound method [get_lr] reads is the last argument. *)
Definition static_lr (get_lr : Optim.GetLr) (param_group_indexes : list nat)
  (lrs_to_replace : list Qc) : Optim.GetLr :=
  fun clock =>
    do lrs <- get_lr clock;
    overwrite (zip param_group_indexes lrs_to_replace) lrs.

(** [enumerate(xs)] *)
Fixpoint enumerate_from {A : Type} (start : nat) (xs : list A) : list (nat * A) :=
  match xs with
  | [] => []
  | x :: rest => (start, x) :: enumerate_from (S start) rest
  end.

Definition enumerate {A : Type} (xs : list A) : list (nat * A) :=
  enumerate_from 0 xs.

(** [m.pop("static_lr", False)] as a condition. *)
Definition is_static (m : Optim.Group) : bool :=
  Py.truthy (fst (Py.pop "static_lr" (Py.VBool false) m)).

(** [[i for i, m in enumerate(self.learnable_params) if m.pop("static_lr", False)]] *)
Definition idxs_no_scheduler (learnable_params : list Optim.Group) : list nat :=
  map fst (List.filter (fun im => is_static (snd im)) (enumerate learnable_params)).

(** The property [learnable_params] of the base class. *)
Definition learnable_params (self : Hparams) : list Optim.Group :=
  [ {[ "name" := Py.VStr "backbone"; "params" := Py.VParams "backbone" ]};
    {[ "name" := Py.VStr "classifier"; "params" := Py.VParams "classifier";
       "lr" := Py.VFloat (classifier_lr self); "weight_decay" := Py.VInt 0 ]} ].

(** What [configure_optimizers] returns: the optimizer alone, or the pair of
    one-element lists. *)
Inductive Configured : Type :=
| OptimizerOnly (o : Optim.Optimizer)
| WithScheduler (optimizers : list Optim.Optimizer) (schedulers : list Optim.Scheduler).

Definition select_optimizer (name : string) : Py.result Optim.Class_ :=
  if String.eqb name "sgd" then Py.Ok Optim.SGD
  else if String.eqb name "adam" then Py.Ok Optim.Adam
  else if String.eqb name "adamw" then Py.Ok Optim.AdamW
  else Py.Raise (Py.ValueError (name ++ " not in (sgd, adam, adamw)")).

Definition select_scheduler (self : Hparams) : Py.result Optim.Schedule :=
  if String.eqb (scheduler self) "warmup_cosine" then
    Py.Ok (Optim.LinearWarmupCosineAnnealingLR (warmup_epochs self) (max_epochs self)
             (warmup_start_lr self) (min_lr self))
  else if String.eqb (scheduler self) "cosine" then
    Py.Ok (Optim.CosineAnnealingLR (max_epochs self) (min_lr self))
  else if String.eqb (scheduler self) "step" then
    Py.Ok (Optim.MultiStepLR (lr_decay_steps self))
  else Py.Raise (Py.ValueError (scheduler self ++ " not in (warmup_cosine, cosine, step)")).

(** [configure_optimizers]; [params] is the value of the overridable property
    [self.learnable_params], which builds fresh dictionaries at every read, so
    the [pop] of the first read is not seen by the optimizer. *)
Definition configure_optimizers `{Optim.Schedules} (params : list Optim.Group)
  (self : Hparams) : Py.result Configured :=
  let idxs := idxs_no_scheduler params in
  do cls <- select_optimizer (optimizer self);
  let opt := Optim.Torch cls params (lr self) (weight_decay self)
               (extra_optimizer_args self) in
  do opt <-
    (if lars self then
       check Py.assert (String.eqb (optimizer self) "sgd");
       Py.Ok (Optim.LARSWrapper opt (eta_lars self) (grad_clip_lars self)
                (exclude_bias_n_norm self))
     else Py.Ok opt);
  if String.eqb (scheduler self) "none" then Py.Ok (OptimizerOnly opt)
  else
    do sch <- select_scheduler self;
    let sched := Optim.new_scheduler sch opt in
    let sched :=
      match idxs with
      | [] => sched
      | _ :: _ =>
          Optim.set_get_lr
            (static_lr (Optim.get_lr sched) idxs (replicate (length idxs) (lr self)))
            sched
      end in
    Py.Ok (WithScheduler [opt] [sched]).

(** *** Training and validation steps *)

Import Torch.

(** What a step does besides returning: metrics handed to the logger and
    features handed to the k-NN classifier, with the arguments of the
    call. *)
Inductive Effect `{Net} : Type :=
| LogDict (metrics : list (string * Qc)) (on_epoch : option bool) (sync_dist : bool)
| KnnTrain (train_features : Tensor) (train_targets : Targets)
| KnnTest (test_features : Tensor) (test_targets : Targets).

(** The dictionary [_base_shared_step] returns. *)
Record StepOut `{Net} : Type := {
  logits : Tensor;
  feats : Tensor;
  loss : Qc;
  acc1 : Qc;
  acc5 : Qc;
}.

(** The dictionary [training_step] returns. *)
Record TrainOut `{Net} : Type := {
  all_logits : list Tensor;
  all_feats : list Tensor;
  mean_loss : Qc;
  mean_acc1 : Qc;
  mean_acc5 : Qc;
}.

Definition of_nat (n : nat) : Qc := of_int (Z.of_nat n).

(** [base_forward]: the logits and the features. *)
Definition base_forward `{Net} (X : Tensor) : Tensor * Tensor :=
  let feats := forward Backbone X in
  let logits := forward Classifier (detach feats) in
  (logits, feats).

Definition _base_shared_step `{Net} (X : Tensor) (targets : Targets)
  : Py.result StepOut :=
  let out := base_forward X in
  let logits := fst out in
  let loss := cross_entropy logits targets in
  let top_k_max := Nat.min 5 (size1 logits) in
  do accs <- Metrics.accuracy_at_k logits targets (1, top_k_max)%nat;
  Py.Ok {| logits := logits; feats := snd out; loss := loss;
           acc1 := fst accs; acc5 := snd accs |}.

Definition training_step `{Net} (self : Hparams) (X : Crops) (targets : Targets)
  : Py.result (TrainOut * list Effect) :=
  let X := as_list X in
  check Py.assert (length X =? num_crops self)%nat;
  do outs <- Py.for_each (fun x => _base_shared_step x targets)
               (take (num_large_crops self) X);
  match outs with
  | [] => Py.Raise Py.IndexError
  | _ :: _ =>
      let feats :=
        if multicrop self
        then (map feats outs
                ++ map (forward Backbone) (drop (num_large_crops self) X))%list
        else map feats outs in
      let loss := (Py.sum (map loss outs) / of_nat (num_large_crops self))%Qc in
      let acc1 := (Py.sum (map acc1 outs) / of_nat (num_large_crops self))%Qc in
      let acc5 := (Py.sum (map acc5 outs) / of_nat (num_large_crops self))%Qc in
      let metrics :=
        [("train_class_loss", loss); ("train_acc1", acc1); ("train_acc5", acc5)] in
      let knn_calls :=
        if knn_eval self
        then
          let targets := repeat_targets (num_large_crops self) targets in
          let mask := ne targets (-1) in
          [KnnTrain (detach (select (cat (take (num_large_crops self) feats)) mask))
             (select_targets targets mask)]
        else [] in
      Py.Ok ({| all_logits := map logits outs; all_feats := feats;
                mean_loss := loss; mean_acc1 := acc1; mean_acc5 := acc5 |},
             LogDict metrics (Some true) true :: knn_calls)
  end.

Definition validation_step `{Net} (self : Hparams) (sanity_checking : bool)
  (X : Tensor) (targets : Targets) : Py.result (Metrics.Output * list Effect) :=
  let batch_size := size0 targets in
  do out <- _base_shared_step X targets;
  let knn_calls :=
    if knn_eval self && negb sanity_checking
    then [KnnTest (detach (feats out)) targets]
    else [] in
  Py.Ok ({[ "batch_size" := of_int batch_size;
            "val_loss" := loss out;
            "val_acc1" := acc1 out;
            "val_acc5" := acc5 out ]},
         knn_calls).

(** [validation_epoch_end]; [knn_compute] is what [self.knn.compute()]
    returns when it is called.  The method returns nothing: its result is
    the dictionary it logs. *)
Definition validation_epoch_end (self : Hparams) (sanity_checking : bool)
  (knn_compute : Qc * Qc) (outs : list Metrics.Output)
  : Py.result (list (string * Qc)) :=
  do val_loss <- Metrics.weighted_mean outs "val_loss" "batch_size";
  do val_acc1 <- Metrics.weighted_mean outs "val_acc1" "batch_size";
  do val_acc5 <- Metrics.weighted_mean outs "val_acc5" "batch_size";
  let log := [("val_loss", val_loss); ("val_acc1", val_acc1); ("val_acc5", val_acc5)] in
  Py.Ok (if knn_eval self && negb sanity_checking
         then (log ++ [("val_knn_acc1", fst knn_compute);
                       ("val_knn_acc5", snd knn_compute)])%list
         else log).

End BaseMethod.

(** ** [BaseMomentumMethod] *)

Module BaseMomentumMethod.

Import Torch.

(** A module that takes part in a momentum pair: the backbones, or a head
    that a subclass adds to [momentum_pairs]. *)
Inductive Member : Type :=
| TheBackbone
| TheMomentumBackbone
| Head (name : string).

(** The calls [on_train_batch_end] makes on the momentum updater and the
    logger, in order.  [MomentumUpdater] is code of [solo.utils.momentum]. *)
Inductive Call : Type :=
| Update (online momentum : Member)
| LogTau
| UpdateTau (cur_step max_steps : Z).

(** What the hook reads from [self.trainer]. *)
Record Trainer : Type := {
  global_step : Z;
  accumulate_grad_batches : option Z;
  train_dataloader_len : Z;
  max_epochs : Z;
}.

(** The attributes the class adds to a [BaseMethod].  [last_step] does not
    exist before [on_train_start] has run. *)
Record t : Type := {
  base :> BaseMethod.Hparams;
  momentum_classifier : option NN.Layer;
  last_step : option Z;
  calls : list Call;
}.

Definition set_last_step (v : Z) (self : t) : t :=
  {| base := base self; momentum_classifier := momentum_classifier self;
     last_step := Some v; calls := calls self |}.

Definition emit (cs : list Call) (self : t) : t :=
  {| base := base self; momentum_classifier := momentum_classifier self;
     last_step := last_step self; calls := (calls self ++ cs)%list |}.

(** The property [learnable_params]: the groups of the base class, then the
    momentum classifier's. *)
Definition learnable_params (self : t) : list Optim.Group :=
  (BaseMethod.learnable_params self
   ++ match momentum_classifier self with
      | Some _ =>
          [ {[ "name" := Py.VStr "momentum_classifier";
               "params" := Py.VParams "momentum_classifier";
               "lr" := Py.VFloat (BaseMethod.classifier_lr self);
               "weight_decay" := Py.VInt 0 ]} ]
      | None => []
      end)%list.

(** The property [momentum_pairs] of the base class. *)
Definition momentum_pairs : list (Member * Member) :=
  [(TheBackbone, TheMomentumBackbone)].

Definition on_train_start (self : t) : t :=
  set_last_step 0 self.

(** The classification part of what [_shared_step_momentum] returns. *)
Record Classified `{Net} : Type := {
  logits : Tensor;
  loss : Qc;
  acc1 : Qc;
  acc5 : Qc;
}.

(** The dictionary [_shared_step_momentum] returns: the features, and the
    four classification keys when there is a momentum classifier. *)
Record StepOut `{Net} : Type := {
  feats : Tensor;
  classified : option Classified;
}.

(** [base_momentum_forward] *)
Definition base_momentum_forward `{Net} (X : Tensor) : Tensor :=
  forward MomentumBackbone X.

Definition _shared_step_momentum `{Net} (self : t) (X : Tensor) (targets : Targets)
  : Py.result StepOut :=
  let feats := base_momentum_forward X in
  match momentum_classifier self with
  | Some _ =>
      let logits := forward MomentumClassifier feats in
      let loss := cross_entropy logits targets in
      do accs <- Metrics.accuracy_at_k logits targets (1, 5)%nat;
      Py.Ok {| feats := feats;
               classified := Some {| logits := logits; loss := loss;
                                     acc1 := fst accs; acc5 := snd accs |} |}
  | None => Py.Ok {| feats := feats; classified := None |}
  end.

(** The momentum classification keys of the dictionary [training_step]
    returns. *)
Record MomentumOut `{Net} : Type := {
  momentum_logits : list Tensor;
  momentum_loss : Qc;
  momentum_acc1 : Qc;
  momentum_acc5 : Qc;
}.

(** The dictionary [training_step] returns: the keys of the parent, then
    [momentum_feats], then the classification keys when there is a momentum
    classifier. *)
Record TrainOut `{Net} : Type := {
  outs : BaseMethod.TrainOut;
  momentum_feats : list Tensor;
  momentum_outs : option MomentumOut;
}.

(** [outs["loss"] += v] *)
Definition add_loss `{Net} (v : Qc) (o : BaseMethod.TrainOut) : BaseMethod.TrainOut :=
  {| BaseMethod.all_logits := BaseMethod.all_logits o;
     BaseMethod.all_feats := BaseMethod.all_feats o;
     BaseMethod.mean_loss := (BaseMethod.mean_loss o + v)%Qc;
     BaseMethod.mean_acc1 := BaseMethod.mean_acc1 o;
     BaseMethod.mean_acc5 := BaseMethod.mean_acc5 o |}.

(** The values of the classification keys, crop by crop; the keys are those
    of the first crop's dictionary, so they are there for all crops or for
    none. *)
Definition classifieds `{Net} (ms : list StepOut) : list Classified :=
  omap classified ms.

Definition training_step `{Net} (self : t) (X : Crops) (targets : Targets)
  : Py.result (TrainOut * list BaseMethod.Effect) :=
  do parent <- BaseMethod.training_step self X targets;
  let X := take (BaseMethod.num_large_crops self) (as_list X) in
  do ms <- Py.for_each (fun x => _shared_step_momentum self x targets) X;
  match ms with
  | [] => Py.Raise Py.IndexError
  | _ :: _ =>
      match momentum_classifier self with
      | Some _ =>
          let n := BaseMethod.of_nat (BaseMethod.num_large_crops self) in
          let cs := classifieds ms in
          let m_loss := (Py.sum (map loss cs) / n)%Qc in
          let m_acc1 := (Py.sum (map acc1 cs) / n)%Qc in
          let m_acc5 := (Py.sum (map acc5 cs) / n)%Qc in
          let metrics :=
            [("train_momentum_class_loss", m_loss);
             ("train_momentum_acc1", m_acc1);
             ("train_momentum_acc5", m_acc5)] in
          Py.Ok ({| outs := add_loss m_loss (fst parent);
                    momentum_feats := map feats ms;
                    momentum_outs :=
                      Some {| momentum_logits := map logits cs;
                              momentum_loss := m_loss;
                              momentum_acc1 := m_acc1;
                              momentum_acc5 := m_acc5 |} |},
                 (snd parent ++ [BaseMethod.LogDict metrics (Some true) true])%list)
      | None =>
          Py.Ok ({| outs := fst parent;
                    momentum_feats := map feats ms;
                    momentum_outs := None |},
                 snd parent)
      end
  end.

(** [cur_step] as passed to [update_tau]. *)
Definition scaled_step (trainer : Trainer) : Z :=
  if Py.truthy_int (accumulate_grad_batches trainer) then
    match accumulate_grad_batches trainer with
    | Some n => (global_step trainer * n)%Z
    | None => global_step trainer
    end
  else global_step trainer.

(** [on_train_batch_end]; [pairs] is the value of the overridable property
    [self.momentum_pairs]. *)
Definition on_train_batch_end (trainer : Trainer) (pairs : list (Member * Member))
  (self : t) : Py.result t :=
  match last_step self with
  | None => Py.Raise (Py.AttributeError "last_step")
  | Some last =>
      let self :=
        if (global_step trainer >? last)%Z then
          emit (map (fun mp => Update (fst mp) (snd mp)) pairs
                ++ [LogTau;
                    UpdateTau (scaled_step trainer)
                      (train_dataloader_len trainer * max_epochs trainer)%Z])%list
               self
        else self in
      Py.Ok (set_last_step (global_step trainer) self)
  end.

(** The hook run after each micro-batch of a training run, the trainer as it
    stands at each call. *)
Fixpoint run (trainers : list Trainer) (pairs : list (Member * Member)) (self : t)
  : Py.result t :=
  match trainers with
  | [] => Py.Ok self
  | trainer :: rest =>
      do self <- on_train_batch_end trainer pairs self;
      run rest pairs self
  end.

End BaseMomentumMethod.

(** ** Parameter initialisation: [variance_scaling_], [init_std_modules],
    [weights_init] *)

Module Init.

(** What a call of [variance_scaling_] ends in. *)
Inductive Failure : Type :=
| UnboundLocalError (name : string)
| ZeroDivisionError
| MathDomainError
| ValueError (msg : string).

(** The initialiser that is applied to the tensor. *)
Inductive Fill : Type :=
| TruncNormal (std : Qc)
| NormalFill (std : Qc)
| UniformFill (low high : Qc).

Inductive outcome : Type :=
| Filled (f : Fill)
| Failed (e : Failure).

(** The constant of the source: the standard deviation of the standard
    normal truncated to (-2, 2). *)
Definition truncated_std : Qc := Q2Qc (87962566103423978 # 100000000000000000).

(** [math.sqrt]: the root is a parameter, the domain error is the code's. *)
Definition math_sqrt (sqrt : Qc -> Qc) (x : Qc) : Failure + Qc :=
  if bool_decide (x < 0)%Qc then inl MathDomainError else inr (sqrt x).

(** [denom] after the chain of tests on [mode]: unbound when no test holds. *)
Definition denom_of (mode : string) (fan_in fan_out : Z) : option Qc :=
  if String.eqb mode "fan_in" then Some (Q2Qc (inject_Z fan_in))
  else if String.eqb mode "fan_out" then Some (Q2Qc (inject_Z fan_out))
  else if String.eqb mode "fan_avg"
       then Some (Q2Qc (inject_Z (fan_in + fan_out)) / Q2Qc (inject_Z 2))%Qc
  else None.

(** [variance_scaling_(tensor, scale, mode, distribution)]; [fan_in] and
    [fan_out] are what [_calculate_fan_in_and_fan_out] returned for the
    tensor. *)
Definition variance_scaling_ (sqrt : Qc -> Qc) (fan_in fan_out : Z) (scale : Qc)
  (mode distribution : string) : outcome :=
  match denom_of mode fan_in fan_out with
  | None => Failed (UnboundLocalError "denom")
  | Some denom =>
      if bool_decide (denom = 0%Qc) then Failed ZeroDivisionError
      else
        let variance := (scale / denom)%Qc in
        if String.eqb distribution "truncated_normal" then
          match math_sqrt sqrt variance with
          | inl e => Failed e
          | inr r => Filled (TruncNormal (r / truncated_std)%Qc)
          end
        else if String.eqb distribution "normal" then
          match math_sqrt sqrt variance with
          | inl e => Failed e
          | inr r => Filled (NormalFill r)
          end
        else if String.eqb distribution "uniform" then
          match math_sqrt sqrt (Q2Qc (inject_Z 3) * variance)%Qc with
          | inl e => Failed e
          | inr bound => Filled (UniformFill (- bound)%Qc bound)
          end
        else Failed (ValueError ("invalid distribution " ++ distribution))
  end.

(** The classes of modules the initialisers tell apart, with what they look
    at: whether a convolution or a linear layer has a bias, whether a
    normalisation layer is affine, and whether any other module has a
    [reset_parameters] method. *)
Inductive Kind : Type :=
| ConvNd (has_bias : bool)
| Linear (has_bias : bool)
| NormBase (affine : bool)
| Other (has_reset_parameters : bool).

(** A module with its direct children, in the order of [children()]. *)
#[local] Unset Elimination Schemes.
Inductive Tree : Type :=
| Node (kind : Kind) (children : list Tree).
#[local] Set Elimination Schemes.

Definition kind_of (m : Tree) : Kind :=
  match m with Node kind _ => kind end.

Definition children_of (m : Tree) : list Tree :=
  match m with Node _ children => children end.

(** What is done to one module. *)
Inductive Action : Type :=
| VarianceScaling
| TruncNormalWeight (std : Qc)
| ZerosBias
| OnesWeight
| ResetParameters
| NormalWeight (inverse_variance : Z).

(** A module is named by the child indexes that lead to it from the module
    the call was made on. *)
Abbreviation Path := (list nat).

(** [init_std_modules]: the actions on the module and the returned flag.
    Zeroing a bias that is [None] raises the [AttributeError] the code
    swallows. *)
Definition init_std_modules (kind : Kind) : list Action * bool :=
  match kind with
  | ConvNd has_bias =>
      (VarianceScaling :: (if has_bias then [ZerosBias] else []), true)
  | Linear has_bias =>
      (TruncNormalWeight (Q2Qc (2 # 100)) :: (if has_bias then [ZerosBias] else []), true)
  | NormBase affine =>
      (if affine then [OnesWeight; ZerosBias] else [], true)
  | Other _ => ([], false)
  end.

(** [hasattr(m, "reset_parameters")], asked of a module that is not a
    standard layer. *)
Definition has_reset (kind : Kind) : bool :=
  match kind with
  | Other has_reset_parameters => has_reset_parameters
  | _ => true
  end.

Definition here (actions : list Action) : list (Path * Action) :=
  map (fun a => ([], a)) actions.

Definition under (i : nat) (event : Path * Action) : Path * Action :=
  (i :: fst event, snd event).

(** [weights_init]: the module itself, then its direct children in order;
    a child that is no standard layer and has no [reset_parameters] is
    entered. *)
Fixpoint weights_init (module : Tree) : list (Path * Action) :=
  match module with
  | Node kind children =>
      (here (fst (init_std_modules kind))
       ++ (fix each (i : nat) (ms : list Tree) : list (Path * Action) :=
             match ms with
             | [] => []
             | m :: rest =>
                 (map (under i)
                    (if snd (init_std_modules (kind_of m))
                     then here (fst (init_std_modules (kind_of m)))
                     else if has_reset (kind_of m)
                          then [([], ResetParameters)]
                          else weights_init m)
                  ++ each (S i) rest)%list
             end) 0%nat children)%list
  end.

End Init.

(** ** [BottleneckExpand] *)

Module Bottleneck.

(** The attributes [__init__] computes from the channel counts. *)
Record t : Type := {
  in_channels : Z;
  hidden_channels : Z;
  out_channels : Z;
  is_residual : bool;
  expansion : Z;
}.

(** The submodules in the order they are assigned: three bias-free
    convolutions, each followed by a batch normalisation (affine by
    default), and the activation. *)
Definition modules : Init.Tree :=
  Init.Node (Init.Other true)
    [ Init.Node (Init.ConvNd false) [];
      Init.Node (Init.NormBase true) [];
      Init.Node (Init.ConvNd false) [];
      Init.Node (Init.NormBase true) [];
      Init.Node (Init.ConvNd false) [];
      Init.Node (Init.NormBase true) [];
      Init.Node (Init.Other false) [] ].

(** [reset_parameters]: [weights_init(self)], then the normal
    initialisation of [conv1.weight] with [std = 1 / sqrt(shape[0])], where
    [shape[0]] is the number of output channels of [conv1]. *)
Definition reset_parameters (self : t) : list (Init.Path * Init.Action) :=
  (Init.weights_init modules
   ++ [([0%nat], Init.NormalWeight (hidden_channels self))])%list.

(** [__init__]: the attributes, and the initialisation it ends with.  The
    remainder is taken before any layer is built, so [in_channels = 0]
    raises there.  With positive channel counts the constructors of the
    layers return and every tensor initialised has a positive fan-in; what
    the library does with other counts is not modelled ([None]). *)
Definition __init__ (in_channels hidden_channels out_channels : Z)
  : option (Py.result (t * list (Init.Path * Init.Action))) :=
  if (in_channels =? 0)%Z then Some (Py.Raise Py.ZeroDivisionError)
  else if (0 <? in_channels)%Z && (0 <? hidden_channels)%Z && (0 <? out_channels)%Z
  then
    let self :=
      {| in_channels := in_channels;
         hidden_channels := hidden_channels;
         out_channels := out_channels;
         is_residual := (out_channels mod in_channels =? 0)%Z;
         expansion := (out_channels / in_channels)%Z |} in
    Some (Py.Ok (self, reset_parameters self))
  else None.

(** A convolution or a batch normalisation on the channel count of its
    input: the count it was built for is the only one it takes. *)
Definition conv (in_ch out_ch : Z) (channels : Z) : Py.result Z :=
  if (channels =? in_ch)%Z then Py.Ok out_ch else Py.Raise Py.RuntimeError.

Definition bn (num_features : Z) (channels : Z) : Py.result Z :=
  if (channels =? num_features)%Z then Py.Ok channels else Py.Raise Py.RuntimeError.

(** [out += identity]: the channel counts are equal, or the one added
    broadcasts from a single channel. *)
Definition add_ (out identity : Z) : Py.result Z :=
  if (identity =? out)%Z || (identity =? 1)%Z then Py.Ok out
  else Py.Raise Py.RuntimeError.

(** [forward] on the number of channels of [x]. *)
Definition forward (self : t) (x : Z) : Py.result Z :=
  let identity := x in
  do out <- conv (in_channels self) (hidden_channels self) x;
  do out <- bn (hidden_channels self) out;
  do out <- conv (hidden_channels self) (hidden_channels self) out;
  do out <- bn (hidden_channels self) out;
  do out <- conv (hidden_channels self) (out_channels self) out;
  do out <- bn (out_channels self) out;
  if is_residual self
  then add_ out (expansion self * identity)%Z
  else Py.Ok out.

End Bottleneck.

(** ** The command-line arguments *)

Module Cli.

(** One [parser.add_argument] call. *)
Record Argument : Type := {
  flag : string;
  type_ : option string;
  default : Py.value;
  choices : option (list string);
  store_true : bool;
  required : bool;
  nargs : option string;
}.

Definition option_ (flag : string) (type_ : option string) (default : Py.value)
  : Argument :=
  {| flag := flag; type_ := type_; default := default; choices := None;
     store_true := false; required := false; nargs := None |}.

Definition switch (flag : string) : Argument :=
  {| flag := flag; type_ := None; default := Py.VBool false; choices := None;
     store_true := true; required := false; nargs := None |}.

(** The keys of [_SUPPORTED_BACKBONES], in the order of the dictionary. *)
Definition SUPPORTED_BACKBONES : list string :=
  [ "resnet18"; "resnet50"; "wide_resnet50_2"; "wide_resnet50_4";
    "wide_resnet50_8"; "resnetlarge1"; "resnetlarge2";
    "vit_tiny"; "vit_small"; "vit_base"; "vit_large";
    "swin_tiny"; "swin_small"; "swin_base"; "swin_large";
    "poolformer_s12"; "poolformer_s24"; "poolformer_s36";
    "poolformer_m36"; "poolformer_m48";
    "convnext_tiny"; "convnext_small"; "convnext_base"; "convnext_large" ].

Definition SUPPORTED_OPTIMIZERS : list string := ["sgd"; "adam"; "adamw"].

Definition SUPPORTED_SCHEDULERS : list string :=
  ["reduce"; "cosine"; "warmup_cosine"; "step"; "exponential"; "none"].

Definition float (n : Z) (d : positive) : Py.value := Py.VFloat (Q2Qc (n # d)).

(** [BaseMethod.add_model_specific_args]: the arguments it adds, in order. *)
Definition add_model_specific_args : list Argument :=
  [ {| flag := "--backbone"; type_ := Some "str"; default := Py.VNone;
       choices := Some SUPPORTED_BACKBONES; store_true := false;
       required := false; nargs := None |};
    switch "--zero_init_residual";
    option_ "--patch_size" (Some "int") (Py.VInt 16);
    option_ "--out_size" (Some "int") (Py.VInt 2048);
    option_ "--batch_size" (Some "int") (Py.VInt 128);
    option_ "--lr" (Some "float") (float 3 10);
    option_ "--classifier_lr" (Some "float") (float 3 10);
    option_ "--weight_decay" (Some "float") (float 1 10000);
    option_ "--num_workers" (Some "int") (Py.VInt 4);
    option_ "--name" None Py.VNone;
    option_ "--project" None Py.VNone;
    option_ "--group" (Some "str") Py.VNone;
    option_ "--entity" (Some "str") Py.VNone;
    switch "--wandb";
    switch "--offline";
    {| flag := "--optimizer"; type_ := Some "str"; default := Py.VNone;
       choices := Some SUPPORTED_OPTIMIZERS; store_true := false;
       required := true; nargs := None |};
    switch "--lars";
    switch "--grad_clip_lars";
    option_ "--eta_lars" (Some "float") (float 1 1000);
    switch "--exclude_bias_n_norm";
    {| flag := "--scheduler"; type_ := Some "str"; default := Py.VStr "reduce";
       choices := Some SUPPORTED_SCHEDULERS; store_true := false;
       required := false; nargs := None |};
    {| flag := "--lr_decay_steps"; type_ := Some "int"; default := Py.VNone;
       choices := None; store_true := false; required := false;
       nargs := Some "+" |};
    option_ "--min_lr" (Some "float") (float 0 1);
    option_ "--warmup_start_lr" (Some "float") (float 3 100000);
    option_ "--warmup_epochs" (Some "int") (Py.VInt 10);
    switch "--encode_indexes_into_labels";
    switch "--knn_eval";
    option_ "--knn_k" (Some "int") (Py.VInt 20) ].

(** [BaseMomentumMethod.add_model_specific_args]: the arguments of the
    parent, then its own. *)
Definition add_momentum_specific_args : list Argument :=
  (add_model_specific_args
   ++ [ option_ "--base_tau_momentum" (Some "float") (float 99 100);
        option_ "--final_tau_momentum" (Some "float") (float 1 1);
        switch "--momentum_classifier" ])%list.

(** The argument added under a flag. *)
Definition argument (flag_ : string) (arguments : list Argument) : option Argument :=
  List.find (fun a => String.eqb (flag a) flag_) arguments.

(** What the parser lets through for an argument with [choices]. *)
Definition accepts (a : Argument) (v : string) : bool :=
  match choices a with
  | Some cs => existsb (String.eqb v) cs
  | None => true
  end.

End Cli.

(** ** Validation of a momentum method *)

Module MomentumValidation.

Import Torch.

(** The second dictionary of the pair [validation_step] returns. *)
Definition momentum_metrics `{Net} (batch_size : Z) (c : BaseMomentumMethod.Classified)
  : Metrics.Output :=
  {[ "batch_size" := BaseMethod.of_int batch_size;
     "momentum_val_loss" := BaseMomentumMethod.loss c;
     "momentum_val_acc1" := BaseMomentumMethod.acc1 c;
     "momentum_val_acc5" := BaseMomentumMethod.acc5 c ]}.

(** [BaseMomentumMethod.validation_step]: the step of the parent first, then
    the momentum step; the classification keys are read only when there is a
    momentum classifier. *)
Definition validation_step `{Net} (self : BaseMomentumMethod.t) (sanity_checking : bool)
  (X : Tensor) (targets : Targets)
  : Py.result ((Metrics.Output * option Metrics.Output) * list BaseMethod.Effect) :=
  do parent <- BaseMethod.validation_step (BaseMomentumMethod.base self)
                 sanity_checking X targets;
  let batch_size := size0 targets in
  do out <- BaseMomentumMethod._shared_step_momentum self X targets;
  do metrics <-
    match BaseMomentumMethod.momentum_classifier self with
    | Some _ =>
        match BaseMomentumMethod.classified out with
        | Some c => Py.Ok (Some (momentum_metrics batch_size c))
        | None => Py.Raise (Py.KeyError "loss")
        end
    | None => Py.Ok None
    end;
  Py.Ok ((fst parent, metrics), snd parent).

End MomentumValidation.

(** ** Observations used in the statements *)

Module Observe.

Import BaseMethod.

(** The default learning rate an optimizer was built with. *)
Fixpoint default_lr (o : Optim.Optimizer) : Qc :=
  match o with
  | Optim.Torch _ _ lr _ _ => lr
  | Optim.LARSWrapper inner _ _ _ => default_lr inner
  end.

(** The parameter groups an optimizer was built over. *)
Fixpoint param_groups (o : Optim.Optimizer) : list Optim.Group :=
  match o with
  | Optim.Torch _ groups _ _ _ => groups
  | Optim.LARSWrapper inner _ _ _ => param_groups inner
  end.

Definition optimizers_of (c : Configured) : list Optim.Optimizer :=
  match c with
  | OptimizerOnly o => [o]
  | WithScheduler os _ => os
  end.

Definition schedulers_of (c : Configured) : list Optim.Scheduler :=
  match c with
  | OptimizerOnly _ => []
  | WithScheduler _ ss => ss
  end.

(** What [__init__] establishes between the crop attributes. *)
Definition crops_consistent (h : Hparams) : Prop :=
  num_crops h = (num_large_crops h + num_small_crops h)%nat
  /\ multicrop h = negb (num_small_crops h =? 0)%nat.

(** The number of [update_tau] calls in a trace. *)
Fixpoint tau_updates (cs : list BaseMomentumMethod.Call) : nat :=
  match cs with
  | [] => 0
  | BaseMomentumMethod.UpdateTau _ _ :: rest => S (tau_updates rest)
  | _ :: rest => tau_updates rest
  end.

(** The number of parameter updates in a trace. *)
Fixpoint ema_updates (cs : list BaseMomentumMethod.Call) : nat :=
  match cs with
  | [] => 0
  | BaseMomentumMethod.Update _ _ :: rest => S (ema_updates rest)
  | _ :: rest => ema_updates rest
  end.

(** A training run as the hook sees it: from one call to the next the
    global step stays (a micro-batch that is only accumulated) or grows by
    one (an optimizer step was taken). *)
Fixpoint steps_by_one (start : Z) (trainers : list BaseMomentumMethod.Trainer) : Prop :=
  match trainers with
  | [] => True
  | tr :: rest =>
      (BaseMomentumMethod.global_step tr = start
       \/ BaseMomentumMethod.global_step tr = (start + 1)%Z)
      /\ steps_by_one (BaseMomentumMethod.global_step tr) rest
  end.

(** The global step at the last call. *)
Definition final_step (start : Z) (trainers : list BaseMomentumMethod.Trainer) : Z :=
  match last trainers with
  | Some tr => BaseMomentumMethod.global_step tr
  | None => start
  end.

(** The weighted mean in the spec's words: the sum of value times batch
    size, divided by the total batch size. *)
Definition weighted_mean_spec (batches : list (Qc * Qc)) : Qc :=
  (fold_right Qcplus 0 (map (fun bv => fst bv * snd bv) batches)
   / fold_right Qcplus 0 (map fst batches))%Qc.

(** The unweighted mean of the values. *)
Definition plain_mean (batches : list (Qc * Qc)) : Qc :=
  (fold_right Qcplus 0 (map snd batches)
   / BaseMethod.of_nat (length batches))%Qc.

(** The names [configure_optimizers] accepts. *)
Definition known_optimizer (name : string) : Prop :=
  name = "sgd" \/ name = "adam" \/ name = "adamw".

Definition known_scheduler (name : string) : Prop :=
  name = "warmup_cosine" \/ name = "cosine" \/ name = "step".

(** The optimizer as it stands after the optional LARS wrapping. *)
Definition wrapped (cls : Optim.Class_) (params : list Optim.Group) (self : Hparams)
  : Optim.Optimizer :=
  let opt := Optim.Torch cls params (lr self) (weight_decay self)
               (extra_optimizer_args self) in
  if lars self
  then Optim.LARSWrapper opt (eta_lars self) (grad_clip_lars self)
         (exclude_bias_n_norm self)
  else opt.

(** The scheduler as it stands after the optional wrapping of [get_lr]. *)
Definition pinned `{Optim.Schedules} (sch : Optim.Schedule) (opt : Optim.Optimizer)
  (params : list Optim.Group) (self : Hparams) : Optim.Scheduler :=
  match idxs_no_scheduler params with
  | [] => Optim.new_scheduler sch opt
  | _ :: _ =>
      Optim.set_get_lr
        (static_lr (Optim.class_get_lr sch opt) (idxs_no_scheduler params)
           (replicate (length (idxs_no_scheduler params)) (lr self)))
        (Optim.new_scheduler sch opt)
  end.

(** The calls one firing of the hook makes: an update per momentum pair,
    the log of tau, the advancement of tau. *)
Definition firing (trainer : BaseMomentumMethod.Trainer)
  (pairs : list (BaseMomentumMethod.Member * BaseMomentumMethod.Member))
  : list BaseMomentumMethod.Call :=
  (map (fun mp => BaseMomentumMethod.Update (fst mp) (snd mp)) pairs
   ++ [BaseMomentumMethod.LogTau;
       BaseMomentumMethod.UpdateTau (BaseMomentumMethod.scaled_step trainer)
         (BaseMomentumMethod.train_dataloader_len trainer
          * BaseMomentumMethod.max_epochs trainer)%Z])%list.

(** The logits of the online classifier and of the momentum classifier on
    a crop. *)
Definition online_logits `{Torch.Net} (x : Torch.Tensor) : Torch.Tensor :=
  fst (BaseMethod.base_forward x).

Definition momentum_logits `{Torch.Net} (x : Torch.Tensor) : Torch.Tensor :=
  Torch.forward Torch.MomentumClassifier (BaseMomentumMethod.base_momentum_forward x).

(** What [_base_shared_step] returns when the accuracy helper returns. *)
Definition online_step `{Torch.Net} (targets : Torch.Targets) (x : Torch.Tensor)
  : BaseMethod.StepOut :=
  {| BaseMethod.logits := online_logits x;
     BaseMethod.feats := snd (BaseMethod.base_forward x);
     BaseMethod.loss := Torch.cross_entropy (online_logits x) targets;
     BaseMethod.acc1 := Torch.correct_at 1 (online_logits x) targets;
     BaseMethod.acc5 :=
       Torch.correct_at (Nat.min 5 (Torch.size1 (online_logits x)))
         (online_logits x) targets |}.

(** The equal-weight mean of one number per large crop. *)
Definition crop_mean `{Torch.Net} (n : nat) (f : Torch.Tensor -> Qc)
  (large : list Torch.Tensor) : Qc :=
  (Py.sum (map f large) / BaseMethod.of_nat n)%Qc.

(** One validation batch: its size and the three values its step computed. *)
Record Batch : Type := {
  size : Qc;
  val_loss : Qc;
  val_acc1 : Qc;
  val_acc5 : Qc;
}.

(** The dictionary [validation_step] returns for a batch. *)
Definition validation_output (b : Batch) : Metrics.Output :=
  {[ "batch_size" := size b;
     "val_loss" := val_loss b;
     "val_acc1" := val_acc1 b;
     "val_acc5" := val_acc5 b ]}.

(** The batch behind a step of the online classifier. *)
Definition batch_of `{Torch.Net} (x : Torch.Tensor) (targets : Torch.Targets) : Batch :=
  {| size := BaseMethod.of_int (Torch.size0 targets);
     val_loss := BaseMethod.loss (online_step targets x);
     val_acc1 := BaseMethod.acc1 (online_step targets x);
     val_acc5 := BaseMethod.acc5 (online_step targets x) |}.

End Observe.

(** ** Concrete instances for the examples *)

Module Sample.

Import BaseMethod.

Definition q (n : Z) (d : positive) : Qc := Q2Qc (n # d).

(** A constructor table in which the resnet family carries [inplanes] and
    the other families [num_features]. *)
Definition constructors : Registry.Constructors :=
  fun f _ _ =>
    match f with
    | Registry.resnet18 =>
        Py.Ok {| NN.arch := "resnet18"; NN.inplanes := Some 512%Z;
                 NN.num_features := None;
                 NN.fc := Some (NN.Linear 512 1000);
                 NN.conv1 := Some (NN.Conv2d 3 64 7 2 3 false);
                 NN.maxpool := Some (NN.Native "MaxPool2d") |}
    | Registry.vit_tiny =>
        Py.Ok {| NN.arch := "vit_tiny"; NN.inplanes := None;
                 NN.num_features := Some 192%Z;
                 NN.fc := None; NN.conv1 := None; NN.maxpool := None |}
    | _ => Py.Raise Py.RuntimeError
    end.

Definition args (backbone optimizer scheduler : string) (lars : bool)
  (accumulate : option Z) : Args.t :=
  {| Args.backbone := backbone;
     Args.num_classes := 10;
     Args.backbone_args := {[ "cifar" := Py.VBool true ]};
     Args.max_epochs := 100;
     Args.batch_size := 128;
     Args.optimizer := optimizer;
     Args.lars := lars;
     Args.lr := q 1 10;
     Args.weight_decay := q 1 10000;
     Args.classifier_lr := q 3 10;
     Args.exclude_bias_n_norm := false;
     Args.accumulate_grad_batches := accumulate;
     Args.extra_optimizer_args := ∅;
     Args.scheduler := scheduler;
     Args.min_lr := q 1 1000;
     Args.warmup_start_lr := q 3 100000;
     Args.warmup_epochs := q 10 1;
     Args.num_large_crops := 2;
     Args.num_small_crops := 2;
     Args.eta_lars := q 1 1000;
     Args.grad_clip_lars := false;
     Args.lr_decay_steps := None;
     Args.knn_eval := false;
     Args.knn_k := 20;
     Args.out_size := 2048;
     Args.kwargs := ∅ |}.

(** Schedulers whose own computation yields the same rate for every group. *)
Definition schedules : Optim.Schedules :=
  fun _ o _ => Py.Ok (replicate (length (Observe.param_groups o)) (q 1 8)).

(** The rows of a tensor stored row by row, [w] numbers each, at which the
    mask holds. *)
Fixpoint rows (w : nat) (mask : list bool) (x : list Qc) : list Qc :=
  match mask with
  | [] => []
  | b :: mask =>
      ((if b then take w x else []) ++ rows w mask (drop w x))%list
  end.

(** A network over rows of numbers: features and logits are lists whose
    length is the number of classes the head in question has; concatenated
    batches are stored row by row. *)
Definition net (classes momentum_classes : nat) : Torch.Net :=
  {| Torch.Tensor := list Qc;
     Torch.Targets := list Z;
     Torch.Mask := list bool;
     Torch.size0 := fun t => Z.of_nat (length t);
     Torch.size1 := fun x => length x;
     Torch.forward := fun w x =>
       match w with
       | Torch.Backbone => x
       | Torch.Classifier => replicate classes (Py.sum x)
       | Torch.MomentumBackbone => map (Qcmult (q 1 2)) x
       | Torch.MomentumClassifier => replicate momentum_classes (Py.sum x)
       end;
     Torch.detach := fun x => x;
     Torch.cross_entropy := fun logits _ => Py.sum logits;
     Torch.correct_at := fun k _ _ => BaseMethod.of_nat k;
     Torch.repeat_targets := fun n t => concat (replicate n t);
     Torch.cat := fun xs => concat xs;
     Torch.ne := fun t v => map (fun z => negb (z =? v)%Z) t;
     Torch.select := fun x mask => rows (length x / length mask) mask x;
     Torch.select_targets := fun t mask =>
       map fst (List.filter snd (zip t mask)) |}.

(** The groups of the base class with the classifier group marked static. *)
Definition static_classifier_params (self : Hparams) : list Optim.Group :=
  match learnable_params self with
  | [backbone; classifier] =>
      [backbone; <[ "static_lr" := Py.VBool true ]> classifier]
  | other => other
  end.

(** A momentum method just constructed: no [last_step] yet, no call made. *)
Definition momentum_method (momentum_classifier : bool) : BaseMomentumMethod.t :=
  {| BaseMomentumMethod.base :=
       store (args "resnet18" "sgd" "none" false None);
     BaseMomentumMethod.momentum_classifier :=
       if momentum_classifier then Some (NN.Linear 512 10) else None;
     BaseMomentumMethod.last_step := None;
     BaseMomentumMethod.calls := [] |}.

(** The trainer at a given global step, accumulating four micro-batches per
    optimizer step, 100 batches per epoch for 10 epochs. *)
Definition trainer_at (step : Z) : BaseMomentumMethod.Trainer :=
  {| BaseMomentumMethod.global_step := step;
     BaseMomentumMethod.accumulate_grad_batches := Some 4%Z;
     BaseMomentumMethod.train_dataloader_len := 100;
     BaseMomentumMethod.max_epochs := 10 |}.

(** Three validation batches of sizes 10, 10 and 2 with losses 1, 2 and 5. *)
Definition batches : list Observe.Batch :=
  [ {| Observe.size := q 10 1; Observe.val_loss := q 1 1;
       Observe.val_acc1 := q 50 1; Observe.val_acc5 := q 90 1 |};
    {| Observe.size := q 10 1; Observe.val_loss := q 2 1;
       Observe.val_acc1 := q 40 1; Observe.val_acc5 := q 80 1 |};
    {| Observe.size := q 2 1; Observe.val_loss := q 5 1;
       Observe.val_acc1 := q 0 1; Observe.val_acc5 := q 50 1 |} ].

End Sample.

(** ** Families of the registry *)

Module Families.

Import Registry.

(** The factories defined with a leading positional [out_size]. *)
Definition takes_out_size (f : Factory) : bool :=
  match f with
  | resnetlarge1 | resnetlarge2 => true
  | _ => false
  end.

(** The factories that build (or stand for) a torchvision [ResNet]. *)
Definition is_resnet (f : Factory) : bool :=
  match f with
  | resnet18 | resnet50 | wide_resnet50_2 | wide_resnet50_4 | wide_resnet50_8
  | resnetlarge1 | resnetlarge2 => true
  | _ => false
  end.

Definition is_swin (f : Factory) : bool :=
  match f with
  | swin_tiny | swin_small | swin_base | swin_large => true
  | _ => false
  end.

(** How [__init__] treats a registered name, against the family of the
    factory the name maps to. *)
Definition dispatch_matches (name : string) (f : Factory) : bool :=
  Bool.eqb (Py.contains "resnetlarge" name) (takes_out_size f)
  && Bool.eqb (Py.contains "resnet" name) (is_resnet f)
  && Bool.eqb (Py.contains "resnet" name && Py.contains "large" name)
       (takes_out_size f)
  && Bool.eqb (Py.contains "swin" name) (is_swin f).

End Families.

(** ** Observations on module trees *)

Module Reach.

Import Init.

(** A module that [weights_init] enters when it meets it as a child: no
    standard layer, and without [reset_parameters]. *)
Definition plain (m : Tree) : bool :=
  match kind_of m with
  | Other false => true
  | _ => false
  end.

(** The module at a path. *)
Fixpoint subtree (m : Tree) (p : Path) : option Tree :=
  match p with
  | [] => Some m
  | i :: rest =>
      match children_of m !! i with
      | Some c => subtree c rest
      | None => None
      end
  end.

(** The module at a path, provided every module strictly between the root
    and it is plain. *)
Fixpoint reached (m : Tree) (p : Path) : option Tree :=
  match p with
  | [] => Some m
  | i :: rest =>
      match children_of m !! i with
      | None => None
      | Some c =>
          match rest with
          | [] => Some c
          | _ :: _ => if plain c then reached c rest else None
          end
      end
  end.

(** What is due to a module: at the root the standard initialisation only;
    below the root the standard initialisation of a standard layer, the
    module's own [reset_parameters] when it has one, nothing for a plain
    module. *)
Definition due (p : Path) (m : Tree) : list Action :=
  match p with
  | [] => fst (init_std_modules (kind_of m))
  | _ :: _ =>
      if snd (init_std_modules (kind_of m)) then fst (init_std_modules (kind_of m))
      else if has_reset (kind_of m) then [ResetParameters]
      else []
  end.

(** What the loop of [weights_init] does for one child. *)
Definition child (m : Tree) : list (Path * Action) :=
  if snd (init_std_modules (kind_of m))
  then here (fst (init_std_modules (kind_of m)))
  else if has_reset (kind_of m)
       then [([], ResetParameters)]
       else weights_init m.

(** The loop of [weights_init] over the children, from a given index. *)
Fixpoint each (i : nat) (ms : list Tree) : list (Path * Action) :=
  match ms with
  | [] => []
  | m :: rest => (map (under i) (child m) ++ each (S i) rest)%list
  end.

End Reach.

(** ** The k-NN call of the training step, and the modes of the initialiser *)

Module Knn.

Import Torch.

(** The call of the k-NN classifier in [training_step], from the features
    of the large crops and the targets of the batch: the targets are
    repeated once per large crop, and the rows of the concatenated features
    and the targets are kept where the repeated target is not -1. *)
Definition knn_train `{Net} (self : BaseMethod.Hparams) (large_feats : list Tensor)
  (targets : Targets) : BaseMethod.Effect :=
  let repeated := repeat_targets (BaseMethod.num_large_crops self) targets in
  let mask := ne repeated (-1) in
  BaseMethod.KnnTrain (detach (select (cat large_feats) mask))
    (select_targets repeated mask).

(** The arguments with the k-NN evaluation switched on. *)
Definition with_knn_eval (a : BaseMethod.Args.t) : BaseMethod.Args.t :=
  let 'BaseMethod.Args.Build_t backbone num_classes backbone_args max_epochs batch_size
        optimizer lars lr weight_decay classifier_lr exclude_bias_n_norm
        accumulate_grad_batches extra_optimizer_args scheduler min_lr
        warmup_start_lr warmup_epochs num_large_crops num_small_crops eta_lars
        grad_clip_lars lr_decay_steps _ knn_k out_size kwargs := a in
  BaseMethod.Args.Build_t backbone num_classes backbone_args max_epochs batch_size
    optimizer lars lr weight_decay classifier_lr exclude_bias_n_norm
    accumulate_grad_batches extra_optimizer_args scheduler min_lr
    warmup_start_lr warmup_epochs num_large_crops num_small_crops eta_lars
    grad_clip_lars lr_decay_steps true knn_k out_size kwargs.

End Knn.

(** The modes [variance_scaling_] tests for. *)
Definition known_mode (mode : string) : Prop :=
  mode = "fan_in" \/ mode = "fan_out" \/ mode = "fan_avg".

(** * Properties *)

(** ** Construction *)

Section Construction.

Import BaseMethod Registry.

Context `{Constructors}.

Lemma truthy_int_spec (o : option Z) :
  Py.truthy_int o = true <-> exists n, o = Some n /\ n <> 0%Z.
Proof.
  destruct o as [n|]; simpl.
  - rewrite negb_true_iff, Z.eqb_neq. split.
    + intros Hn. exists n. split; [reflexivity | exact Hn].
    + intros (m & Hm & Hne). injection Hm as ->. exact Hne.
  - split; [discriminate | intros (m & Hm & _); discriminate].
Qed.

(** Rescaling touches the four learning rates and nothing else. *)
Lemma scale_lr_frame (h : Hparams) :
  set_lrs (lr h) (classifier_lr h) (min_lr h) (warmup_start_lr h) (scale_lr h) = h.
Proof.
  unfold scale_lr.
  destruct (Py.truthy_int (accumulate_grad_batches h));
    [destruct (accumulate_grad_batches h) |]; destruct h; reflexivity.
Qed.

Lemma scale_lr_on (h : Hparams) (n : Z) :
  accumulate_grad_batches h = Some n -> n <> 0%Z ->
  scale_lr h =
    set_lrs (lr h * of_int n) (classifier_lr h * of_int n)
            (min_lr h * of_int n) (warmup_start_lr h * of_int n) h.
Proof.
  intros Hacc Hn. unfold scale_lr. rewrite Hacc. simpl.
  destruct (Z.eqb_spec n 0); [contradiction | reflexivity].
Qed.

Lemma scale_lr_off (h : Hparams) :
  Py.truthy_int (accumulate_grad_batches h) = false -> scale_lr h = h.
Proof. intros Hacc. unfold scale_lr. rewrite Hacc. reflexivity. Qed.

Lemma scale_lr_crops (h : Hparams) :
  Observe.crops_consistent h -> Observe.crops_consistent (scale_lr h).
Proof.
  unfold scale_lr.
  destruct (Py.truthy_int (accumulate_grad_batches h));
    [destruct (accumulate_grad_batches h) |]; trivial.
Qed.

Lemma store_crops (a : Args.t) : Observe.crops_consistent (store a).
Proof. split; reflexivity. Qed.

Lemma getitem_spec (name : string) (f : Factory) :
  getitem name = Py.Ok f <-> _SUPPORTED_BACKBONES !! name = Some f.
Proof.
  unfold getitem. destruct (_SUPPORTED_BACKBONES !! name) as [g|].
  - split; intros Heq; injection Heq as ->; reflexivity.
  - split; discriminate.
Qed.

(** What a successful construction went through. *)
Lemma init_inv (a : Args.t) (self : t) :
  __init__ a = Py.Ok self ->
  exists f bf,
    _SUPPORTED_BACKBONES !! Args.backbone a = Some f
    /\ build (Args.backbone a) f (Args.out_size a)
         (backbone_args (scale_lr (store a))) = Py.Ok bf
    /\ hparams self = scale_lr (store a)
    /\ base_model self = f
    /\ backbone self = fst bf
    /\ features_dim self = snd bf.
Proof.
  unfold __init__, getitem.
  destruct (_SUPPORTED_BACKBONES !! Args.backbone a) as [f|] eqn:Hreg.
  - rewrite bool_decide_eq_true_2 by (eexists; reflexivity). simpl.
    destruct (build _ f _ _) as [bf|e] eqn:Hb; simpl; [| discriminate].
    intros Heq. injection Heq as <-. exists f, bf. repeat split; assumption.
  - rewrite bool_decide_eq_false_2 by (intros [x Hx]; discriminate). discriminate.
Qed.

(** Construction succeeds once the name is registered and the backbone
    builds. *)
Lemma init_ok (a : Args.t) (f : Factory) (bf : option NN.Backbone * Z) :
  _SUPPORTED_BACKBONES !! Args.backbone a = Some f ->
  build (Args.backbone a) f (Args.out_size a)
    (backbone_args (scale_lr (store a))) = Py.Ok bf ->
  exists self, __init__ a = Py.Ok self /\ hparams self = scale_lr (store a).
Proof.
  intros Hreg Hb. unfold __init__, getitem. rewrite Hreg.
  rewrite bool_decide_eq_true_2 by (eexists; reflexivity). simpl.
  rewrite Hb. simpl. eexists. split; reflexivity.
Qed.

Lemma init_unregistered (a : Args.t) :
  _SUPPORTED_BACKBONES !! Args.backbone a = None ->
  __init__ a = Py.Raise Py.AssertionError.
Proof.
  intros Hreg. unfold __init__. rewrite Hreg.
  rewrite bool_decide_eq_false_2 by (intros [x Hx]; discriminate). reflexivity.
Qed.

Lemma registry_resnetlarge1 :
  _SUPPORTED_BACKBONES !! "resnetlarge1" = Some resnetlarge1.
Proof. vm_compute. reflexivity. Qed.

(** Under the name resnetlarge1 the backbone never builds: the factory
    call fails to bind, or returns the [None] object, whose [inplanes] is
    read next. *)
Lemma build_resnetlarge1 (out_size : Z) (backbone_args : gmap string Py.value) :
  build "resnetlarge1" resnetlarge1 out_size backbone_args =
    match delete "cifar" backbone_args !! "out_size" with
    | Some _ => Py.Raise Py.TypeError
    | None => Py.Raise (Py.AttributeError "inplanes")
    end.
Proof.
  unfold build, Py.pop.
  replace (Py.contains "swin" "resnetlarge1") with false by (vm_compute; reflexivity).
  replace (Py.contains "resnetlarge" "resnetlarge1") with true by (vm_compute; reflexivity).
  cbn [andb]. unfold call.
  destruct (delete "cifar" backbone_args !! "out_size"); cbn [Py.bind]; [reflexivity |].
  unfold adapt.
  replace (Py.contains "resnet" "resnetlarge1") with true by (vm_compute; reflexivity).
  reflexivity.
Qed.

End Construction.

(** ** Optimizer and scheduler configuration: which calls return *)

Section Configuration.

Import BaseMethod Observe.

Context `{Optim.Schedules}.

Lemma select_optimizer_known (name : string) :
  known_optimizer name -> exists cls, select_optimizer name = Py.Ok cls.
Proof.
  intros [-> | [-> | ->]]; eexists; reflexivity.
Qed.

Lemma select_optimizer_unknown (name : string) :
  ~ known_optimizer name ->
  select_optimizer name = Py.Raise (Py.ValueError (name ++ " not in (sgd, adam, adamw)")).
Proof.
  intros Hn. unfold select_optimizer.
  destruct (String.eqb_spec name "sgd") as [-> | _];
    [exfalso; apply Hn; left; reflexivity |].
  destruct (String.eqb_spec name "adam") as [-> | _];
    [exfalso; apply Hn; right; left; reflexivity |].
  destruct (String.eqb_spec name "adamw") as [-> | _];
    [exfalso; apply Hn; right; right; reflexivity |].
  reflexivity.
Qed.

Lemma select_scheduler_known (self : Hparams) :
  known_scheduler (scheduler self) -> exists sch, select_scheduler self = Py.Ok sch.
Proof.
  unfold select_scheduler. intros [-> | [-> | ->]]; eexists; reflexivity.
Qed.

Lemma select_scheduler_unknown (self : Hparams) :
  ~ known_scheduler (scheduler self) ->
  select_scheduler self =
    Py.Raise (Py.ValueError (scheduler self ++ " not in (warmup_cosine, cosine, step)")).
Proof.
  intros Hn. unfold select_scheduler.
  destruct (String.eqb_spec (scheduler self) "warmup_cosine") as [He | _];
    [exfalso; apply Hn; left; exact He |].
  destruct (String.eqb_spec (scheduler self) "cosine") as [He | _];
    [exfalso; apply Hn; right; left; exact He |].
  destruct (String.eqb_spec (scheduler self) "step") as [He | _];
    [exfalso; apply Hn; right; right; exact He |].
  reflexivity.
Qed.

(** The calls that return, and what they return. *)
Lemma configure_ok (params : list Optim.Group) (self : Hparams) (cls : Optim.Class_) :
  select_optimizer (optimizer self) = Py.Ok cls ->
  (lars self = true -> optimizer self = "sgd") ->
  configure_optimizers params self =
    if String.eqb (scheduler self) "none"
    then Py.Ok (OptimizerOnly (wrapped cls params self))
    else
      do sch <- select_scheduler self;
      Py.Ok (WithScheduler [wrapped cls params self]
               [pinned sch (wrapped cls params self) params self]).
Proof.
  intros Hcls Hlars. unfold configure_optimizers, wrapped, pinned.
  rewrite Hcls. simpl.
  destruct (lars self) eqn:Hl.
  - rewrite (Hlars eq_refl). simpl. reflexivity.
  - simpl. reflexivity.
Qed.

(** LARS over anything but SGD. *)
Lemma configure_lars_not_sgd (params : list Optim.Group) (self : Hparams) :
  lars self = true -> optimizer self <> "sgd" ->
  configure_optimizers params self =
    if bool_decide (known_optimizer (optimizer self))
    then Py.Raise Py.AssertionError
    else Py.Raise (Py.ValueError (optimizer self ++ " not in (sgd, adam, adamw)")).
Proof.
  intros Hl Hne. unfold configure_optimizers. rewrite Hl.
  unfold select_optimizer.
  destruct (String.eqb_spec (optimizer self) "sgd") as [He | _]; [contradiction |].
  destruct (String.eqb_spec (optimizer self) "adam") as [He | Hn1].
  { rewrite bool_decide_eq_true_2 by (right; left; exact He). reflexivity. }
  destruct (String.eqb_spec (optimizer self) "adamw") as [He | Hn2].
  { rewrite bool_decide_eq_true_2 by (right; right; exact He). reflexivity. }
  rewrite bool_decide_eq_false_2; [reflexivity |].
  intros [He | [He | He]]; contradiction.
Qed.

(** Whatever the configuration, an optimizer that comes back was built
    with the method's [lr] over the groups as the property gives them. *)
Lemma configure_optimizer_lr (params : list Optim.Group) (self : Hparams)
  (cfg : Configured) :
  configure_optimizers params self = Py.Ok cfg ->
  Forall (fun o => Observe.default_lr o = lr self
                   /\ Observe.param_groups o = params)
         (Observe.optimizers_of cfg).
Proof.
  unfold configure_optimizers.
  destruct (select_optimizer (optimizer self)) as [cls|e]; simpl; [| discriminate].
  destruct (lars self); simpl.
  - destruct (Py.assert _); simpl; [| discriminate].
    destruct (String.eqb (scheduler self) "none").
    + intros Heq. injection Heq as <-. repeat constructor.
    + destruct (select_scheduler self); simpl; [| discriminate].
      intros Heq. injection Heq as <-. repeat constructor.
  - destruct (String.eqb (scheduler self) "none").
    + intros Heq. injection Heq as <-. repeat constructor.
    + destruct (select_scheduler self); simpl; [| discriminate].
      intros Heq. injection Heq as <-. repeat constructor.
Qed.

End Configuration.

(** ** Construction and configuration: the stated properties *)

Section ConstructionClaims.

Import BaseMethod Registry Observe.

Context `{Constructors} `{Optim.Schedules}.

(** C8.  When [accumulate_grad_batches] is a non-zero integer [n],
    [__init__] multiplies [lr], [classifier_lr], [min_lr] and
    [warmup_start_lr] by [n], once each, and leaves every other attribute as
    it was passed.  The product is in place when the registry is consulted,
    so every constructed method carries it, and every optimizer configured
    from a constructed method is built with the rescaled [lr].  With
    [lr = 0.1] and [n = 4] the configured [lr] is [0.4]. *)
Theorem init_rescales_learning_rates (a : Args.t) (n : Z) :
  Args.accumulate_grad_batches a = Some n ->
  n <> 0%Z ->
  let h := scale_lr (store a) in
  (lr h = (Args.lr a * of_int n)%Qc
   /\ classifier_lr h = (Args.classifier_lr a * of_int n)%Qc
   /\ min_lr h = (Args.min_lr a * of_int n)%Qc
   /\ warmup_start_lr h = (Args.warmup_start_lr a * of_int n)%Qc)
  /\ set_lrs (Args.lr a) (Args.classifier_lr a) (Args.min_lr a)
       (Args.warmup_start_lr a) h = store a
  /\ (weight_decay h = Args.weight_decay a
      /\ eta_lars h = Args.eta_lars a
      /\ warmup_epochs h = Args.warmup_epochs a
      /\ max_epochs h = Args.max_epochs a
      /\ batch_size h = Args.batch_size a
      /\ accumulate_grad_batches h = Some n)
  /\ (forall f bf,
        _SUPPORTED_BACKBONES !! Args.backbone a = Some f ->
        build (Args.backbone a) f (Args.out_size a) (Args.backbone_args a) = Py.Ok bf ->
        exists self, __init__ a = Py.Ok self /\ hparams self = h)
  /\ (forall self, __init__ a = Py.Ok self -> hparams self = h)
  /\ (forall self params cfg,
        __init__ a = Py.Ok self ->
        configure_optimizers params self = Py.Ok cfg ->
        Forall (fun o => default_lr o = (Args.lr a * of_int n)%Qc) (optimizers_of cfg))
  /\ (Args.lr a = Q2Qc (1 # 10) -> n = 4%Z -> lr h = Q2Qc (4 # 10)).
Proof.
  intros Hacc Hn h.
  assert (Hh : h = set_lrs (Args.lr a * of_int n) (Args.classifier_lr a * of_int n)
                     (Args.min_lr a * of_int n) (Args.warmup_start_lr a * of_int n)
                     (store a)).
  { subst h. apply (scale_lr_on (store a) n); assumption. }
  assert (Hargs : backbone_args h = Args.backbone_args a) by (rewrite Hh; reflexivity).
  split; [rewrite Hh; repeat split |].
  split; [rewrite Hh; reflexivity |].
  split; [rewrite Hh; simpl; repeat split; exact Hacc |].
  split.
  { intros f bf Hreg Hb. apply (init_ok a f bf Hreg).
    fold h. rewrite Hargs. exact Hb. }
  split.
  { intros self Hself. destruct (init_inv a self Hself) as (f & bf & _ & _ & Hhp & _).
    exact Hhp. }
  split.
  { intros self params cfg Hself Hcfg.
    destruct (init_inv a self Hself) as (f & bf & _ & _ & Hhp & _).
    pose proof (configure_optimizer_lr params self cfg Hcfg) as Hall.
    eapply Forall_impl; [exact Hall |].
    intros o [Hlr _]. rewrite Hlr, Hhp. fold h. rewrite Hh. reflexivity. }
  intros Hlr ->. rewrite Hh. simpl. rewrite Hlr.
  apply Qc_is_canon. reflexivity.
Qed.

(** C9.  Configuration errors raise where they are found.  A backbone name
    outside the registry fails the assertion in [__init__], before any
    factory is called.  In [configure_optimizers], an optimizer name outside
    sgd, adam, adamw raises [ValueError]; LARS with another optimizer than
    sgd raises; a scheduler name outside none, warmup_cosine, cosine, step
    raises, and with a valid optimizer the exception is the scheduler's
    [ValueError].  With scheduler none and a valid optimizer the call returns
    the optimizer alone, with no scheduler. *)
Theorem configuration_errors_raise :
  (forall a : Args.t,
     _SUPPORTED_BACKBONES !! Args.backbone a = None ->
     __init__ a = Py.Raise Py.AssertionError)
  /\ (forall (params : list Optim.Group) (self : Hparams),
        ~ known_optimizer (optimizer self) ->
        configure_optimizers params self =
          Py.Raise (Py.ValueError (optimizer self ++ " not in (sgd, adam, adamw)")))
  /\ (forall (params : list Optim.Group) (self : Hparams),
        lars self = true -> optimizer self <> "sgd" ->
        Py.raises (configure_optimizers params self)
        /\ (known_optimizer (optimizer self) ->
            configure_optimizers params self = Py.Raise Py.AssertionError))
  /\ (forall (params : list Optim.Group) (self : Hparams),
        scheduler self <> "none" -> ~ known_scheduler (scheduler self) ->
        Py.raises (configure_optimizers params self)
        /\ (known_optimizer (optimizer self) ->
            (lars self = true -> optimizer self = "sgd") ->
            configure_optimizers params self =
              Py.Raise (Py.ValueError
                          (scheduler self ++ " not in (warmup_cosine, cosine, step)"))))
  /\ (forall (params : list Optim.Group) (self : Hparams),
        scheduler self = "none" ->
        known_optimizer (optimizer self) ->
        (lars self = true -> optimizer self = "sgd") ->
        exists opt,
          configure_optimizers params self = Py.Ok (OptimizerOnly opt)
          /\ schedulers_of (OptimizerOnly opt) = []
          /\ default_lr opt = lr self
          /\ param_groups opt = params).
Proof.
  split; [exact init_unregistered |].
  split.
  { intros params self Hn. unfold configure_optimizers.
    rewrite (select_optimizer_unknown _ Hn). reflexivity. }
  split.
  { intros params self Hl Hne.
    pose proof (configure_lars_not_sgd params self Hl Hne) as Hc.
    split.
    - rewrite Hc. destruct (bool_decide _); eexists; reflexivity.
    - intros Hk. rewrite Hc, bool_decide_eq_true_2 by exact Hk. reflexivity. }
  split.
  { intros params self Hnone Hn.
    assert (Hgo : forall cls,
               select_optimizer (optimizer self) = Py.Ok cls ->
               (lars self = true -> optimizer self = "sgd") ->
               configure_optimizers params self =
                 Py.Raise (Py.ValueError
                             (scheduler self ++ " not in (warmup_cosine, cosine, step)"))).
    { intros cls Hcls Hlars. rewrite (configure_ok params self cls Hcls Hlars).
      destruct (String.eqb_spec (scheduler self) "none") as [He | _];
        [contradiction |].
      rewrite (select_scheduler_unknown self Hn). reflexivity. }
    split.
    - destruct (select_optimizer (optimizer self)) as [cls|e] eqn:Hcls.
      + destruct (lars self) eqn:Hl.
        * destruct (String.eqb_spec (optimizer self) "sgd") as [He | Hne].
          -- eexists. apply (Hgo cls eq_refl). intros _. exact He.
          -- pose proof (configure_lars_not_sgd params self Hl Hne) as Hc.
             rewrite Hc. destruct (bool_decide _); eexists; reflexivity.
        * eexists. apply (Hgo cls eq_refl). discriminate.
      + unfold configure_optimizers. rewrite Hcls. eexists. reflexivity.
    - intros Hk Hlars. destruct (select_optimizer_known _ Hk) as [cls Hcls].
      exact (Hgo cls Hcls Hlars). }
  intros params self Hnone Hk Hlars.
  destruct (select_optimizer_known _ Hk) as [cls Hcls].
  exists (wrapped cls params self).
  rewrite (configure_ok params self cls Hcls Hlars), Hnone. simpl.
  split; [reflexivity |]. split; [reflexivity |].
  unfold wrapped. destruct (lars self); split; reflexivity.
Qed.

(** C10.  The name resnetlarge1 is registered, so the assertion of
    [__init__] passes; its factory returns the [None] object once its
    arguments bind; and construction then fails at the first attribute read
    on that object, [inplanes], with [AttributeError].  No construction
    under this name succeeds. *)
Theorem resnetlarge1_registered_but_unbuildable :
  _SUPPORTED_BACKBONES !! "resnetlarge1" = Some resnetlarge1
  /\ (forall (out_size : Z) (kwargs : gmap string Py.value),
        kwargs !! "out_size" = None ->
        call resnetlarge1 (Some out_size) kwargs = Py.Ok None)
  /\ (forall a : Args.t,
        Args.backbone a = "resnetlarge1" ->
        Py.assert (bool_decide (is_Some (_SUPPORTED_BACKBONES !! Args.backbone a)))
          = Py.Ok tt
        /\ __init__ a <> Py.Raise Py.AssertionError
        /\ Py.raises (__init__ a)
        /\ (Args.backbone_args a !! "out_size" = None ->
            __init__ a = Py.Raise (Py.AttributeError "inplanes"))).
Proof.
  split; [exact registry_resnetlarge1 |].
  split.
  { intros out_size kwargs Hk. unfold call. rewrite Hk. reflexivity. }
  intros a Hname.
  assert (Hargs : backbone_args (scale_lr (store a)) = Args.backbone_args a).
  { unfold scale_lr. destruct (Py.truthy_int _); [destruct (accumulate_grad_batches _) |];
      reflexivity. }
  assert (Hinit : __init__ a =
            match delete "cifar" (Args.backbone_args a) !! "out_size" with
            | Some _ => Py.Raise Py.TypeError
            | None => Py.Raise (Py.AttributeError "inplanes")
            end).
  { unfold __init__, getitem. rewrite Hargs, Hname, registry_resnetlarge1.
    rewrite bool_decide_eq_true_2 by (eexists; reflexivity).
    cbn [Py.assert Py.bind]. rewrite build_resnetlarge1.
    destruct (delete "cifar" (Args.backbone_args a) !! "out_size"); reflexivity. }
  split.
  { rewrite Hname, registry_resnetlarge1.
    rewrite bool_decide_eq_true_2 by (eexists; reflexivity). reflexivity. }
  split; [rewrite Hinit; destruct (_ !! "out_size"); discriminate |].
  split; [rewrite Hinit; destruct (_ !! "out_size"); eexists; reflexivity |].
  intros Hk. rewrite Hinit.
  rewrite lookup_delete_ne by discriminate. rewrite Hk. reflexivity.
Qed.

End ConstructionClaims.

(** ** Static learning rates *)

Section StaticLr.

Import BaseMethod Observe.

Lemma enumerate_from_filter_In {A : Type} (p : A -> bool) (xs : list A) (start i : nat) :
  In i (map fst (List.filter (fun im => p (snd im)) (enumerate_from start xs)))
  <-> exists x, (start <= i)%nat /\ xs !! (i - start)%nat = Some x /\ p x = true.
Proof.
  revert start. induction xs as [|x xs IH]; intros start; simpl.
  - split; [intros [] | intros (y & _ & Hy & _); discriminate].
  - destruct (p x) eqn:Hp; simpl; rewrite IH.
    + split.
      * intros [<- | (y & Hle & Hy & Hpy)].
        -- exists x. rewrite Nat.sub_diag. repeat split; [lia | assumption].
        -- exists y. replace (i - start)%nat with (S (i - S start)) by lia.
           repeat split; [lia | assumption | assumption].
      * intros (y & Hle & Hy & Hpy).
        destruct (Nat.eq_dec start i) as [-> | Hne]; [left; reflexivity | right].
        exists y. replace (i - start)%nat with (S (i - S start)) in Hy by lia.
        repeat split; [lia | assumption | assumption].
    + split.
      * intros (y & Hle & Hy & Hpy). exists y.
        replace (i - start)%nat with (S (i - S start)) by lia.
        repeat split; [lia | assumption | assumption].
      * intros (y & Hle & Hy & Hpy).
        destruct (Nat.eq_dec start i) as [-> | Hne].
        -- rewrite Nat.sub_diag in Hy. simpl in Hy. injection Hy as <-. congruence.
        -- exists y. replace (i - start)%nat with (S (i - S start)) in Hy by lia.
           repeat split; [lia | assumption | assumption].
Qed.

(** The recorded indexes are those of the groups marked static. *)
Lemma idxs_no_scheduler_In (params : list Optim.Group) (i : nat) :
  In i (idxs_no_scheduler params)
  <-> exists g, params !! i = Some g /\ is_static g = true.
Proof.
  unfold idxs_no_scheduler, enumerate.
  rewrite (enumerate_from_filter_In is_static params 0 i).
  rewrite Nat.sub_0_r. split.
  - intros (g & _ & Hg & Hs). exists g. split; assumption.
  - intros (g & Hg & Hs). exists g. repeat split; [lia | assumption | assumption].
Qed.

Lemma zip_replicate_const (v : Qc) (idxs : list nat) :
  zip idxs (replicate (length idxs) v) = map (fun i => (i, v)) idxs.
Proof. induction idxs as [|i idxs IH]; simpl; [reflexivity | rewrite IH; reflexivity]. Qed.

(** Writing one value at in-range indexes: the writes succeed, the length
    stays, the written places hold the value and the others their old rate. *)
Lemma overwrite_const (v : Qc) (idxs : list nat) (lrs : list Qc) :
  (forall i, In i idxs -> (i < length lrs)%nat) ->
  exists out,
    overwrite (map (fun i => (i, v)) idxs) lrs = Py.Ok out
    /\ length out = length lrs
    /\ (forall i, In i idxs -> out !! i = Some v)
    /\ (forall i, ~ In i idxs -> out !! i = lrs !! i).
Proof.
  revert lrs. induction idxs as [|j idxs IH]; intros lrs Hin; simpl.
  - exists lrs. split; [reflexivity |]. split; [reflexivity |].
    split; [intros i [] | reflexivity].
  - assert (Hj : (j < length lrs)%nat) by (apply Hin; left; reflexivity).
    apply Nat.ltb_lt in Hj as Hjb. rewrite Hjb.
    destruct (IH (<[j := v]> lrs)) as (out & Hout & Hlen & Hset & Hkeep).
    { intros i Hi. rewrite length_insert. apply Hin. right. exact Hi. }
    exists out. split; [exact Hout |].
    split; [rewrite Hlen; apply length_insert |].
    split.
    + intros i [<- | Hi].
      * destruct (in_dec Nat.eq_dec j idxs) as [Hjin | Hjout].
        -- apply Hset. exact Hjin.
        -- rewrite (Hkeep j Hjout). apply list_lookup_insert_eq. exact Hj.
      * apply Hset. exact Hi.
    + intros i Hi. rewrite Hkeep by (intros Hc; apply Hi; right; exact Hc).
      apply list_lookup_insert_ne. intros ->. apply Hi. left. reflexivity.
Qed.

(** An index beyond the rates the scheduler computed is an [IndexError]. *)
Lemma overwrite_out_of_range (v : Qc) (j : nat) (rest : list (nat * Qc)) (lrs : list Qc) :
  (length lrs <= j)%nat ->
  overwrite ((j, v) :: rest) lrs = Py.Raise Py.IndexError.
Proof.
  intros Hj. simpl. apply Nat.ltb_ge in Hj. rewrite Hj. reflexivity.
Qed.

Context `{Optim.Schedules}.

(** C2, as the code has it.  When the optimizer and the scheduler names are
    valid and at least one group is marked static, [configure_optimizers]
    returns a scheduler whose [get_lr] is [static_lr] around the scheduler's
    own [get_lr].  Whenever the latter returns one rate per group, the
    wrapped call returns the same rates except at the indexes of the groups
    marked static, where the rate is the method's base learning rate
    [self.lr], whatever [lr] the group itself declares. *)
Theorem static_groups_pinned_to_base_lr (params : list Optim.Group) (self : Hparams) :
  known_optimizer (optimizer self) ->
  (lars self = true -> optimizer self = "sgd") ->
  known_scheduler (scheduler self) ->
  idxs_no_scheduler params <> [] ->
  exists opt sched,
    configure_optimizers params self = Py.Ok (WithScheduler [opt] [sched])
    /\ param_groups opt = params
    /\ Optim.get_lr sched =
         static_lr (Optim.class_get_lr (Optim.schedule sched) opt)
           (idxs_no_scheduler params)
           (replicate (length (idxs_no_scheduler params)) (lr self))
    /\ forall clock lrs0,
         Optim.class_get_lr (Optim.schedule sched) opt clock = Py.Ok lrs0 ->
         length lrs0 = length params ->
         exists lrs,
           Optim.get_lr sched clock = Py.Ok lrs
           /\ length lrs = length params
           /\ (forall i g, params !! i = Some g -> is_static g = true ->
                 lrs !! i = Some (lr self))
           /\ (forall i g, params !! i = Some g -> is_static g = false ->
                 lrs !! i = lrs0 !! i).
Proof.
  intros Hopt Hlars Hsch Hidx.
  destruct (select_optimizer_known _ Hopt) as [cls Hcls].
  destruct (select_scheduler_known _ Hsch) as [sch Hsel].
  assert (Hnone : String.eqb (scheduler self) "none" = false).
  { apply String.eqb_neq. destruct Hsch as [-> | [-> | ->]]; discriminate. }
  exists (wrapped cls params self), (pinned sch (wrapped cls params self) params self).
  split.
  { rewrite (configure_ok params self cls Hcls Hlars), Hnone, Hsel. reflexivity. }
  split; [unfold wrapped; destruct (lars self); reflexivity |].
  assert (Hpin : pinned sch (wrapped cls params self) params self =
            Optim.set_get_lr
              (static_lr (Optim.class_get_lr sch (wrapped cls params self))
                 (idxs_no_scheduler params)
                 (replicate (length (idxs_no_scheduler params)) (lr self)))
              (Optim.new_scheduler sch (wrapped cls params self))).
  { unfold pinned. destruct (idxs_no_scheduler params); [contradiction | reflexivity]. }
  rewrite Hpin. simpl. split; [reflexivity |].
  intros clock lrs0 Hown Hlen. unfold static_lr. rewrite Hown. simpl.
  rewrite zip_replicate_const.
  destruct (overwrite_const (lr self) (idxs_no_scheduler params) lrs0)
    as (out & Hout & Hlen' & Hset & Hkeep).
  { intros i Hi. apply idxs_no_scheduler_In in Hi as (g & Hg & _).
    rewrite Hlen. apply lookup_lt_Some in Hg. exact Hg. }
  exists out. split; [exact Hout |]. split; [congruence |]. split.
  - intros i g Hg Hs. apply Hset. apply idxs_no_scheduler_In. exists g. split; assumption.
  - intros i g Hg Hs. apply Hkeep. intros Hi.
    apply idxs_no_scheduler_In in Hi as (g' & Hg' & Hs'). congruence.
Qed.

End StaticLr.

(** ** Construction and configuration at concrete inputs *)

Section ConstructionExamples.

Import BaseMethod Registry Observe.

(** C8 at [lr = 0.1], [accumulate_grad_batches = 4], backbone resnet18:
    the method is constructed and its [lr] is [0.4]. *)
Lemma init_rescales_learning_rates_witness :
  lr (scale_lr (store (Sample.args "resnet18" "sgd" "none" false (Some 4%Z))))
    = Q2Qc (4 # 10)
  /\ exists self,
       __init__ (H := Sample.constructors)
         (Sample.args "resnet18" "sgd" "none" false (Some 4%Z)) = Py.Ok self
       /\ lr self = Q2Qc (4 # 10).
Proof.
  pose proof (@init_rescales_learning_rates Sample.constructors Sample.schedules
                (Sample.args "resnet18" "sgd" "none" false (Some 4%Z)) 4%Z
                eq_refl ltac:(discriminate)) as W.
  cbv zeta in W.
  destruct W as (_ & _ & _ & Hex & _ & _ & Hlr).
  split; [apply Hlr; reflexivity |].
  destruct (Hex resnet18
              (Some {| NN.arch := "resnet18"; NN.inplanes := Some 512%Z;
                       NN.num_features := None; NN.fc := Some NN.Identity;
                       NN.conv1 := Some (NN.Conv2d 3 64 3 1 2 false);
                       NN.maxpool := Some NN.Identity |}, 512%Z))
    as (self & Hself & Hhp); [reflexivity | reflexivity |].
  exists self. split; [exact Hself |].
  rewrite Hhp. apply Hlr; reflexivity.
Defined.

(** C9 at concrete inputs: an unregistered backbone name, the optimizer
    name lamb, LARS over adam, the scheduler name reduce, and the scheduler
    none over sgd. *)
Lemma configuration_errors_raise_witness :
  __init__ (H := Sample.constructors)
    (Sample.args "resnet34" "sgd" "none" false None) = Py.Raise Py.AssertionError
  /\ configure_optimizers (H := Sample.schedules) []
       (store (Sample.args "resnet18" "lamb" "none" false None))
     = Py.Raise (Py.ValueError "lamb not in (sgd, adam, adamw)")
  /\ configure_optimizers (H := Sample.schedules) []
       (store (Sample.args "resnet18" "adam" "none" true None))
     = Py.Raise Py.AssertionError
  /\ configure_optimizers (H := Sample.schedules) []
       (store (Sample.args "resnet18" "sgd" "reduce" false None))
     = Py.Raise (Py.ValueError "reduce not in (warmup_cosine, cosine, step)")
  /\ exists opt,
       configure_optimizers (H := Sample.schedules) []
         (store (Sample.args "resnet18" "sgd" "none" true None))
       = Py.Ok (OptimizerOnly opt).
Proof.
  destruct (@configuration_errors_raise Sample.constructors Sample.schedules)
    as (Hreg & Hopt & Hlars & Hsch & Hnone).
  split; [apply Hreg; reflexivity |].
  split.
  { apply (Hopt [] (store (Sample.args "resnet18" "lamb" "none" false None))).
    intros [Hk | [Hk | Hk]]; discriminate Hk. }
  split.
  { apply (Hlars [] (store (Sample.args "resnet18" "adam" "none" true None)));
      [reflexivity | discriminate | right; left; reflexivity]. }
  split.
  { apply (Hsch [] (store (Sample.args "resnet18" "sgd" "reduce" false None))).
    - discriminate.
    - intros [Hk | [Hk | Hk]]; discriminate Hk.
    - left; reflexivity.
    - reflexivity. }
  destruct (Hnone [] (store (Sample.args "resnet18" "sgd" "none" true None)))
    as (opt & Hcfg & _); [reflexivity | left; reflexivity | reflexivity |].
  exists opt. exact Hcfg.
Defined.

(** C10 at concrete arguments: construction under the name resnetlarge1
    ends in the [AttributeError] on [inplanes]. *)
Lemma resnetlarge1_registered_but_unbuildable_witness :
  __init__ (H := Sample.constructors)
    (Sample.args "resnetlarge1" "sgd" "none" false None)
  = Py.Raise (Py.AttributeError "inplanes").
Proof.
  destruct (@resnetlarge1_registered_but_unbuildable Sample.constructors)
    as (_ & _ & Hinit).
  destruct (Hinit (Sample.args "resnetlarge1" "sgd" "none" false None) eq_refl)
    as (_ & _ & _ & Hattr).
  apply Hattr. reflexivity.
Defined.

(** C2 as stated fails.  The classifier group of the base class, marked
    static, declares [lr = classifier_lr = 0.3]; the method's [lr] is
    [0.1].  After the scheduler's own computation the wrapped [get_lr]
    returns [0.1] at the classifier's index, not [0.3]. *)
Lemma static_classifier_group_gets_base_lr :
  let self := store (Sample.args "resnet18" "sgd" "cosine" false None) in
  let params := Sample.static_classifier_params self in
  exists opt sched lrs g,
    configure_optimizers (H := Sample.schedules) params self
      = Py.Ok (WithScheduler [opt] [sched])
    /\ idxs_no_scheduler params = [1%nat]
    /\ params !! 1%nat = Some g
    /\ g !! "lr" = Some (Py.VFloat (Q2Qc (3 # 10)))
    /\ Optim.get_lr sched 0%nat = Py.Ok lrs
    /\ lrs !! 1%nat = Some (Q2Qc (1 # 10))
    /\ lrs !! 1%nat <> Some (Q2Qc (3 # 10)).
Proof.
  intros self params.
  eexists _, _, [Sample.q 1 8; Sample.q 1 10], _.
  split; [reflexivity |].
  split; [reflexivity |].
  split; [reflexivity |].
  split; [reflexivity |].
  split; [reflexivity |].
  split; [reflexivity |].
  simpl. intros Heq. discriminate Heq.
Qed.

(** The amended C2 at the same input. *)
Lemma static_groups_pinned_to_base_lr_witness :
  let self := store (Sample.args "resnet18" "sgd" "cosine" false None) in
  let params := Sample.static_classifier_params self in
  exists opt sched lrs,
    configure_optimizers (H := Sample.schedules) params self
      = Py.Ok (WithScheduler [opt] [sched])
    /\ Optim.get_lr sched 0%nat = Py.Ok lrs
    /\ lrs !! 1%nat = Some (lr self).
Proof.
  intros self params.
  destruct (@static_groups_pinned_to_base_lr Sample.schedules params self)
    as (opt & sched & Hcfg & Hgroups & _ & Hrates).
  - left; reflexivity.
  - discriminate.
  - right; left; reflexivity.
  - discriminate.
  - destruct (Hrates 0%nat (replicate (length (param_groups opt)) (Sample.q 1 8)))
      as (lrs & Hget & _ & Hstatic & _).
    + reflexivity.
    + rewrite Hgroups. apply length_replicate.
    + exists opt, sched, lrs. split; [exact Hcfg |]. split; [exact Hget |].
      apply (Hstatic 1%nat
               (<[ "static_lr" := Py.VBool true ]>
                  ({[ "name" := Py.VStr "classifier";
                      "params" := Py.VParams "classifier";
                      "lr" := Py.VFloat (classifier_lr self);
                      "weight_decay" := Py.VInt 0 ]} : Optim.Group)));
        reflexivity.
Defined.

End ConstructionExamples.

(** ** The step-gated momentum update *)

Section MomentumHook.

Import BaseMomentumMethod Observe.

Lemma tau_updates_app (xs ys : list Call) :
  tau_updates (xs ++ ys) = (tau_updates xs + tau_updates ys)%nat.
Proof.
  induction xs as [|c xs IH]; simpl; [reflexivity |].
  destruct c; simpl; rewrite IH; reflexivity.
Qed.

Lemma ema_updates_app (xs ys : list Call) :
  ema_updates (xs ++ ys) = (ema_updates xs + ema_updates ys)%nat.
Proof.
  induction xs as [|c xs IH]; simpl; [reflexivity |].
  destruct c; simpl; rewrite IH; reflexivity.
Qed.

Lemma firing_counts (trainer : Trainer) (pairs : list (Member * Member)) :
  tau_updates (firing trainer pairs) = 1%nat
  /\ ema_updates (firing trainer pairs) = length pairs.
Proof.
  unfold firing. rewrite tau_updates_app, ema_updates_app. simpl.
  induction pairs as [|mp pairs [IHt IHe]]; simpl; [split; reflexivity |].
  split; [exact IHt |].
  rewrite Nat.add_0_r in IHe |- *. rewrite IHe. reflexivity.
Qed.

(** One call of the hook, in closed form. *)
Lemma on_train_batch_end_eq (trainer : Trainer) (pairs : list (Member * Member))
  (self : t) (last : Z) :
  last_step self = Some last ->
  on_train_batch_end trainer pairs self =
    Py.Ok (set_last_step (global_step trainer)
             (if (global_step trainer >? last)%Z
              then emit (firing trainer pairs) self
              else self)).
Proof.
  intros Hlast. unfold on_train_batch_end. rewrite Hlast. reflexivity.
Qed.

Lemma final_step_cons (start : Z) (tr : Trainer) (rest : list Trainer) :
  final_step start (tr :: rest) = final_step (global_step tr) rest.
Proof.
  unfold final_step. destruct rest as [|tr' rest]; [reflexivity |].
  rewrite last_cons. destruct (last (tr' :: rest)) eqn:Hl; [reflexivity |].
  apply last_None in Hl. discriminate.
Qed.

Lemma steps_by_one_final (start : Z) (trainers : list Trainer) :
  steps_by_one start trainers -> (start <= final_step start trainers)%Z.
Proof.
  revert start. induction trainers as [|tr rest IH]; intros start Hs.
  - unfold final_step. simpl. lia.
  - rewrite final_step_cons. destruct Hs as [Hstep Hrest].
    specialize (IH _ Hrest). lia.
Qed.

(** Over a run in which the global step grows by at most one between two
    calls, the hook fires once per unit of growth. *)
Lemma run_counts (trainers : list Trainer) (pairs : list (Member * Member))
  (self : t) (start : Z) :
  last_step self = Some start ->
  steps_by_one start trainers ->
  exists self',
    run trainers pairs self = Py.Ok self'
    /\ last_step self' = Some (final_step start trainers)
    /\ tau_updates (calls self') =
         (tau_updates (calls self) + Z.to_nat (final_step start trainers - start))%nat
    /\ ema_updates (calls self') =
         (ema_updates (calls self)
          + length pairs * Z.to_nat (final_step start trainers - start))%nat.
Proof.
  revert self start. induction trainers as [|tr rest IH]; intros self start Hlast Hs.
  - exists self. unfold final_step. simpl. rewrite Z.sub_diag. simpl.
    repeat split; [exact Hlast | lia | lia].
  - destruct Hs as [Hstep Hrest]. simpl.
    rewrite (on_train_batch_end_eq tr pairs self start Hlast). simpl.
    rewrite final_step_cons.
    pose proof (steps_by_one_final _ _ Hrest) as Hmono.
    destruct (firing_counts tr pairs) as [Hft Hfe].
    destruct Hstep as [Hsame | Hnext].
    + destruct (Z.gtb_spec (global_step tr) start) as [Hgt | _]; [lia |].
      destruct (IH (set_last_step (global_step tr) self) (global_step tr) eq_refl Hrest)
        as (self' & Hrun & Hl & Ht & He).
      exists self'. split; [exact Hrun |]. split; [exact Hl |].
      simpl in Ht, He. rewrite Ht, He, Hsame. split; reflexivity.
    + destruct (Z.gtb_spec (global_step tr) start) as [_ | Hle]; [| lia].
      destruct (IH (set_last_step (global_step tr) (emit (firing tr pairs) self))
                  (global_step tr) eq_refl Hrest)
        as (self' & Hrun & Hl & Ht & He).
      exists self'. split; [exact Hrun |]. split; [exact Hl |].
      simpl in Ht, He. rewrite tau_updates_app, Hft in Ht.
      rewrite ema_updates_app, Hfe in He.
      rewrite Ht, He.
      replace (Z.to_nat (final_step (global_step tr) rest - start))
        with (S (Z.to_nat (final_step (global_step tr) rest - global_step tr))) by lia.
      split; lia.
Qed.

(** C1.  A call of [on_train_batch_end] with [last_step] set makes the
    momentum calls (one [update] per pair of [momentum_pairs], the log of
    tau, one [update_tau]) exactly when the trainer's global step is greater
    than [last_step], and in either case leaves [last_step] at the global
    step.  The [cur_step] given to [update_tau] is the global step times the
    trainer's accumulation factor when that factor is a non-zero integer and
    the global step itself otherwise; [max_steps] is the length of the
    training dataloader times [max_epochs].  Hence over a run started by
    [on_train_start] in which every call sees the global step unchanged (an
    accumulated micro-batch) or one higher (an optimizer step), tau advances
    once per optimizer step and every pair is updated once per optimizer
    step. *)
Theorem momentum_update_is_step_gated :
  (forall (trainer : Trainer) (pairs : list (Member * Member)) (self : t) (last : Z),
     last_step self = Some last ->
     exists self',
       on_train_batch_end trainer pairs self = Py.Ok self'
       /\ last_step self' = Some (global_step trainer)
       /\ ((last < global_step trainer)%Z ->
           calls self' =
             (calls self
              ++ map (fun mp => Update (fst mp) (snd mp)) pairs
              ++ [LogTau;
                  UpdateTau (scaled_step trainer)
                    (train_dataloader_len trainer * max_epochs trainer)%Z])%list)
       /\ ((global_step trainer <= last)%Z -> calls self' = calls self)
       /\ (calls self' <> calls self <-> (last < global_step trainer)%Z))
  /\ (forall (trainer : Trainer) (n : Z),
        accumulate_grad_batches trainer = Some n -> n <> 0%Z ->
        scaled_step trainer = (global_step trainer * n)%Z)
  /\ (forall trainer : Trainer,
        accumulate_grad_batches trainer = None
        \/ accumulate_grad_batches trainer = Some 0%Z ->
        scaled_step trainer = global_step trainer)
  /\ (forall (trainers : list Trainer) (pairs : list (Member * Member)) (self : t),
        steps_by_one 0 trainers ->
        exists self',
          run trainers pairs (on_train_start self) = Py.Ok self'
          /\ last_step self' = Some (final_step 0 trainers)
          /\ tau_updates (calls self') =
               (tau_updates (calls self) + Z.to_nat (final_step 0 trainers))%nat
          /\ ema_updates (calls self') =
               (ema_updates (calls self)
                + length pairs * Z.to_nat (final_step 0 trainers))%nat).
Proof.
  split.
  { intros trainer pairs self last Hlast.
    rewrite (on_train_batch_end_eq trainer pairs self last Hlast).
    eexists. split; [reflexivity |]. split; [reflexivity |].
    destruct (Z.gtb_spec (global_step trainer) last) as [Hgt | Hle]; simpl.
    - split; [intros _; reflexivity |]. split; [intros Hc; lia |].
      split; [intros _; lia |]. intros _ Heq.
      apply (f_equal (@length Call)) in Heq. unfold firing in Heq.
      rewrite !length_app in Heq. simpl in Heq. lia.
    - split; [intros Hc; lia |]. split; [intros _; reflexivity |].
      split; [intros Hc; exfalso; apply Hc; reflexivity | intros Hc; lia]. }
  split.
  { intros trainer n Hacc Hn. unfold scaled_step. rewrite Hacc. simpl.
    destruct (Z.eqb_spec n 0); [contradiction | reflexivity]. }
  split.
  { intros trainer [Hacc | Hacc]; unfold scaled_step; rewrite Hacc; reflexivity. }
  intros trainers pairs self Hs.
  destruct (run_counts trainers pairs (on_train_start self) 0 eq_refl Hs)
    as (self' & Hrun & Hl & Ht & He).
  exists self'. rewrite Z.sub_0_r in Ht, He.
  split; [exact Hrun |]. split; [exact Hl |]. split; assumption.
Qed.

(** C1 at a run of eight micro-batches with four accumulated per optimizer
    step: the global step reaches 1 at the fourth call and 2 at the eighth,
    tau advances twice, with [cur_step] 4 and 8 and [max_steps] 1000. *)
Lemma momentum_update_is_step_gated_witness :
  exists self',
    run (map Sample.trainer_at [0; 0; 0; 1; 1; 1; 1; 2]%Z) momentum_pairs
      (on_train_start (Sample.momentum_method false)) = Py.Ok self'
    /\ calls self' =
         [Update TheBackbone TheMomentumBackbone; LogTau; UpdateTau 4 1000;
          Update TheBackbone TheMomentumBackbone; LogTau; UpdateTau 8 1000]
    /\ tau_updates (calls self') = 2%nat.
Proof.
  destruct momentum_update_is_step_gated as (_ & _ & _ & Hrun).
  destruct (Hrun (map Sample.trainer_at [0; 0; 0; 1; 1; 1; 1; 2]%Z) momentum_pairs
              (Sample.momentum_method false))
    as (self' & Hres & _ & Ht & _).
  { simpl. repeat split; auto. }
  exists self'. split; [exact Hres |].
  split; [| exact Ht].
  vm_compute in Hres. injection Hres as <-. reflexivity.
Defined.

End MomentumHook.

(** ** The shared steps and the training step of [BaseMethod] *)

Section TrainingStep.

Import Torch BaseMethod Observe.

Context `{Net}.

Lemma for_each_ok {A B : Type} (f : A -> Py.result B) (g : A -> B) (xs : list A) :
  (forall x, In x xs -> f x = Py.Ok (g x)) ->
  Py.for_each f xs = Py.Ok (map g xs).
Proof.
  induction xs as [|x xs IH]; intros Hf; simpl; [reflexivity |].
  rewrite (Hf x) by (left; reflexivity). simpl.
  rewrite IH by (intros y Hy; apply Hf; right; exact Hy). reflexivity.
Qed.

Lemma for_each_raise {A B : Type} (f : A -> Py.result B) (xs : list A) (e : Py.exn) :
  Py.for_each f xs = Py.Raise e -> exists x, In x xs /\ f x = Py.Raise e.
Proof.
  induction xs as [|x xs IH]; simpl; [discriminate |].
  destruct (f x) as [y|e'] eqn:Hx; simpl.
  - destruct (Py.for_each f xs) as [ys|e'']; simpl; [discriminate |].
    intros Heq. injection Heq as ->.
    destruct (IH eq_refl) as (z & Hz & Hfz). exists z. split; [right |]; assumption.
  - intros Heq. injection Heq as ->. exists x. split; [left; reflexivity | exact Hx].
Qed.

Lemma for_each_length {A B : Type} (f : A -> Py.result B) (xs : list A) (ys : list B) :
  Py.for_each f xs = Py.Ok ys -> length ys = length xs.
Proof.
  revert ys. induction xs as [|x xs IH]; intros ys; simpl.
  - intros Heq. injection Heq as <-. reflexivity.
  - destruct (f x); simpl; [| discriminate].
    destruct (Py.for_each f xs); simpl; [| discriminate].
    intros Heq. injection Heq as <-. simpl. f_equal. apply IH. reflexivity.
Qed.

(** The accuracy helper raises nothing but the error of the top-k selection. *)
Lemma accuracy_at_k_cases (outputs : Tensor) (targets : Targets) (top_k : nat * nat) :
  (Nat.max (fst top_k) (snd top_k) <= size1 outputs
   /\ Metrics.accuracy_at_k outputs targets top_k
      = Py.Ok (correct_at (fst top_k) outputs targets,
               correct_at (snd top_k) outputs targets))%nat
  \/ (size1 outputs < Nat.max (fst top_k) (snd top_k)
      /\ Metrics.accuracy_at_k outputs targets top_k = Py.Raise Py.RuntimeError)%nat.
Proof.
  unfold Metrics.accuracy_at_k.
  destruct (Nat.leb_spec (Nat.max (fst top_k) (snd top_k)) (size1 outputs)).
  - left. split; [assumption | reflexivity].
  - right. split; [assumption | reflexivity].
Qed.

(** With at least one class the online step returns, and its top-5 is the
    top-[min(5, classes)]. *)
Lemma base_shared_step_ok (x : Tensor) (targets : Targets) :
  (1 <= size1 (online_logits x))%nat ->
  _base_shared_step x targets = Py.Ok (online_step targets x).
Proof.
  intros Hc. unfold _base_shared_step.
  destruct (accuracy_at_k_cases (fst (base_forward x)) targets
              (1, Nat.min 5 (size1 (fst (base_forward x))))%nat)
    as [[_ Hok] | [Hbad _]].
  - rewrite Hok. reflexivity.
  - unfold online_logits in Hc. cbn [fst snd] in Hbad. lia.
Qed.

Lemma base_shared_step_raise (x : Tensor) (targets : Targets) (e : Py.exn) :
  _base_shared_step x targets = Py.Raise e -> e = Py.RuntimeError.
Proof.
  unfold _base_shared_step.
  destruct (accuracy_at_k_cases (fst (base_forward x)) targets
              (1, Nat.min 5 (size1 (fst (base_forward x))))%nat)
    as [[_ Hok] | [_ Hbad]].
  - rewrite Hok. discriminate.
  - rewrite Hbad. simpl. intros Heq. injection Heq as <-. reflexivity.
Qed.

(** With the configured number of crops, the first [num_large_crops] crops
    are that many, and without multicrop there are no others. *)
Lemma crops_split (self : Hparams) (xs : list Tensor) :
  crops_consistent self ->
  length xs = num_crops self ->
  length (take (num_large_crops self) xs) = num_large_crops self
  /\ (multicrop self = false -> drop (num_large_crops self) xs = []).
Proof.
  intros [Hn Hm] Hlen. split.
  - rewrite length_take. lia.
  - intros Hoff. rewrite Hoff in Hm. symmetry in Hm.
    apply negb_false_iff, Nat.eqb_eq in Hm.
    apply drop_ge. lia.
Qed.

(** The training step in closed form, when it gets past the assertion and
    every large crop's logits have a class. *)
Lemma training_step_eq (self : Hparams) (X : Crops) (targets : Targets) :
  crops_consistent self ->
  length (as_list X) = num_crops self ->
  (1 <= num_large_crops self)%nat ->
  (forall x, In x (take (num_large_crops self) (as_list X)) ->
             (1 <= size1 (online_logits x))%nat) ->
  let large := take (num_large_crops self) (as_list X) in
  let small := drop (num_large_crops self) (as_list X) in
  let n := num_large_crops self in
  exists effects,
    training_step self X targets =
      Py.Ok ({| all_logits := map online_logits large;
                all_feats := (map (fun x => snd (base_forward x)) large
                              ++ map (forward Backbone) small)%list;
                mean_loss := crop_mean n (fun x => cross_entropy (online_logits x) targets) large;
                mean_acc1 := crop_mean n (fun x => correct_at 1 (online_logits x) targets) large;
                mean_acc5 :=
                  crop_mean n
                    (fun x => correct_at (Nat.min 5 (size1 (online_logits x)))
                                (online_logits x) targets) large |},
             effects).
Proof.
  intros Hcons Hlen Hn Hclasses large small n.
  destruct (crops_split self (as_list X) Hcons Hlen) as [Hlarge Hsmall].
  unfold training_step.
  apply Nat.eqb_eq in Hlen as Hlenb. rewrite Hlenb. simpl.
  rewrite (for_each_ok _ (online_step targets) _
             (fun x Hx => base_shared_step_ok x targets (Hclasses x Hx))).
  simpl. fold large. fold small.
  destruct (map (online_step targets) large) as [|o os] eqn:Hmap.
  { apply (f_equal (@length StepOut)) in Hmap. rewrite length_map in Hmap.
    subst large. rewrite Hlarge in Hmap. simpl in Hmap. lia. }
  rewrite <- Hmap. eexists.
  unfold crop_mean. rewrite !map_map.
  cbn [logits feats loss acc1 acc5 online_step].
  assert (Hfeats : (if multicrop self
                    then (map (fun x => snd (base_forward x)) large
                          ++ map (forward Backbone) small)%list
                    else map (fun x => snd (base_forward x)) large)
                   = (map (fun x => snd (base_forward x)) large
                      ++ map (forward Backbone) small)%list).
  { destruct (multicrop self) eqn:Hm; [reflexivity |].
    subst small. rewrite (Hsmall eq_refl). simpl. rewrite app_nil_r. reflexivity. }
  rewrite Hfeats. reflexivity.
Qed.

End TrainingStep.

(** ** The training step of [BaseMethod]: the stated properties *)

Section TrainingStepClaims.

Import Torch BaseMethod Observe.

Context `{Net}.

Lemma of_nat_two : of_nat 2 = (1 + 1)%Qc.
Proof. apply Qc_is_canon. reflexivity. Qed.

Lemma two_nonzero : (1 + 1)%Qc <> 0%Qc.
Proof. intros Heq. discriminate Heq. Qed.

(** The mean of a number with itself. *)
Lemma mean_of_two (a : Qc) : (Py.sum [a; a] / of_nat 2)%Qc = a.
Proof.
  unfold Py.sum. simpl. rewrite of_nat_two. field. exact two_nonzero.
Qed.

(** C4.  On a batch with the configured number of crops (and at least one
    large crop, each with at least one class in its logits) [training_step]
    returns, and its loss, acc1 and acc5 are the sums over the first
    [num_large_crops] crops of the per-crop cross-entropy, top-1 and top-5
    accuracy, divided by [num_large_crops].  The logits are those of the
    large crops; the features are those of the large crops followed by the
    backbone features of the remaining crops, which enter nothing else.
    When the large crops are twice the same tensor, the three means are the
    values of that crop. *)
Theorem training_step_averages_large_crops (self : Hparams) (X : Crops)
  (targets : Targets) :
  crops_consistent self ->
  length (as_list X) = num_crops self ->
  (1 <= num_large_crops self)%nat ->
  (forall x, In x (take (num_large_crops self) (as_list X)) ->
             (1 <= size1 (online_logits x))%nat) ->
  let large := take (num_large_crops self) (as_list X) in
  let small := drop (num_large_crops self) (as_list X) in
  let n := of_nat (num_large_crops self) in
  exists out effects,
    training_step self X targets = Py.Ok (out, effects)
    /\ length large = num_large_crops self
    /\ mean_loss out =
         (Py.sum (map (fun x => cross_entropy (online_logits x) targets) large) / n)%Qc
    /\ mean_acc1 out =
         (Py.sum (map (fun x => correct_at 1 (online_logits x) targets) large) / n)%Qc
    /\ mean_acc5 out =
         (Py.sum (map (fun x => correct_at (Nat.min 5 (size1 (online_logits x)))
                                  (online_logits x) targets) large) / n)%Qc
    /\ all_logits out = map online_logits large
    /\ all_feats out =
         (map (fun x => snd (base_forward x)) large ++ map (forward Backbone) small)%list
    /\ (forall x, large = [x; x] ->
          mean_loss out = cross_entropy (online_logits x) targets
          /\ mean_acc1 out = correct_at 1 (online_logits x) targets
          /\ mean_acc5 out =
               correct_at (Nat.min 5 (size1 (online_logits x))) (online_logits x) targets).
Proof.
  intros Hcons Hlen Hn Hclasses large small n.
  destruct (training_step_eq self X targets Hcons Hlen Hn Hclasses) as [effects Hstep].
  destruct (crops_split self (as_list X) Hcons Hlen) as [Hlarge _].
  eexists _, effects. split; [exact Hstep |].
  split; [exact Hlarge |].
  cbn [mean_loss mean_acc1 mean_acc5 all_logits all_feats]. unfold crop_mean.
  fold large. fold n.
  do 5 (split; [reflexivity |]).
  intros x Hx.
  assert (Hn2 : num_large_crops self = 2%nat).
  { rewrite <- Hlarge. fold large. rewrite Hx. reflexivity. }
  subst n. rewrite Hx, Hn2. cbn [map].
  rewrite !mean_of_two. repeat split.
Qed.

(** C6.  [training_step] turns a single tensor into a one-element list,
    and raises [AssertionError] exactly when the length of the resulting
    list of crops differs from [num_crops], which [__init__] sets to
    [num_large_crops + num_small_crops]; so with 2 + 2 crops configured a
    list of 3 crops fails the assertion. *)
Theorem training_step_asserts_crop_count :
  (forall x : Tensor, as_list (Single x) = [x])
  /\ (forall a : Args.t,
        num_crops (scale_lr (store a))
        = (Args.num_large_crops a + Args.num_small_crops a)%nat)
  /\ (forall (self : Hparams) (X : Crops) (targets : Targets),
        training_step self X targets = Py.Raise Py.AssertionError
        <-> length (as_list X) <> num_crops self)
  /\ (forall (a : Args.t) (X : Crops) (targets : Targets),
        Args.num_large_crops a = 2%nat ->
        Args.num_small_crops a = 2%nat ->
        length (as_list X) = 3%nat ->
        training_step (scale_lr (store a)) X targets = Py.Raise Py.AssertionError).
Proof.
  assert (Hcrops : forall a : Args.t,
            num_crops (scale_lr (store a))
            = (Args.num_large_crops a + Args.num_small_crops a)%nat).
  { intros a. unfold scale_lr.
    destruct (Py.truthy_int _); [destruct (accumulate_grad_batches _) |]; reflexivity. }
  assert (Hiff : forall (self : Hparams) (X : Crops) (targets : Targets),
            training_step self X targets = Py.Raise Py.AssertionError
            <-> length (as_list X) <> num_crops self).
  { intros self X targets. unfold training_step.
    destruct (Nat.eqb_spec (length (as_list X)) (num_crops self)) as [Heq | Hne].
    - simpl. split; [| intros Hc; contradiction].
      destruct (Py.for_each _ _) as [outs|e] eqn:Hfe; simpl.
      + destruct outs; discriminate.
      + destruct (for_each_raise _ _ _ Hfe) as (x & _ & Hx).
        apply base_shared_step_raise in Hx. subst e. discriminate.
    - simpl. split; [intros _; exact Hne | reflexivity]. }
  split; [reflexivity |]. split; [exact Hcrops |]. split; [exact Hiff |].
  intros a X targets Hl Hs Hlen. apply Hiff. rewrite Hcrops, Hl, Hs, Hlen. discriminate.
Qed.

End TrainingStepClaims.

Section TrainingStepExamples.

Import Torch BaseMethod Observe.

(** C4 on two identical large crops and two small ones. *)
Lemma training_step_averages_large_crops_witness :
  let self := store (Sample.args "resnet18" "sgd" "none" false None) in
  let x := [Sample.q 1 2; Sample.q 1 4] in
  let X := @Several (Sample.net 3 3) [x; x; [Sample.q 1 1]; [Sample.q 2 1]] in
  exists out effects,
    training_step (H := Sample.net 3 3) self X [0%Z] = Py.Ok (out, effects)
    /\ mean_loss out
       = @cross_entropy (Sample.net 3 3) (online_logits (H := Sample.net 3 3) x) [0%Z].
Proof.
  intros self x X.
  destruct (@training_step_averages_large_crops (Sample.net 3 3) self X [0%Z])
    as (out & effects & Hstep & _ & _ & _ & _ & _ & _ & Hsame).
  - split; reflexivity.
  - reflexivity.
  - simpl. lia.
  - intros y _. simpl. lia.
  - exists out, effects. split; [exact Hstep |].
    apply (Hsame x). reflexivity.
Defined.

(** C6 with 2 + 2 crops configured and 3 supplied. *)
Lemma training_step_asserts_crop_count_witness :
  training_step (H := Sample.net 3 3)
    (scale_lr (store (Sample.args "resnet18" "sgd" "none" false None)))
    (@Several (Sample.net 3 3) [[Sample.q 1 1]; [Sample.q 2 1]; [Sample.q 3 1]])
    [0%Z]
  = Py.Raise Py.AssertionError.
Proof.
  destruct (@training_step_asserts_crop_count (Sample.net 3 3)) as (_ & _ & _ & Hex).
  apply Hex; reflexivity.
Defined.

End TrainingStepExamples.

(** ** The steps of [BaseMomentumMethod] *)

Section MomentumSteps.

Import Torch Observe.

Context `{Net}.

(** What [_shared_step_momentum] returns with a momentum classifier, when
    the accuracy helper returns. *)
Lemma shared_step_momentum_ok (self : BaseMomentumMethod.t) (x : Tensor)
  (targets : Targets) :
  BaseMomentumMethod.momentum_classifier self <> None ->
  (5 <= size1 (momentum_logits x))%nat ->
  BaseMomentumMethod._shared_step_momentum self x targets =
    Py.Ok {| BaseMomentumMethod.feats := BaseMomentumMethod.base_momentum_forward x;
             BaseMomentumMethod.classified :=
               Some {| BaseMomentumMethod.logits := momentum_logits x;
                       BaseMomentumMethod.loss := cross_entropy (momentum_logits x) targets;
                       BaseMomentumMethod.acc1 := correct_at 1 (momentum_logits x) targets;
                       BaseMomentumMethod.acc5 := correct_at 5 (momentum_logits x) targets |} |}.
Proof.
  intros Hcls Hc. unfold BaseMomentumMethod._shared_step_momentum.
  destruct (BaseMomentumMethod.momentum_classifier self); [| contradiction].
  fold (momentum_logits x).
  destruct (accuracy_at_k_cases (momentum_logits x) targets (1, 5)%nat)
    as [[_ Hok] | [Hbad _]].
  - rewrite Hok. reflexivity.
  - cbn [fst snd] in Hbad. lia.
Qed.

Lemma shared_step_momentum_none (self : BaseMomentumMethod.t) (x : Tensor)
  (targets : Targets) :
  BaseMomentumMethod.momentum_classifier self = None ->
  BaseMomentumMethod._shared_step_momentum self x targets =
    Py.Ok {| BaseMomentumMethod.feats := BaseMomentumMethod.base_momentum_forward x;
             BaseMomentumMethod.classified := None |}.
Proof.
  intros Hcls. unfold BaseMomentumMethod._shared_step_momentum. rewrite Hcls. reflexivity.
Qed.

(** The momentum step asks for the top 5 whatever the number of classes:
    with fewer than five it raises. *)
Lemma shared_step_momentum_unclamped (self : BaseMomentumMethod.t) (x : Tensor)
  (targets : Targets) :
  BaseMomentumMethod.momentum_classifier self <> None ->
  (size1 (momentum_logits x) < 5)%nat ->
  BaseMomentumMethod._shared_step_momentum self x targets = Py.Raise Py.RuntimeError.
Proof.
  intros Hcls Hc. unfold BaseMomentumMethod._shared_step_momentum.
  destruct (BaseMomentumMethod.momentum_classifier self); [| contradiction].
  fold (momentum_logits x).
  destruct (accuracy_at_k_cases (momentum_logits x) targets (1, 5)%nat)
    as [[Hok _] | [_ Hbad]].
  - cbn [fst snd] in Hok. lia.
  - rewrite Hbad. reflexivity.
Qed.

(** The momentum [training_step] where it returns.  On a batch on which
    the parent's [training_step] returns (the configured number of crops, at
    least one large crop, at least one class per large crop), the momentum
    [training_step] returns as follows.
    Without a momentum classifier its parent keys, the loss among them, are
    the parent's.  With a momentum classifier over at least five classes its
    loss is the parent's loss plus the momentum loss, which is the sum over
    the large crops of the momentum classifier's cross-entropy divided by
    [num_large_crops]; the other parent keys are the parent's. *)
Theorem momentum_training_step_adds_momentum_loss (self : BaseMomentumMethod.t)
  (X : Crops) (targets : Targets) :
  crops_consistent (BaseMomentumMethod.base self) ->
  length (as_list X) = BaseMethod.num_crops (BaseMomentumMethod.base self) ->
  (1 <= BaseMethod.num_large_crops (BaseMomentumMethod.base self))%nat ->
  (forall x, In x (take (BaseMethod.num_large_crops (BaseMomentumMethod.base self)) (as_list X)) ->
             (1 <= size1 (online_logits x))%nat) ->
  let large := take (BaseMethod.num_large_crops (BaseMomentumMethod.base self)) (as_list X) in
  let n := BaseMethod.of_nat (BaseMethod.num_large_crops (BaseMomentumMethod.base self)) in
  exists parent parent_effects,
    BaseMethod.training_step (BaseMomentumMethod.base self) X targets = Py.Ok (parent, parent_effects)
    /\ (BaseMomentumMethod.momentum_classifier self = None ->
        exists out effects,
          BaseMomentumMethod.training_step self X targets = Py.Ok (out, effects)
          /\ BaseMomentumMethod.outs out = parent
          /\ BaseMethod.mean_loss (BaseMomentumMethod.outs out)
             = BaseMethod.mean_loss parent
          /\ BaseMomentumMethod.momentum_outs out = None)
    /\ (BaseMomentumMethod.momentum_classifier self <> None ->
        (forall x, In x large -> (5 <= size1 (momentum_logits x))%nat) ->
        exists out effects m,
          BaseMomentumMethod.training_step self X targets = Py.Ok (out, effects)
          /\ BaseMomentumMethod.momentum_outs out = Some m
          /\ BaseMomentumMethod.momentum_loss m =
               (Py.sum (map (fun x => cross_entropy (momentum_logits x) targets) large)
                / n)%Qc
          /\ BaseMethod.mean_loss (BaseMomentumMethod.outs out) =
               (BaseMethod.mean_loss parent + BaseMomentumMethod.momentum_loss m)%Qc
          /\ BaseMethod.mean_acc1 (BaseMomentumMethod.outs out) = BaseMethod.mean_acc1 parent
          /\ BaseMethod.mean_acc5 (BaseMomentumMethod.outs out) = BaseMethod.mean_acc5 parent
          /\ BaseMethod.all_logits (BaseMomentumMethod.outs out) = BaseMethod.all_logits parent
          /\ BaseMethod.all_feats (BaseMomentumMethod.outs out) = BaseMethod.all_feats parent).
Proof.
  intros Hcons Hlen Hn Hclasses large n.
  destruct (training_step_eq (BaseMomentumMethod.base self) X targets Hcons Hlen Hn Hclasses) as [peff Hparent].
  destruct (crops_split (BaseMomentumMethod.base self) (as_list X) Hcons Hlen) as [Hlarge _].
  eexists _, peff. split; [exact Hparent |].
  assert (Hne : forall (B : Type) (g : Tensor -> B), map g large <> []).
  { intros B g Hnil. apply (f_equal (@length B)) in Hnil.
    rewrite length_map in Hnil. subst large. rewrite Hlarge in Hnil. simpl in Hnil. lia. }
  split.
  - intros Hcls. unfold BaseMomentumMethod.training_step.
    rewrite Hparent. cbn [Py.bind]. fold large.
    rewrite (for_each_ok _ _ large
               (fun x _ => shared_step_momentum_none self x targets Hcls)).
    cbn [Py.bind].
    destruct (map _ large) as [|m0 ms] eqn:Hms; [exfalso; exact (Hne _ _ Hms) |].
    rewrite Hcls. eexists _, _. repeat split.
  - intros Hcls H5. unfold BaseMomentumMethod.training_step.
    rewrite Hparent. cbn [Py.bind]. fold large.
    rewrite (for_each_ok _ _ large
               (fun x Hx => shared_step_momentum_ok self x targets Hcls (H5 x Hx))).
    cbn [Py.bind].
    destruct (map _ large) as [|m0 ms] eqn:Hms; [exfalso; exact (Hne _ _ Hms) |].
    rewrite <- Hms.
    destruct (BaseMomentumMethod.momentum_classifier self); [| contradiction].
    eexists _, _, _. split; [reflexivity |]. split; [reflexivity |].
    cbn [BaseMomentumMethod.momentum_loss BaseMomentumMethod.outs
         BaseMomentumMethod.add_loss BaseMethod.mean_loss BaseMethod.mean_acc1
         BaseMethod.mean_acc5 BaseMethod.all_logits BaseMethod.all_feats fst].
    unfold BaseMomentumMethod.classifieds.
    assert (Hom : forall crops : list Tensor,
              omap BaseMomentumMethod.classified
                (map (fun x =>
                   {| BaseMomentumMethod.feats := BaseMomentumMethod.base_momentum_forward x;
                      BaseMomentumMethod.classified :=
                        Some {| BaseMomentumMethod.logits := momentum_logits x;
                                BaseMomentumMethod.loss := cross_entropy (momentum_logits x) targets;
                                BaseMomentumMethod.acc1 := correct_at 1 (momentum_logits x) targets;
                                BaseMomentumMethod.acc5 := correct_at 5 (momentum_logits x) targets |} |}) crops)
              = map (fun x =>
                   {| BaseMomentumMethod.logits := momentum_logits x;
                      BaseMomentumMethod.loss := cross_entropy (momentum_logits x) targets;
                      BaseMomentumMethod.acc1 := correct_at 1 (momentum_logits x) targets;
                      BaseMomentumMethod.acc5 := correct_at 5 (momentum_logits x) targets |}) crops).
    { intros crops. induction crops as [|y crops IH]; [reflexivity |].
      cbn. f_equal. exact IH. }
    rewrite Hom, !map_map. cbn [BaseMomentumMethod.loss].
    fold n. repeat split.
Qed.

(** A comprehension over a non-empty list whose first element raises. *)
Lemma for_each_first_raises {A B : Type} (f : A -> Py.result B) (x : A)
  (xs : list A) (e : Py.exn) :
  f x = Py.Raise e -> Py.for_each f (x :: xs) = Py.Raise e.
Proof. intros Hx. cbn [Py.for_each]. rewrite Hx. reflexivity. Qed.

(** Where the momentum [training_step] does not return: with a momentum
    classifier whose logits on the first large crop have fewer than five
    classes, the parent's step returns and the momentum step of that crop
    raises, so no loss is returned. *)
Lemma momentum_training_step_unclamped (self : BaseMomentumMethod.t)
  (X : Crops) (targets : Targets) (x : Tensor) :
  crops_consistent (BaseMomentumMethod.base self) ->
  length (as_list X) = BaseMethod.num_crops (BaseMomentumMethod.base self) ->
  (1 <= BaseMethod.num_large_crops (BaseMomentumMethod.base self))%nat ->
  (forall y, In y (take (BaseMethod.num_large_crops (BaseMomentumMethod.base self)) (as_list X)) ->
             (1 <= size1 (online_logits y))%nat) ->
  BaseMomentumMethod.momentum_classifier self <> None ->
  as_list X !! 0%nat = Some x ->
  (size1 (momentum_logits x) < 5)%nat ->
  (exists parent parent_effects,
     BaseMethod.training_step (BaseMomentumMethod.base self) X targets
     = Py.Ok (parent, parent_effects))
  /\ BaseMomentumMethod.training_step self X targets = Py.Raise Py.RuntimeError.
Proof.
  intros Hcons Hlen Hn Hclasses Hcls Hx Hc.
  destruct (training_step_eq (BaseMomentumMethod.base self) X targets Hcons Hlen Hn Hclasses)
    as [peff Hparent].
  split; [eexists _, peff; exact Hparent |].
  unfold BaseMomentumMethod.training_step. rewrite Hparent. cbn [Py.bind].
  destruct (as_list X) as [|x0 rest] eqn:HX; [discriminate Hx |].
  cbn in Hx. injection Hx as ->.
  destruct (BaseMethod.num_large_crops (BaseMomentumMethod.base self)) as [|k] eqn:Hk;
    [lia |].
  cbn [take].
  rewrite (for_each_first_raises _ x _ Py.RuntimeError
             (shared_step_momentum_unclamped self x targets Hcls Hc)).
  reflexivity.
Qed.

End MomentumSteps.

Section MomentumStepExamples.

Import Torch Observe.

(** C3 at three classes.  The online step clamps [k] to 3 and returns; the
    momentum step, over a momentum classifier with the same three classes,
    asks for the top 5 and raises. *)
Theorem momentum_step_top5_is_not_clamped :
  let x := [Sample.q 1 2; Sample.q 1 4] in
  @size1 (Sample.net 3 3) (online_logits (H := Sample.net 3 3) x) = 3%nat
  /\ @size1 (Sample.net 3 3) (momentum_logits (H := Sample.net 3 3) x) = 3%nat
  /\ BaseMethod._base_shared_step (H := Sample.net 3 3) x [0%Z]
     = Py.Ok (online_step (H := Sample.net 3 3) [0%Z] x)
  /\ BaseMethod.acc5 (online_step (H := Sample.net 3 3) [0%Z] x)
     = @correct_at (Sample.net 3 3) 3 (online_logits (H := Sample.net 3 3) x) [0%Z]
  /\ BaseMomentumMethod._shared_step_momentum (H := Sample.net 3 3)
       (Sample.momentum_method true) x [0%Z]
     = Py.Raise Py.RuntimeError.
Proof.
  intros x.
  split; [reflexivity |]. split; [reflexivity |].
  split; [apply base_shared_step_ok; simpl; lia |].
  split; [reflexivity |].
  apply shared_step_momentum_unclamped; [discriminate | simpl; lia].
Qed.

(** C5 at three classes, on two large crops and two small ones.  The
    parent's step returns; the momentum classifier is there; the momentum
    [training_step] raises, where the claim has it return the parent's loss
    plus the momentum loss.  Without the momentum classifier the same batch
    gives the parent's loss unchanged. *)
Theorem momentum_training_step_raises_below_five_classes :
  let x := [Sample.q 1 2; Sample.q 1 4] in
  let X := @Several (Sample.net 3 3) [x; x; [Sample.q 1 1]; [Sample.q 2 1]] in
  (exists parent parent_effects,
     BaseMethod.training_step (H := Sample.net 3 3)
       (BaseMomentumMethod.base (Sample.momentum_method true)) X [0%Z]
     = Py.Ok (parent, parent_effects)
     /\ (exists out effects,
           BaseMomentumMethod.training_step (H := Sample.net 3 3)
             (Sample.momentum_method false) X [0%Z] = Py.Ok (out, effects)
           /\ BaseMethod.mean_loss (BaseMomentumMethod.outs out)
              = BaseMethod.mean_loss parent))
  /\ BaseMomentumMethod.momentum_classifier (Sample.momentum_method true) <> None
  /\ @size1 (Sample.net 3 3) (momentum_logits (H := Sample.net 3 3) x) = 3%nat
  /\ BaseMomentumMethod.training_step (H := Sample.net 3 3)
       (Sample.momentum_method true) X [0%Z]
     = Py.Raise Py.RuntimeError.
Proof.
  intros x X.
  destruct (@momentum_training_step_unclamped (Sample.net 3 3)
              (Sample.momentum_method true) X [0%Z] x)
    as ((parent & peff & Hparent) & Hraise).
  - split; reflexivity.
  - reflexivity.
  - simpl. lia.
  - intros y _. simpl. lia.
  - discriminate.
  - reflexivity.
  - simpl. lia.
  - split; [| split; [discriminate | split; [reflexivity | exact Hraise]]].
    exists parent, peff. split; [exact Hparent |].
    destruct (@momentum_training_step_adds_momentum_loss (Sample.net 3 3)
                (Sample.momentum_method false) X [0%Z])
      as (parent' & peff' & Hparent' & Hnone & _).
    + split; reflexivity.
    + reflexivity.
    + simpl. lia.
    + intros y _. simpl. lia.
    + destruct (Hnone eq_refl) as (out & effects & Hstep & _ & Hloss & _).
      exists out, effects. split; [exact Hstep |].
      rewrite Hloss.
      change (BaseMomentumMethod.base (Sample.momentum_method false))
        with (BaseMomentumMethod.base (Sample.momentum_method true)) in Hparent'.
      rewrite Hparent in Hparent'. injection Hparent' as <- _. reflexivity.
Qed.

(** The momentum [training_step] with a momentum classifier over five
    classes, on two large crops and two small ones. *)
Lemma momentum_training_step_adds_momentum_loss_witness :
  let self := Sample.momentum_method true in
  let x := [Sample.q 1 2; Sample.q 1 4] in
  let X := @Several (Sample.net 5 5) [x; x; [Sample.q 1 1]; [Sample.q 2 1]] in
  exists parent parent_effects out effects m,
    BaseMethod.training_step (H := Sample.net 5 5) (BaseMomentumMethod.base self) X [0%Z]
      = Py.Ok (parent, parent_effects)
    /\ BaseMomentumMethod.training_step (H := Sample.net 5 5) self X [0%Z]
       = Py.Ok (out, effects)
    /\ BaseMomentumMethod.momentum_outs out = Some m
    /\ BaseMethod.mean_loss (BaseMomentumMethod.outs out) =
         (BaseMethod.mean_loss parent + BaseMomentumMethod.momentum_loss m)%Qc.
Proof.
  intros self x X.
  destruct (@momentum_training_step_adds_momentum_loss (Sample.net 5 5) self X [0%Z])
    as (parent & peff & Hparent & _ & Hwith).
  - split; reflexivity.
  - reflexivity.
  - simpl. lia.
  - intros y _. simpl. lia.
  - destruct Hwith as (out & effects & m & Hstep & Hm & _ & Hloss & _).
    + discriminate.
    + intros y _. simpl. lia.
    + exists parent, peff, out, effects, m.
      split; [exact Hparent |]. split; [exact Hstep |]. split; [exact Hm | exact Hloss].
Defined.

End MomentumStepExamples.

(** ** Validation aggregation *)

Section Validation.

Import BaseMethod Observe.

Lemma item_batch_size (b : Batch) :
  Metrics.item "batch_size" (validation_output b) = Py.Ok (size b).
Proof. reflexivity. Qed.

Lemma item_val_loss (b : Batch) :
  Metrics.item "val_loss" (validation_output b) = Py.Ok (val_loss b).
Proof. reflexivity. Qed.

Lemma item_val_acc1 (b : Batch) :
  Metrics.item "val_acc1" (validation_output b) = Py.Ok (val_acc1 b).
Proof. reflexivity. Qed.

Lemma item_val_acc5 (b : Batch) :
  Metrics.item "val_acc5" (validation_output b) = Py.Ok (val_acc5 b).
Proof. reflexivity. Qed.

(** The loop of [weighted_mean] adds up value times size, and size. *)
Lemma accumulate_sums (key : string) (proj : Batch -> Qc) (batches : list Batch)
  (value n : Qc) :
  (forall b, Metrics.item key (validation_output b) = Py.Ok (proj b)) ->
  Metrics.accumulate (map validation_output batches) key "batch_size" value n =
    Py.Ok ((value + fold_right Qcplus 0 (map (fun b => size b * proj b) batches))%Qc,
           (n + fold_right Qcplus 0 (map size batches))%Qc).
Proof.
  intros Hkey. revert value n.
  induction batches as [|b batches IH]; intros value n; simpl.
  - f_equal. f_equal; ring.
  - rewrite item_batch_size, Hkey. simpl. rewrite IH. f_equal. f_equal; ring.
Qed.

Lemma total_positive (batches : list Batch) :
  batches <> [] ->
  Forall (fun b => (0 < size b)%Qc) batches ->
  (0 < fold_right Qcplus 0 (map size batches))%Qc.
Proof.
  intros Hne Hall. induction Hall as [|b batches Hb Hall IH]; [contradiction |].
  simpl. destruct batches as [|b' batches].
  - simpl. rewrite Qcplus_0_r. exact Hb.
  - apply Qcplus_pos_pos; [exact Hb | apply IH; discriminate].
Qed.

Lemma weighted_mean_batches (key : string) (proj : Batch -> Qc) (batches : list Batch) :
  (forall b, Metrics.item key (validation_output b) = Py.Ok (proj b)) ->
  batches <> [] ->
  Forall (fun b => (0 < size b)%Qc) batches ->
  Metrics.weighted_mean (map validation_output batches) key "batch_size" =
    Py.Ok (weighted_mean_spec (map (fun b => (size b, proj b)) batches)).
Proof.
  intros Hkey Hne Hall. unfold Metrics.weighted_mean.
  rewrite (accumulate_sums key proj batches 0 0 Hkey). cbn [Py.bind fst snd].
  pose proof (total_positive batches Hne Hall) as Hpos.
  rewrite !Qcplus_0_l.
  rewrite bool_decide_eq_false_2.
  - unfold weighted_mean_spec. rewrite !map_map. reflexivity.
  - intros Hz. rewrite Hz in Hpos. apply Qclt_not_eq in Hpos. apply Hpos. reflexivity.
Qed.

(** C7.  For a non-empty list of validation outputs with positive batch
    sizes, [validation_epoch_end] logs, under [val_loss], [val_acc1] and
    [val_acc5], the sum over the outputs of the value times the batch size,
    divided by the sum of the batch sizes.  The outputs are the dictionaries
    [validation_step] returns, whose [batch_size] is the length of the
    targets.  On batch sizes 10, 10, 2 with losses 1, 2, 5 the logged loss is
    40/22 = 20/11, which is not the unweighted mean 8/3. *)
Theorem validation_epoch_end_weights_by_batch_size :
  (forall (self : Hparams) (sanity_checking : bool) (knn_compute : Qc * Qc)
          (batches : list Batch),
     batches <> [] ->
     Forall (fun b => (0 < size b)%Qc) batches ->
     exists log,
       validation_epoch_end self sanity_checking knn_compute
         (map validation_output batches) = Py.Ok log
       /\ take 3 log =
            [("val_loss", weighted_mean_spec (map (fun b => (size b, val_loss b)) batches));
             ("val_acc1", weighted_mean_spec (map (fun b => (size b, val_acc1 b)) batches));
             ("val_acc5", weighted_mean_spec (map (fun b => (size b, val_acc5 b)) batches))])
  /\ (forall (N : Torch.Net) (self : Hparams) (sanity_checking : bool)
             (x : Torch.Tensor) (targets : Torch.Targets),
        (1 <= Torch.size1 (online_logits x))%nat ->
        exists effects,
          validation_step self sanity_checking x targets
          = Py.Ok (validation_output (batch_of x targets), effects))
  /\ weighted_mean_spec (map (fun b => (size b, val_loss b)) Sample.batches)
     = Q2Qc (20 # 11)
  /\ plain_mean (map (fun b => (size b, val_loss b)) Sample.batches) = Q2Qc (8 # 3)
  /\ Q2Qc (20 # 11) <> Q2Qc (8 # 3).
Proof.
  split.
  { intros self sanity knn batches Hne Hall. unfold validation_epoch_end.
    rewrite (weighted_mean_batches "val_loss" val_loss batches item_val_loss Hne Hall).
    rewrite (weighted_mean_batches "val_acc1" val_acc1 batches item_val_acc1 Hne Hall).
    rewrite (weighted_mean_batches "val_acc5" val_acc5 batches item_val_acc5 Hne Hall).
    cbn [Py.bind]. eexists. split; [reflexivity |].
    destruct (knn_eval self && negb sanity); reflexivity. }
  split.
  { intros N self sanity x targets Hc. unfold validation_step.
    rewrite (base_shared_step_ok x targets Hc). cbn [Py.bind].
    eexists. reflexivity. }
  split; [apply Qc_is_canon; vm_compute; reflexivity |].
  split; [apply Qc_is_canon; vm_compute; reflexivity |].
  intros Heq. discriminate Heq.
Qed.

(** C7 on the three batches of sizes 10, 10, 2. *)
Lemma validation_epoch_end_weights_by_batch_size_witness :
  exists log,
    validation_epoch_end (store (Sample.args "resnet18" "sgd" "none" false None))
      false (Sample.q 0 1, Sample.q 0 1) (map validation_output Sample.batches)
    = Py.Ok log
    /\ log !! 0%nat = Some ("val_loss", Q2Qc (20 # 11)).
Proof.
  destruct validation_epoch_end_weights_by_batch_size as (Hgen & _ & Hval & _).
  destruct (Hgen (store (Sample.args "resnet18" "sgd" "none" false None)) false
              (Sample.q 0 1, Sample.q 0 1) Sample.batches)
    as (log & Hlog & Htake).
  - discriminate.
  - repeat constructor.
  - exists log. split; [exact Hlog |].
    rewrite <- (lookup_take_lt log 3 0) by lia.
    rewrite Htake, Hval. reflexivity.
Defined.

End Validation.

(** * Further properties *)

(** ** The momentum hook: start, repetition, bounds *)

Section HookExtras.

Import BaseMomentumMethod Observe.

(** X1.  The hook is idempotent per global step: a second call at the same
    global step returns the state the first call left, with no further
    momentum call. *)
Theorem hook_is_idempotent_per_step (trainer : Trainer)
  (pairs : list (Member * Member)) (self : t) (last : Z) :
  last_step self = Some last ->
  exists once,
    on_train_batch_end trainer pairs self = Py.Ok once
    /\ on_train_batch_end trainer pairs once = Py.Ok once
    /\ run [trainer; trainer] pairs self = Py.Ok once.
Proof.
  intros Hlast.
  rewrite (on_train_batch_end_eq trainer pairs self last Hlast).
  eexists. split; [reflexivity |].
  assert (Hagain : forall s : t,
            on_train_batch_end trainer pairs (set_last_step (global_step trainer) s)
            = Py.Ok (set_last_step (global_step trainer) s)).
  { intros s. unfold on_train_batch_end. cbn [last_step set_last_step].
    rewrite Z.gtb_ltb, Z.ltb_irrefl. reflexivity. }
  split; [apply Hagain |].
  cbn [run]. rewrite (on_train_batch_end_eq trainer pairs self last Hlast).
  cbn [Py.bind]. rewrite Hagain. reflexivity.
Qed.

Lemma hook_is_idempotent_per_step_witness :
  exists once,
    on_train_batch_end (Sample.trainer_at 3) momentum_pairs
      (on_train_start (Sample.momentum_method false)) = Py.Ok once
    /\ on_train_batch_end (Sample.trainer_at 3) momentum_pairs once = Py.Ok once
    /\ run [Sample.trainer_at 3; Sample.trainer_at 3] momentum_pairs
         (on_train_start (Sample.momentum_method false)) = Py.Ok once.
Proof.
  exact (hook_is_idempotent_per_step (Sample.trainer_at 3) momentum_pairs
           (on_train_start (Sample.momentum_method false)) 0 eq_refl).
Defined.

(** X2.  The hook depends on [on_train_start].  Before it has run there is
    no [last_step] and the hook raises [AttributeError].  Right after it,
    [last_step] is 0 whatever the trainer's global step: a first call at
    global step 0 makes no momentum call, and a first call at a positive
    global step (a run resumed from a checkpoint) makes the momentum calls
    at once, before any optimizer step of the resumed run. *)
Theorem hook_after_train_start :
  (forall (trainer : Trainer) (pairs : list (Member * Member)) (self : t),
     last_step self = None ->
     on_train_batch_end trainer pairs self = Py.Raise (Py.AttributeError "last_step"))
  /\ (forall (trainer : Trainer) (pairs : list (Member * Member)) (self : t),
        global_step trainer = 0%Z ->
        exists self',
          on_train_batch_end trainer pairs (on_train_start self) = Py.Ok self'
          /\ calls self' = calls self
          /\ last_step self' = Some 0%Z)
  /\ (forall (trainer : Trainer) (pairs : list (Member * Member)) (self : t),
        (0 < global_step trainer)%Z ->
        exists self',
          on_train_batch_end trainer pairs (on_train_start self) = Py.Ok self'
          /\ calls self' = (calls self ++ firing trainer pairs)%list
          /\ last_step self' = Some (global_step trainer)).
Proof.
  split.
  { intros trainer pairs self Hnone. unfold on_train_batch_end. rewrite Hnone.
    reflexivity. }
  split.
  { intros trainer pairs self Hzero.
    rewrite (on_train_batch_end_eq trainer pairs (on_train_start self) 0 eq_refl).
    rewrite Hzero. eexists. split; [reflexivity |]. split; reflexivity. }
  intros trainer pairs self Hpos.
  rewrite (on_train_batch_end_eq trainer pairs (on_train_start self) 0 eq_refl).
  destruct (Z.gtb_spec (global_step trainer) 0) as [_ | Hle]; [| lia].
  eexists. split; [reflexivity |]. split; reflexivity.
Qed.

Lemma hook_after_train_start_witness :
  on_train_batch_end (Sample.trainer_at 7) momentum_pairs (Sample.momentum_method false)
    = Py.Raise (Py.AttributeError "last_step")
  /\ exists self',
       on_train_batch_end (Sample.trainer_at 7) momentum_pairs
         (on_train_start (Sample.momentum_method false)) = Py.Ok self'
       /\ calls self' =
            [Update TheBackbone TheMomentumBackbone; LogTau; UpdateTau 28 1000].
Proof.
  destruct hook_after_train_start as (Hbefore & _ & Hresumed).
  split; [apply Hbefore; reflexivity |].
  destruct (Hresumed (Sample.trainer_at 7) momentum_pairs (Sample.momentum_method false))
    as (self' & Hstep & Hcalls & _); [reflexivity |].
  exists self'. split; [exact Hstep | exact Hcalls].
Defined.

(** X3.  With a positive accumulation factor [n], the [cur_step] given to
    [update_tau] stays within [0, max_steps] as long as the global step is
    at most the number of optimizer steps [max_steps // n], and it equals
    [max_steps] at the last optimizer step when [n] divides [max_steps]. *)
Theorem scaled_step_within_max_steps (trainer : Trainer) (n : Z) :
  accumulate_grad_batches trainer = Some n ->
  (0 < n)%Z ->
  (0 <= global_step trainer)%Z ->
  (global_step trainer <= (train_dataloader_len trainer * max_epochs trainer) / n)%Z ->
  (0 <= scaled_step trainer <= train_dataloader_len trainer * max_epochs trainer)%Z
  /\ (((train_dataloader_len trainer * max_epochs trainer) mod n = 0)%Z ->
      global_step trainer = ((train_dataloader_len trainer * max_epochs trainer) / n)%Z ->
      scaled_step trainer = (train_dataloader_len trainer * max_epochs trainer)%Z).
Proof.
  intros Hacc Hn Hge Hle.
  assert (Hs : scaled_step trainer = (global_step trainer * n)%Z).
  { unfold scaled_step. rewrite Hacc. simpl.
    destruct (Z.eqb_spec n 0); [lia | reflexivity]. }
  rewrite Hs. set (total := (train_dataloader_len trainer * max_epochs trainer)%Z) in *.
  split.
  - split; [nia |].
    pose proof (Z.mul_div_le total n Hn) as Hdiv. nia.
  - intros Hmod ->. apply Z.div_exact in Hmod; lia.
Qed.

Lemma scaled_step_within_max_steps_witness :
  (0 <= scaled_step (Sample.trainer_at 250) <= 1000)%Z
  /\ scaled_step (Sample.trainer_at 250) = 1000%Z.
Proof.
  destruct (scaled_step_within_max_steps (Sample.trainer_at 250) 4 eq_refl)
    as [Hbound Hlast].
  - lia.
  - simpl. lia.
  - vm_compute. discriminate.
  - split; [exact Hbound |]. apply Hlast; reflexivity.
Defined.

End HookExtras.

(** ** The training steps: what is counted and what is handed on *)

Section StepExtras.

Import Torch Observe.

Context `{Net}.

(** The training step with its effects, in closed form. *)
Lemma training_step_full (self : BaseMethod.Hparams) (X : Crops) (targets : Targets) :
  crops_consistent self ->
  length (as_list X) = BaseMethod.num_crops self ->
  (1 <= BaseMethod.num_large_crops self)%nat ->
  (forall x, In x (take (BaseMethod.num_large_crops self) (as_list X)) ->
             (1 <= size1 (online_logits x))%nat) ->
  let large := take (BaseMethod.num_large_crops self) (as_list X) in
  let small := drop (BaseMethod.num_large_crops self) (as_list X) in
  exists out metrics,
    BaseMethod.training_step self X targets =
      Py.Ok (out,
             BaseMethod.LogDict metrics (Some true) true
             :: (if BaseMethod.knn_eval self
                 then [Knn.knn_train self (map (fun x => snd (BaseMethod.base_forward x)) large)
                         targets]
                 else []))
    /\ metrics = [("train_class_loss", BaseMethod.mean_loss out);
                  ("train_acc1", BaseMethod.mean_acc1 out);
                  ("train_acc5", BaseMethod.mean_acc5 out)]
    /\ BaseMethod.all_logits out = map online_logits large
    /\ BaseMethod.all_feats out =
         (map (fun x => snd (BaseMethod.base_forward x)) large
          ++ map (forward Backbone) small)%list.
Proof.
  intros Hcons Hlen Hn Hclasses large small.
  destruct (crops_split self (as_list X) Hcons Hlen) as [Hlarge Hsmall].
  unfold BaseMethod.training_step.
  apply Nat.eqb_eq in Hlen as Hlenb. rewrite Hlenb. cbn [Py.assert Py.bind].
  rewrite (for_each_ok _ (online_step targets) _
             (fun x Hx => base_shared_step_ok x targets (Hclasses x Hx))).
  cbn [Py.bind]. fold large. fold small.
  destruct (map (online_step targets) large) as [|o os] eqn:Hmap.
  { apply (f_equal (@length BaseMethod.StepOut)) in Hmap. rewrite length_map in Hmap.
    subst large. rewrite Hlarge in Hmap. simpl in Hmap. lia. }
  rewrite <- Hmap. rewrite !map_map.
  cbn [BaseMethod.logits BaseMethod.feats BaseMethod.loss BaseMethod.acc1
       BaseMethod.acc5 online_step].
  assert (Hfeats : (if BaseMethod.multicrop self
                    then (map (fun x => snd (BaseMethod.base_forward x)) large
                          ++ map (forward Backbone) small)%list
                    else map (fun x => snd (BaseMethod.base_forward x)) large)
                   = (map (fun x => snd (BaseMethod.base_forward x)) large
                      ++ map (forward Backbone) small)%list).
  { destruct (BaseMethod.multicrop self) eqn:Hm; [reflexivity |].
    subst small. rewrite (Hsmall eq_refl). simpl. rewrite app_nil_r. reflexivity. }
  rewrite Hfeats.
  assert (Htake : take (BaseMethod.num_large_crops self)
                    (map (fun x => snd (BaseMethod.base_forward x)) large
                     ++ map (forward Backbone) small)%list
                  = map (fun x => snd (BaseMethod.base_forward x)) large).
  { rewrite take_app_le by (rewrite length_map; subst large; rewrite Hlarge; lia).
    apply take_ge. rewrite length_map. subst large. rewrite Hlarge. lia. }
  rewrite Htake.
  eexists _, _. split; [reflexivity |]. split; [reflexivity |]. split; reflexivity.
Qed.

(** X4.  On a batch on which [training_step] returns, the returned
    dictionary holds one logits tensor per large crop and one feature tensor
    per crop (the large crops first, then the small ones); the step logs
    exactly once, the three returned means.  When [knn_eval] is set it calls
    the k-NN classifier once, after the log: the targets are repeated
    [num_large_crops] times, the mask is where the repeated targets differ
    from -1, the features are the backbone features of the large crops only,
    concatenated, restricted to the mask and detached, and the targets are
    the repeated targets restricted to the same mask.  When [knn_eval] is
    not set the k-NN classifier is not called. *)
Theorem training_step_counts_and_effects (self : BaseMethod.Hparams) (X : Crops)
  (targets : Targets) :
  crops_consistent self ->
  length (as_list X) = BaseMethod.num_crops self ->
  (1 <= BaseMethod.num_large_crops self)%nat ->
  (forall x, In x (take (BaseMethod.num_large_crops self) (as_list X)) ->
             (1 <= size1 (online_logits x))%nat) ->
  exists out effects,
    BaseMethod.training_step self X targets = Py.Ok (out, effects)
    /\ length (BaseMethod.all_logits out) = BaseMethod.num_large_crops self
    /\ length (BaseMethod.all_feats out) = BaseMethod.num_crops self
    /\ effects !! 0%nat =
         Some (BaseMethod.LogDict
                 [("train_class_loss", BaseMethod.mean_loss out);
                  ("train_acc1", BaseMethod.mean_acc1 out);
                  ("train_acc5", BaseMethod.mean_acc5 out)] (Some true) true)
    /\ (BaseMethod.knn_eval self = true ->
        let repeated := repeat_targets (BaseMethod.num_large_crops self) targets in
        let mask := ne repeated (-1) in
        effects !! 1%nat =
          Some (BaseMethod.KnnTrain
                  (detach
                     (select
                        (cat (map (fun x => forward Backbone x)
                                (take (BaseMethod.num_large_crops self) (as_list X))))
                        mask))
                  (select_targets repeated mask))
        /\ take (BaseMethod.num_large_crops self) (BaseMethod.all_feats out)
           = map (fun x => forward Backbone x)
               (take (BaseMethod.num_large_crops self) (as_list X))
        /\ length effects = 2%nat)
    /\ (BaseMethod.knn_eval self = false -> length effects = 1%nat).
Proof.
  intros Hcons Hlen Hn Hclasses.
  destruct (training_step_full self X targets Hcons Hlen Hn Hclasses)
    as (out & metrics & Hstep & Hmetrics & Hlogits & Hfeats).
  destruct (crops_split self (as_list X) Hcons Hlen) as [Hlarge _].
  eexists out, _. split; [exact Hstep |].
  split; [rewrite Hlogits, length_map; exact Hlarge |].
  split.
  { rewrite Hfeats, length_app, !length_map, length_take, length_drop. lia. }
  split; [rewrite Hmetrics; reflexivity |].
  assert (Htake : take (BaseMethod.num_large_crops self) (BaseMethod.all_feats out)
                  = map (fun x => snd (BaseMethod.base_forward x))
                      (take (BaseMethod.num_large_crops self) (as_list X))).
  { rewrite Hfeats.
    rewrite take_app_le by (rewrite length_map, Hlarge; lia).
    apply take_ge. rewrite length_map, Hlarge. lia. }
  split.
  - intros Hknn repeated mask. rewrite Hknn. repeat split. exact Htake.
  - intros Hknn. rewrite Hknn. reflexivity.
Qed.

Lemma of_int_one : BaseMethod.of_int 1 = 1%Qc.
Proof. apply Qc_is_canon. reflexivity. Qed.

(** X5.  Rescaling is the identity when accumulation is off or trivial:
    with [accumulate_grad_batches] equal to [None], 0 or 1, the attributes
    [__init__] holds at the registry check have the values that were passed. *)
Theorem no_rescaling_without_accumulation (a : BaseMethod.Args.t) :
  BaseMethod.Args.accumulate_grad_batches a = None
  \/ BaseMethod.Args.accumulate_grad_batches a = Some 0%Z
  \/ BaseMethod.Args.accumulate_grad_batches a = Some 1%Z ->
  BaseMethod.scale_lr (BaseMethod.store a) = BaseMethod.store a.
Proof.
  intros [Hacc | [Hacc | Hacc]].
  - apply scale_lr_off. cbn. rewrite Hacc. reflexivity.
  - apply scale_lr_off. cbn. rewrite Hacc. reflexivity.
  - rewrite (scale_lr_on (BaseMethod.store a) 1%Z)
      by first [exact Hacc | discriminate].
    rewrite of_int_one, !Qcmult_1_r. reflexivity.
Qed.

End StepExtras.

Section StepExtrasExamples.

Import Torch Observe.

(** With [knn_eval] set, two large crops and a batch of two samples of
    which the first has the ignored label: the k-NN classifier gets the
    second sample of each large crop, and the label 0 twice. *)
Lemma training_step_counts_and_effects_witness :
  let self := BaseMethod.store (Knn.with_knn_eval (Sample.args "resnet18" "sgd" "none" false None)) in
  let X := @Several (Sample.net 3 3)
             [[Sample.q 1 2; Sample.q 3 2]; [Sample.q 1 4; Sample.q 3 4];
              [Sample.q 1 1]; [Sample.q 2 1]] in
  exists out effects,
    BaseMethod.training_step (H := Sample.net 3 3) self X [(-1)%Z; 0%Z]
    = Py.Ok (out, effects)
    /\ length (BaseMethod.all_logits out) = 2%nat
    /\ length (BaseMethod.all_feats out) = 4%nat
    /\ effects !! 1%nat
       = Some (BaseMethod.KnnTrain (H := Sample.net 3 3)
                 [Sample.q 3 2; Sample.q 3 4] [0%Z; 0%Z])
    /\ length effects = 2%nat.
Proof.
  intros self X.
  destruct (@training_step_counts_and_effects (Sample.net 3 3) self X [(-1)%Z; 0%Z])
    as (out & effects & Hstep & Hl & Hf & _ & Hon & _).
  - split; reflexivity.
  - reflexivity.
  - simpl. lia.
  - intros y _. simpl. lia.
  - destruct (Hon eq_refl) as (Hknn & _ & Hlen).
    exists out, effects. split; [exact Hstep |]. split; [exact Hl |].
    split; [exact Hf |]. split; [exact Hknn | exact Hlen].
Defined.

Lemma no_rescaling_without_accumulation_witness :
  BaseMethod.lr
    (BaseMethod.scale_lr
       (BaseMethod.store (Sample.args "resnet18" "sgd" "none" false (Some 1%Z))))
  = Sample.q 1 10.
Proof.
  rewrite (no_rescaling_without_accumulation
             (Sample.args "resnet18" "sgd" "none" false (Some 1%Z)));
    [reflexivity | right; right; reflexivity].
Defined.

End StepExtrasExamples.

(** ** Construction: what a constructed method looks like *)

Section ConstructionExtras.

Import BaseMethod Registry Observe.

Context `{Constructors}.

Lemma scale_lr_keeps (h : Hparams) :
  backbone_args (scale_lr h) = backbone_args h
  /\ num_classes (scale_lr h) = num_classes h
  /\ knn_eval (scale_lr h) = knn_eval h
  /\ knn_k (scale_lr h) = knn_k h.
Proof.
  unfold scale_lr.
  destruct (Py.truthy_int (accumulate_grad_batches h));
    [destruct (accumulate_grad_batches h) |]; repeat split.
Qed.

(** What [adapt] returned, read back from its result. *)
Lemma adapt_inv (name : string) (out_size : Z) (cifar : Py.value)
  (b b' : option NN.Backbone) (d : Z) :
  adapt name out_size cifar b = Py.Ok (b', d) ->
  exists m m',
    b = Some m /\ b' = Some m'
    /\ (Py.contains "resnet" name = true ->
        NN.fc m' = Some NN.Identity
        /\ NN.inplanes m' = NN.inplanes m
        /\ (Py.contains "large" name = true -> d = out_size)
        /\ (Py.contains "large" name = false -> NN.inplanes m = Some d)
        /\ (Py.truthy cifar = true ->
            NN.conv1 m' = Some (NN.Conv2d 3 64 3 1 2 false)
            /\ NN.maxpool m' = Some NN.Identity)
        /\ (Py.truthy cifar = false ->
            NN.conv1 m' = NN.conv1 m /\ NN.maxpool m' = NN.maxpool m))
    /\ (Py.contains "resnet" name = false ->
        m' = m /\ NN.num_features m = Some d).
Proof.
  unfold adapt.
  destruct (Py.contains "resnet" name) eqn:Hres.
  - destruct b as [m|]; cbn [NN.getattr Py.bind]; [| discriminate].
    destruct (NN.inplanes m) as [inpl|] eqn:Hin; cbn [Py.bind]; [| discriminate].
    cbn [NN.setattr Py.bind].
    destruct (Py.truthy cifar) eqn:Hc; cbn [NN.setattr Py.bind];
      intros Heq; injection Heq as <- <-; eexists _, _;
      (split; [reflexivity |]); (split; [reflexivity |]);
      (split; [| discriminate]); intros _;
      cbn [NN.fc NN.inplanes NN.conv1 NN.maxpool NN.set_fc NN.set_conv1 NN.set_maxpool];
      (split; [reflexivity |]); (split; [reflexivity |]).
    + split; [intros ->; reflexivity |].
      split; [intros ->; exact Hin |].
      split; [intros _; split; reflexivity | discriminate].
    + split; [intros ->; reflexivity |].
      split; [intros ->; exact Hin |].
      split; [discriminate | intros _; split; reflexivity].
  - destruct b as [m|]; cbn [NN.getattr Py.bind]; [| discriminate].
    destruct (NN.num_features m) as [nf|] eqn:Hnf; cbn [Py.bind]; [| discriminate].
    intros Heq; injection Heq as <- <-. exists m, m.
    split; [reflexivity |]. split; [reflexivity |].
    split; [discriminate |]. intros _. split; [reflexivity | exact Hnf].
Qed.

(** [adapt] looks at the truth value of [cifar] only. *)
Lemma adapt_truthy (name : string) (out_size : Z) (c1 c2 : Py.value)
  (b : option NN.Backbone) :
  Py.truthy c1 = Py.truthy c2 ->
  adapt name out_size c1 b = adapt name out_size c2 b.
Proof. intros Ht. unfold adapt. rewrite Ht. reflexivity. Qed.

Lemma build_inv (name : string) (f : Factory) (out_size : Z)
  (args : gmap string Py.value) (bf : option NN.Backbone * Z) :
  build name f out_size args = Py.Ok bf ->
  exists b,
    adapt name out_size (default (Py.VBool false) (args !! "cifar")) b = Py.Ok bf.
Proof.
  unfold build, Py.pop. cbv beta iota zeta.
  destruct (if Py.contains "resnetlarge" name then _ else _) as [b|e];
    cbn [Py.bind]; [| discriminate].
  intros Hb. exists b. exact Hb.
Qed.

(** The whole of a constructed method. *)
Lemma init_inv_full (a : Args.t) (self : t) :
  __init__ a = Py.Ok self ->
  exists f bf,
    _SUPPORTED_BACKBONES !! Args.backbone a = Some f
    /\ build (Args.backbone a) f (Args.out_size a) (Args.backbone_args a) = Py.Ok bf
    /\ self =
         {| hparams := scale_lr (store a);
            base_model := f;
            backbone_name := Args.backbone a;
            backbone := fst bf;
            features_dim := snd bf;
            classifier := NN.Linear (snd bf) (Args.num_classes a);
            knn := if Args.knn_eval a
                   then Some {| k := Args.knn_k a; distance_fx := "euclidean" |}
                   else None |}.
Proof.
  destruct (scale_lr_keeps (store a)) as (Hargs & Hnc & Hke & Hkk).
  unfold __init__, getitem.
  destruct (_SUPPORTED_BACKBONES !! Args.backbone a) as [f|] eqn:Hreg.
  - rewrite bool_decide_eq_true_2 by (eexists; reflexivity). cbn [Py.assert Py.bind].
    rewrite Hargs, Hnc, Hke, Hkk. cbn [backbone_args num_classes knn_eval knn_k store].
    destruct (build _ f _ _) as [bf|e] eqn:Hb; cbn [Py.bind]; [| discriminate].
    intros Heq. injection Heq as <-. exists f, bf.
    split; [reflexivity |]. split; [exact Hb | reflexivity].
  - rewrite bool_decide_eq_false_2 by (intros [x Hx]; discriminate). discriminate.
Qed.

(** X6.  Every constructed [BaseMethod] has a backbone that is a module,
    never the [None] object; its classifier is a linear layer from
    [features_dim] to [num_classes]; it has a k-NN classifier with
    [k = knn_k] exactly when [knn_eval] is set; and its crop count is the
    sum of the two crop numbers.  For a name of the resnet family the
    backbone's [fc] is the identity, [features_dim] is [out_size] when the
    name contains large and the backbone's [inplanes] otherwise, and with a
    truthy [cifar] argument [conv1] is the 3x3 stride-1 padding-2 bias-free
    convolution and [maxpool] the identity.  For any other name
    [features_dim] is the backbone's [num_features]. *)
Theorem constructed_method_invariant (a : Args.t) (self : t) :
  __init__ a = Py.Ok self ->
  let cifar := default (Py.VBool false) (Args.backbone_args a !! "cifar") in
  exists m,
    backbone self = Some m
    /\ backbone_name self = Args.backbone a
    /\ _SUPPORTED_BACKBONES !! Args.backbone a = Some (base_model self)
    /\ classifier self = NN.Linear (features_dim self) (Args.num_classes a)
    /\ knn self = (if Args.knn_eval a
                   then Some {| k := Args.knn_k a; distance_fx := "euclidean" |}
                   else None)
    /\ num_crops self = (Args.num_large_crops a + Args.num_small_crops a)%nat
    /\ (Py.contains "resnet" (Args.backbone a) = true ->
        NN.fc m = Some NN.Identity
        /\ (Py.contains "large" (Args.backbone a) = true ->
            features_dim self = Args.out_size a)
        /\ (Py.contains "large" (Args.backbone a) = false ->
            NN.inplanes m = Some (features_dim self))
        /\ (Py.truthy cifar = true ->
            NN.conv1 m = Some (NN.Conv2d 3 64 3 1 2 false)
            /\ NN.maxpool m = Some NN.Identity))
    /\ (Py.contains "resnet" (Args.backbone a) = false ->
        NN.num_features m = Some (features_dim self)).
Proof.
  intros Hinit cifar.
  destruct (init_inv_full a self Hinit) as (f & [b' d] & Hreg & Hbuild & ->).
  destruct (build_inv _ _ _ _ _ Hbuild) as [b Hadapt]. fold cifar in Hadapt.
  destruct (adapt_inv _ _ _ _ _ _ Hadapt) as (m & m' & -> & -> & Hres & Hother).
  exists m'. cbn [backbone backbone_name base_model classifier knn features_dim
                  hparams fst snd].
  split; [reflexivity |]. split; [reflexivity |]. split; [exact Hreg |].
  split; [reflexivity |]. split; [reflexivity |].
  split.
  { unfold scale_lr.
    destruct (Py.truthy_int _); [destruct (accumulate_grad_batches _) |]; reflexivity. }
  split.
  - intros Hr. destruct (Hres Hr) as (Hfc & Hin & Hlarge & Hsmall & Hcifar & _).
    split; [exact Hfc |]. split; [exact Hlarge |].
    split; [intros Hl; rewrite Hin; exact (Hsmall Hl) | exact Hcifar].
  - intros Hr. destruct (Hother Hr) as [-> Hnf]. exact Hnf.
Qed.

(** X7.  A falsy [cifar] entry in [backbone_args] is the same as none: the
    backbone that is built, and the feature dimension, are those built from
    the arguments without the key.  The key itself never reaches the
    factory. *)
Theorem falsy_cifar_is_absent (name : string) (f : Factory) (out_size : Z)
  (args : gmap string Py.value) (v : Py.value) :
  Py.truthy v = false ->
  build name f out_size (<[ "cifar" := v ]> args)
  = build name f out_size (delete "cifar" args).
Proof.
  intros Hv. unfold build, Py.pop. cbv beta iota zeta.
  rewrite lookup_insert_eq, delete_insert_eq, lookup_delete_eq, delete_delete_eq.
  change (default (Py.VBool false) (Some v)) with v.
  change (default (Py.VBool false) (@None Py.value)) with (Py.VBool false).
  rewrite Hv. cbn [Py.truthy]. rewrite !andb_false_r.
  destruct (if Py.contains "resnetlarge" name then _ else _) as [b|e];
    cbn [Py.bind]; [| reflexivity].
  apply adapt_truthy. rewrite Hv. reflexivity.
Qed.

(** X8.  The substring tests of [__init__] agree with the registry on
    every registered name: [out_size] is passed positionally exactly to
    the factories that take it (resnetlarge1, resnetlarge2); the resnet
    surgery is applied exactly to the seven factories of the resnet family;
    within it, large selects the same two factories, so that vit_large,
    swin_large and convnext_large are never given [out_size] as their
    feature dimension; and the window override applies exactly to the swin
    factories. *)
Theorem registry_dispatch_is_consistent (name : string) (f : Factory) :
  _SUPPORTED_BACKBONES !! name = Some f ->
  Py.contains "resnetlarge" name = Families.takes_out_size f
  /\ Py.contains "resnet" name = Families.is_resnet f
  /\ (Py.contains "resnet" name && Py.contains "large" name)
     = Families.takes_out_size f
  /\ Py.contains "swin" name = Families.is_swin f.
Proof.
  intros Hreg.
  unfold _SUPPORTED_BACKBONES in Hreg. apply elem_of_list_to_map_2 in Hreg.
  assert (Hall : Families.dispatch_matches name f = true).
  { match type of Hreg with
    | _ ∈ ?l =>
        assert (Hl : Forall (fun p => Families.dispatch_matches (fst p) (snd p) = true) l)
          by (repeat (constructor; [vm_compute; reflexivity |]); constructor)
    end.
    rewrite Forall_forall in Hl. exact (Hl _ Hreg). }
  unfold Families.dispatch_matches in Hall.
  rewrite !andb_true_iff in Hall. destruct Hall as [[[H1 H2] H3] H4].
  apply Bool.eqb_prop in H1, H2, H3, H4. repeat split; assumption.
Qed.

End ConstructionExtras.

Section ConstructionExtrasExamples.

Import BaseMethod Registry Observe.

Lemma constructed_method_invariant_witness :
  exists self m,
    __init__ (H := Sample.constructors)
      (Sample.args "resnet18" "sgd" "none" false None) = Py.Ok self
    /\ backbone self = Some m
    /\ NN.fc m = Some NN.Identity
    /\ NN.maxpool m = Some NN.Identity
    /\ classifier self = NN.Linear 512 10.
Proof.
  destruct (@init_ok Sample.constructors
              (Sample.args "resnet18" "sgd" "none" false None) resnet18
              (Some {| NN.arch := "resnet18"; NN.inplanes := Some 512%Z;
                       NN.num_features := None; NN.fc := Some NN.Identity;
                       NN.conv1 := Some (NN.Conv2d 3 64 3 1 2 false);
                       NN.maxpool := Some NN.Identity |}, 512%Z))
    as (self & Hself & _); [vm_compute; reflexivity | vm_compute; reflexivity |].
  destruct (@constructed_method_invariant Sample.constructors _ self Hself)
    as (m & Hb & _ & _ & Hcls & _ & _ & Hres & _).
  destruct Hres as (Hfc & _ & Hin & Hcifar); [vm_compute; reflexivity |].
  destruct Hcifar as [_ Hmax]; [vm_compute; reflexivity |].
  exists self, m. split; [exact Hself |]. split; [exact Hb |].
  split; [exact Hfc |]. split; [exact Hmax |].
  rewrite Hcls.
  assert (Hdim : features_dim self = 512%Z).
  { specialize (Hin ltac:(vm_compute; reflexivity)).
    vm_compute in Hself. injection Hself as <-. reflexivity. }
  rewrite Hdim. reflexivity.
Defined.

Lemma falsy_cifar_is_absent_witness :
  build (H := Sample.constructors) "resnet18" resnet18 2048
    (<[ "cifar" := Py.VBool false ]> ∅)
  = build (H := Sample.constructors) "resnet18" resnet18 2048 (delete "cifar" ∅).
Proof.
  apply (@falsy_cifar_is_absent Sample.constructors). reflexivity.
Defined.

Lemma registry_dispatch_is_consistent_witness :
  Py.contains "resnet" "swin_large" = false
  /\ (Py.contains "resnet" "swin_large" && Py.contains "large" "swin_large") = false
  /\ Py.contains "swin" "swin_large" = true.
Proof.
  destruct (registry_dispatch_is_consistent "swin_large" swin_large)
    as (_ & Hres & Hlarge & Hswin); [vm_compute; reflexivity |].
  split; [exact Hres |]. split; [exact Hlarge | exact Hswin].
Defined.

End ConstructionExtrasExamples.

(** ** Static rates and scheduler arguments *)

Section StaticLrExtras.

Import BaseMethod Observe.

(** In-range writes succeed, keep the length and leave every index that is
    not written as it was. *)
Lemma overwrite_in_range (pairs : list (nat * Qc)) (rates : list Qc) :
  (forall p, In p pairs -> (fst p < length rates)%nat) ->
  exists out,
    overwrite pairs rates = Py.Ok out
    /\ length out = length rates
    /\ (forall j, ~ In j (map fst pairs) -> out !! j = rates !! j).
Proof.
  revert rates. induction pairs as [|[i v] pairs IH]; intros rates Hin.
  - exists rates. split; [reflexivity |]. split; [reflexivity |]. reflexivity.
  - cbn [overwrite].
    assert (Hi : (i < length rates)%nat) by (apply (Hin (i, v)); left; reflexivity).
    apply Nat.ltb_lt in Hi as Hib. rewrite Hib.
    destruct (IH (<[i := v]> rates)) as (out & Hout & Hlen & Hkeep).
    { intros p Hp. rewrite length_insert. apply Hin. right. exact Hp. }
    exists out. split; [exact Hout |].
    split; [rewrite Hlen; apply length_insert |].
    intros j Hj. cbn [map fst] in Hj.
    rewrite Hkeep by (intros Hc; apply Hj; right; exact Hc).
    apply list_lookup_insert_ne. intros ->. apply Hj. left. reflexivity.
Qed.

(** One write beyond the end makes the whole call an [IndexError]. *)
Lemma overwrite_beyond_end (pairs : list (nat * Qc)) (rates : list Qc) :
  (exists p, In p pairs /\ (length rates <= fst p)%nat) ->
  overwrite pairs rates = Py.Raise Py.IndexError.
Proof.
  revert rates. induction pairs as [|[i v] pairs IH]; intros rates (p & Hp & Hbad).
  - destruct Hp.
  - cbn [overwrite]. destruct (Nat.ltb_spec i (length rates)) as [Hi | Hi];
      [| reflexivity].
    apply IH. destruct Hp as [<- | Hp].
    + cbn [fst] in Hbad. lia.
    + exists p. split; [exact Hp |]. rewrite length_insert. exact Hbad.
Qed.

(** X9.  [static_lr] at its edges.  An exception of the wrapped [get_lr]
    comes through unchanged.  If every paired index is within the rates the
    scheduler returned, the call returns as many rates, and every index
    that is not paired keeps the scheduler's rate; an index without a
    partner in [lrs_to_replace] is not paired, whatever its value.  If one
    paired index is beyond the end, the call raises [IndexError]. *)
Theorem static_lr_edges (get_lr : Optim.GetLr) (idxs : list nat) (lrs : list Qc)
  (clock : Optim.Clock) :
  (forall e, get_lr clock = Py.Raise e ->
             static_lr get_lr idxs lrs clock = Py.Raise e)
  /\ (forall rates,
        get_lr clock = Py.Ok rates ->
        (forall p, In p (zip idxs lrs) -> (fst p < length rates)%nat) ->
        exists out,
          static_lr get_lr idxs lrs clock = Py.Ok out
          /\ length out = length rates
          /\ (forall j, ~ In j (take (length lrs) idxs) -> out !! j = rates !! j))
  /\ (forall rates,
        get_lr clock = Py.Ok rates ->
        (exists p, In p (zip idxs lrs) /\ (length rates <= fst p)%nat) ->
        static_lr get_lr idxs lrs clock = Py.Raise Py.IndexError).
Proof.
  assert (Hfst : map fst (zip idxs lrs) = take (length lrs) idxs).
  { revert lrs. induction idxs as [|i idxs IH]; intros [|v lrs]; cbn;
      try reflexivity.
    f_equal. apply IH. }
  split.
  { intros e He. unfold static_lr. rewrite He. reflexivity. }
  split.
  - intros rates Hget Hin. unfold static_lr. rewrite Hget. cbn [Py.bind].
    destruct (overwrite_in_range (zip idxs lrs) rates Hin) as (out & Hout & Hlen & Hkeep).
    exists out. split; [exact Hout |]. split; [exact Hlen |].
    intros j Hj. apply Hkeep. rewrite Hfst. exact Hj.
  - intros rates Hget Hbad. unfold static_lr. rewrite Hget. cbn [Py.bind].
    apply overwrite_beyond_end. exact Hbad.
Qed.

Context `{Optim.Schedules}.

(** Without a static group the scheduler is returned as it was built. *)
Lemma configure_unpinned (params : list Optim.Group) (self : Hparams) :
  idxs_no_scheduler params = [] ->
  known_optimizer (optimizer self) ->
  (lars self = true -> optimizer self = "sgd") ->
  known_scheduler (scheduler self) ->
  exists cls sch,
    select_optimizer (optimizer self) = Py.Ok cls
    /\ select_scheduler self = Py.Ok sch
    /\ configure_optimizers params self =
         Py.Ok (WithScheduler [wrapped cls params self]
                  [Optim.new_scheduler sch (wrapped cls params self)]).
Proof.
  intros Hidx Hopt Hlars Hsch.
  destruct (select_optimizer_known _ Hopt) as [cls Hcls].
  destruct (select_scheduler_known _ Hsch) as [sch Hsel].
  assert (Hnone : String.eqb (scheduler self) "none" = false).
  { apply String.eqb_neq. destruct Hsch as [-> | [-> | ->]]; discriminate. }
  exists cls, sch. split; [exact Hcls |]. split; [exact Hsel |].
  rewrite (configure_ok params self cls Hcls Hlars), Hnone, Hsel. cbn [Py.bind].
  unfold pinned. rewrite Hidx. reflexivity.
Qed.

(** X10.  The parameter groups of the two base classes mark no group
    static: the backbone first, with no rate or weight decay of its own,
    then the classifier with [lr = classifier_lr] and [weight_decay = 0],
    then, exactly when there is a momentum classifier, a third group named
    momentum_classifier with the same [lr = classifier_lr] and
    [weight_decay = 0]; none of the three has a [static_lr] key.
    Configured over them, whatever the valid optimizer and scheduler, the
    scheduler's [get_lr] is the scheduler class's own: [static_lr] is
    never put in. *)
Theorem base_groups_are_never_static :
  (forall self : Hparams, idxs_no_scheduler (learnable_params self) = [])
  /\ (forall self : BaseMomentumMethod.t,
        idxs_no_scheduler (BaseMomentumMethod.learnable_params self) = []
        /\ length (BaseMomentumMethod.learnable_params self)
           = (match BaseMomentumMethod.momentum_classifier self with
              | Some _ => 3
              | None => 2
              end)%nat
        /\ take 2 (BaseMomentumMethod.learnable_params self)
           = learnable_params (BaseMomentumMethod.base self))
  /\ (forall (self : Hparams) (g : Optim.Group),
        learnable_params self !! 1%nat = Some g ->
        g !! "lr" = Some (Py.VFloat (classifier_lr self))
        /\ g !! "weight_decay" = Some (Py.VInt 0))
  /\ (forall self : Hparams,
        exists backbone classifier,
          learnable_params self = [backbone; classifier]
          /\ backbone !! "name" = Some (Py.VStr "backbone")
          /\ backbone !! "params" = Some (Py.VParams "backbone")
          /\ backbone !! "lr" = None
          /\ backbone !! "weight_decay" = None
          /\ backbone !! "static_lr" = None
          /\ classifier !! "name" = Some (Py.VStr "classifier")
          /\ classifier !! "params" = Some (Py.VParams "classifier")
          /\ classifier !! "static_lr" = None)
  /\ (forall self : BaseMomentumMethod.t,
        (is_Some (BaseMomentumMethod.learnable_params self !! 2%nat)
         <-> BaseMomentumMethod.momentum_classifier self <> None)
        /\ forall g : Optim.Group,
             BaseMomentumMethod.learnable_params self !! 2%nat = Some g ->
             g !! "name" = Some (Py.VStr "momentum_classifier")
             /\ g !! "params" = Some (Py.VParams "momentum_classifier")
             /\ g !! "lr"
                = Some (Py.VFloat (classifier_lr (BaseMomentumMethod.base self)))
             /\ g !! "weight_decay" = Some (Py.VInt 0)
             /\ g !! "static_lr" = None)
  /\ (forall (params : list Optim.Group) (self : Hparams),
        idxs_no_scheduler params = [] ->
        known_optimizer (optimizer self) ->
        (lars self = true -> optimizer self = "sgd") ->
        known_scheduler (scheduler self) ->
        exists opt sched,
          configure_optimizers params self = Py.Ok (WithScheduler [opt] [sched])
          /\ Optim.get_lr sched = Optim.class_get_lr (Optim.schedule sched) opt).
Proof.
  split; [intros self; vm_compute; reflexivity |].
  split.
  { intros self. unfold BaseMomentumMethod.learnable_params.
    destruct (BaseMomentumMethod.momentum_classifier self);
      (split; [vm_compute; reflexivity |]); split; reflexivity. }
  split.
  { intros self g Hg. cbn in Hg. injection Hg as <-.
    split; vm_compute; reflexivity. }
  split.
  { intros self. eexists _, _. split; [reflexivity |].
    repeat split; vm_compute; reflexivity. }
  split.
  { intros self. unfold BaseMomentumMethod.learnable_params.
    destruct (BaseMomentumMethod.momentum_classifier self) as [layer|].
    - split; [split; [discriminate | intros _; eexists; reflexivity] |].
      intros g Hg. cbn in Hg. injection Hg as <-.
      repeat split; vm_compute; reflexivity.
    - split; [split; [intros [g Hg]; discriminate Hg | intros Hn; contradiction] |].
      intros g Hg. discriminate Hg. }
  intros params self Hidx Hopt Hlars Hsch.
  destruct (configure_unpinned params self Hidx Hopt Hlars Hsch)
    as (cls & sch & _ & _ & Hcfg).
  eexists _, _. split; [exact Hcfg | reflexivity].
Qed.

(** X11.  What the schedulers are built with.  [warmup_cosine] gets
    [warmup_epochs] and [max_epochs] as passed and, as [warmup_start_lr] and
    [eta_min], the attributes [warmup_start_lr] and [min_lr]; [cosine] gets
    [max_epochs] and [min_lr]; [step] gets [lr_decay_steps] as it is, [None]
    included, with no check of its own.  On a method constructed with a
    non-zero accumulation factor [n] the two rates are the passed rates
    times [n], while the epochs are not rescaled. *)
Theorem schedulers_get_the_rescaled_rates (params : list Optim.Group)
  (a : Args.t) (n : Z) :
  Args.accumulate_grad_batches a = Some n ->
  n <> 0%Z ->
  known_optimizer (Args.optimizer a) ->
  (Args.lars a = true -> Args.optimizer a = "sgd") ->
  let self := scale_lr (store a) in
  (Args.scheduler a = "warmup_cosine" ->
   exists opt sched,
     configure_optimizers params self = Py.Ok (WithScheduler [opt] [sched])
     /\ Optim.schedule sched =
          Optim.LinearWarmupCosineAnnealingLR (Args.warmup_epochs a) (Args.max_epochs a)
            (Args.warmup_start_lr a * of_int n)%Qc (Args.min_lr a * of_int n)%Qc)
  /\ (Args.scheduler a = "cosine" ->
      exists opt sched,
        configure_optimizers params self = Py.Ok (WithScheduler [opt] [sched])
        /\ Optim.schedule sched =
             Optim.CosineAnnealingLR (Args.max_epochs a) (Args.min_lr a * of_int n)%Qc)
  /\ (Args.scheduler a = "step" ->
      exists opt sched,
        configure_optimizers params self = Py.Ok (WithScheduler [opt] [sched])
        /\ Optim.schedule sched = Optim.MultiStepLR (Args.lr_decay_steps a)).
Proof.
  intros Hacc Hn Hopt Hlars self.
  assert (Hself : self = set_lrs (Args.lr a * of_int n) (Args.classifier_lr a * of_int n)
                           (Args.min_lr a * of_int n) (Args.warmup_start_lr a * of_int n)
                           (store a)).
  { subst self. apply (scale_lr_on (store a) n); assumption. }
  assert (Hopt' : known_optimizer (optimizer self)) by (rewrite Hself; exact Hopt).
  assert (Hlars' : lars self = true -> optimizer self = "sgd")
    by (rewrite Hself; exact Hlars).
  destruct (select_optimizer_known _ Hopt') as [cls Hcls].
  pose proof (configure_ok params self cls Hcls Hlars') as Hcfg.
  assert (Hsched : scheduler self = Args.scheduler a) by (rewrite Hself; reflexivity).
  split; [| split]; intros Hname; rewrite Hsched, Hname in Hcfg;
    cbn [String.eqb Ascii.eqb Bool.eqb] in Hcfg;
    unfold select_scheduler in Hcfg; rewrite Hsched, Hname in Hcfg;
    cbn [String.eqb Ascii.eqb Bool.eqb Py.bind] in Hcfg;
    eexists _, _; (split; [exact Hcfg |]);
    unfold pinned; destruct (idxs_no_scheduler params);
    cbn [Optim.schedule Optim.set_get_lr Optim.new_scheduler];
    rewrite Hself; reflexivity.
Qed.

End StaticLrExtras.

Section StaticLrExtrasExamples.

Import BaseMethod Observe.

Lemma static_lr_edges_witness :
  static_lr (fun _ => Py.Ok [Sample.q 1 8; Sample.q 1 8]) [5%nat] [Sample.q 1 2] 0%nat
    = Py.Raise Py.IndexError
  /\ exists out,
       static_lr (fun _ => Py.Ok [Sample.q 1 8; Sample.q 1 8]) [1%nat; 7%nat]
         [Sample.q 1 2] 0%nat = Py.Ok out
       /\ out !! 0%nat = Some (Sample.q 1 8).
Proof.
  split.
  - destruct (static_lr_edges (fun _ => Py.Ok [Sample.q 1 8; Sample.q 1 8])
                [5%nat] [Sample.q 1 2] 0%nat) as (_ & _ & Hbad).
    apply (Hbad [Sample.q 1 8; Sample.q 1 8] eq_refl).
    exists (5%nat, Sample.q 1 2). split; [left; reflexivity | simpl; lia].
  - destruct (static_lr_edges (fun _ => Py.Ok [Sample.q 1 8; Sample.q 1 8])
                [1%nat; 7%nat] [Sample.q 1 2] 0%nat) as (_ & Hok & _).
    destruct (Hok [Sample.q 1 8; Sample.q 1 8] eq_refl) as (out & Hout & _ & Hkeep).
    + intros p [<- | []]. simpl. lia.
    + exists out. split; [exact Hout |].
      rewrite (Hkeep 0%nat); [reflexivity |].
      simpl. intros [Hc | []]. discriminate Hc.
Defined.

Lemma base_groups_are_never_static_witness :
  (exists g,
     BaseMomentumMethod.learnable_params (Sample.momentum_method true) !! 2%nat = Some g
     /\ g !! "lr" = Some (Py.VFloat (Sample.q 3 10))
     /\ g !! "weight_decay" = Some (Py.VInt 0)
     /\ g !! "static_lr" = None)
  /\ exists opt sched,
    configure_optimizers (H := Sample.schedules)
      (learnable_params (store (Sample.args "resnet18" "sgd" "cosine" false None)))
      (store (Sample.args "resnet18" "sgd" "cosine" false None))
    = Py.Ok (WithScheduler [opt] [sched])
    /\ Optim.get_lr sched 0%nat = Py.Ok [Sample.q 1 8; Sample.q 1 8].
Proof.
  destruct (@base_groups_are_never_static Sample.schedules)
    as (Hbase & _ & _ & _ & Hmom & Hcfg).
  split.
  { destruct (Hmom (Sample.momentum_method true)) as [[_ Hex] Hg].
    destruct Hex as [g Hlook]; [discriminate |].
    destruct (Hg g Hlook) as (_ & _ & Hlr & Hwd & Hst).
    exists g. split; [exact Hlook |]. split; [exact Hlr |]. split; [exact Hwd | exact Hst]. }
  destruct (Hcfg (learnable_params (store (Sample.args "resnet18" "sgd" "cosine" false None)))
              (store (Sample.args "resnet18" "sgd" "cosine" false None)))
    as (opt & sched & Hres & Hget).
  - apply Hbase.
  - left; reflexivity.
  - discriminate.
  - right; left; reflexivity.
  - exists opt, sched. split; [exact Hres |].
    rewrite Hget. vm_compute in Hres. injection Hres as <- <-. reflexivity.
Defined.

Lemma schedulers_get_the_rescaled_rates_witness :
  exists opt sched,
    configure_optimizers (H := Sample.schedules) []
      (scale_lr (store (Sample.args "resnet18" "sgd" "cosine" false (Some 4%Z))))
    = Py.Ok (WithScheduler [opt] [sched])
    /\ Optim.schedule sched
       = Optim.CosineAnnealingLR 100 (Sample.q 1 1000 * of_int 4)%Qc.
Proof.
  destruct (@schedulers_get_the_rescaled_rates Sample.schedules []
              (Sample.args "resnet18" "sgd" "cosine" false (Some 4%Z)) 4%Z)
    as (_ & Hcos & _).
  - reflexivity.
  - discriminate.
  - left; reflexivity.
  - discriminate.
  - apply Hcos. reflexivity.
Defined.

End StaticLrExtrasExamples.

(** ** Parameter initialisation *)

Section InitExtras.

Import Init Reach.

(** Induction on a module with its children. *)
Lemma tree_ind' (P : Tree -> Prop) :
  (forall kind children, Forall P children -> P (Node kind children)) ->
  forall m, P m.
Proof.
  intros Hnode. fix IH 1. intros [kind children]. apply Hnode.
  induction children as [|c children IHc]; constructor; [apply IH | exact IHc].
Qed.

Lemma weights_init_unfold (kind : Kind) (children : list Tree) :
  weights_init (Node kind children)
  = (here (fst (init_std_modules kind)) ++ each 0 children)%list.
Proof.
  reflexivity.
Qed.

Lemma In_here (p : Path) (a : Action) (actions : list Action) :
  In (p, a) (here actions) <-> p = [] /\ In a actions.
Proof.
  unfold here. rewrite in_map_iff. split.
  - intros (a' & Heq & Ha). injection Heq as <- <-. split; [reflexivity | exact Ha].
  - intros [-> Ha]. exists a. split; [reflexivity | exact Ha].
Qed.

Lemma In_each (p : Path) (a : Action) (ms : list Tree) (i : nat) :
  In (p, a) (each i ms)
  <-> exists j c q, p = (i + j)%nat :: q /\ ms !! j = Some c /\ In (q, a) (child c).
Proof.
  revert i. induction ms as [|m ms IH]; intros i; cbn [each].
  - split; [intros [] | intros (j & c & q & _ & Hc & _); discriminate Hc].
  - rewrite in_app_iff, in_map_iff, IH. split.
    + intros [([q a'] & Heq & Hq) | (j & c & q & -> & Hc & Hq)].
      * unfold under in Heq. cbn [fst snd] in Heq. injection Heq as <- <-.
        exists 0%nat, m, q. rewrite Nat.add_0_r. repeat split. exact Hq.
      * exists (S j), c, q. split; [f_equal; lia |]. split; [exact Hc | exact Hq].
    + intros (j & c & q & -> & Hc & Hq). destruct j as [|j].
      * left. cbn in Hc. injection Hc as ->. exists (q, a).
        unfold under. cbn [fst snd]. rewrite Nat.add_0_r. split; [reflexivity | exact Hq].
      * right. exists j, c, q. split; [f_equal; lia |]. split; [exact Hc | exact Hq].
Qed.

(** What [weights_init] does to the modules below the one it is called on. *)
Lemma In_each_at (i : nat) (q : Path) (a : Action) (ms : list Tree) :
  In (i :: q, a) (each 0 ms) <-> exists c, ms !! i = Some c /\ In (q, a) (child c).
Proof.
  rewrite In_each. split.
  - intros (j & c & q' & Heq & Hc & Hq). injection Heq as -> ->.
    exists c. split; [exact Hc | exact Hq].
  - intros (c & Hc & Hq). exists i, c, q. repeat split; assumption.
Qed.

Lemma weights_init_spec (m : Tree) (p : Path) (a : Action) :
  In (p, a) (weights_init m) <-> exists n, reached m p = Some n /\ In a (due p n).
Proof.
  revert p a. induction m as [kind children IH] using tree_ind'. intros p a.
  rewrite weights_init_unfold, in_app_iff, In_here.
  destruct p as [|i q].
  - cbn [reached due kind_of]. split.
    + intros [[_ Ha] | Hc].
      * eexists. split; [reflexivity | exact Ha].
      * apply In_each in Hc. destruct Hc as (j & c & q & Heq & _). discriminate Heq.
    + intros (n & Hn & Ha). injection Hn as <-. left. split; [reflexivity | exact Ha].
  - rewrite In_each_at. cbn [reached children_of]. split.
    + intros [[Heq _] | (c & Hc & Hq)]; [discriminate Heq |].
      rewrite Hc. pose proof (Forall_lookup_1 _ _ _ _ IH Hc) as IHc.
      unfold child in Hq. unfold due, plain.
      destruct c as [[b|b|b|[|]] cs]; cbn [kind_of init_std_modules has_reset fst snd] in *.
      * apply In_here in Hq as [-> Ha]. eexists. split; [reflexivity | exact Ha].
      * apply In_here in Hq as [-> Ha]. eexists. split; [reflexivity | exact Ha].
      * apply In_here in Hq as [-> Ha]. eexists. split; [reflexivity | exact Ha].
      * destruct Hq as [Heq | []]. injection Heq as <- <-.
        eexists. split; [reflexivity | left; reflexivity].
      * apply IHc in Hq. destruct Hq as (n & Hn & Ha).
        destruct q as [|j q].
        -- cbn in Hn. injection Hn as <-. cbn in Ha. destruct Ha.
        -- exists n. split; [exact Hn | exact Ha].
    + intros (n & Hn & Ha). right.
      destruct (children !! i) as [c|] eqn:Hc; [| discriminate Hn].
      exists c. split; [reflexivity |].
      pose proof (Forall_lookup_1 _ _ _ _ IH Hc) as IHc.
      unfold child. unfold due, plain in *.
      destruct c as [[b|b|b|[|]] cs]; cbn [kind_of init_std_modules has_reset fst snd] in *.
      * destruct q; [| discriminate Hn]. injection Hn as <-. apply In_here.
        split; [reflexivity | exact Ha].
      * destruct q; [| discriminate Hn]. injection Hn as <-. apply In_here.
        split; [reflexivity | exact Ha].
      * destruct q; [| discriminate Hn]. injection Hn as <-. apply In_here.
        split; [reflexivity | exact Ha].
      * destruct q; [| discriminate Hn]. injection Hn as <-.
        destruct Ha as [<- | []]. left. reflexivity.
      * destruct q as [|j q].
        -- injection Hn as <-. destruct Ha.
        -- apply IHc. exists n. split; [exact Hn | exact Ha].
Qed.

Lemma reached_subtree (m : Tree) (p : Path) (n : Tree) :
  reached m p = Some n -> subtree m p = Some n.
Proof.
  revert m. induction p as [|i q IH]; intros m; [intros Hn; exact Hn |].
  cbn [reached subtree]. destruct (children_of m !! i) as [c|]; [| discriminate].
  destruct q as [|j q]; [intros Hn; exact Hn |].
  destruct (plain c); [apply IH | discriminate].
Qed.

(** X12.  [weights_init] acts on exactly these modules: the module it is
    called on, which gets the standard initialisation when it is a
    convolution, a linear layer or an affine normalisation layer, and never a
    call of its own [reset_parameters]; and every module below it that is
    reached through modules which are neither standard layers nor have a
    [reset_parameters] method, which gets the standard initialisation when
    it is a standard layer and a call of its [reset_parameters] when it has
    one.  Nothing is done below a child that is a standard layer or has
    [reset_parameters], and every action names a module that exists. *)
Theorem weights_init_reaches (m : Tree) :
  (forall p a,
     In (p, a) (weights_init m) <-> exists n, reached m p = Some n /\ In a (due p n))
  /\ ~ In ([], ResetParameters) (weights_init m)
  /\ (forall i c q a,
        children_of m !! i = Some c -> plain c = false -> q <> [] ->
        ~ In (i :: q, a) (weights_init m))
  /\ (forall p a, In (p, a) (weights_init m) -> exists n, subtree m p = Some n).
Proof.
  split; [apply weights_init_spec |].
  split.
  { intros Hin. apply weights_init_spec in Hin. destruct Hin as (n & Hn & Ha).
    cbn in Hn. injection Hn as <-. cbn [due] in Ha.
    destruct m as [[[|]|[|]|[|]|b] cs]; cbn in Ha;
      repeat (destruct Ha as [Ha | Ha]; [discriminate Ha |]); exact Ha. }
  split.
  { intros i c q a Hc Hplain Hq Hin. apply weights_init_spec in Hin.
    destruct Hin as (n & Hn & _). cbn [reached] in Hn. rewrite Hc in Hn.
    destruct q as [|j q]; [contradiction |]. rewrite Hplain in Hn. discriminate Hn. }
  intros p a Hin. apply weights_init_spec in Hin. destruct Hin as (n & Hn & _).
  exists n. apply reached_subtree. exact Hn.
Qed.

(** X13.  [BottleneckExpand]: construction takes the remainder by
    [in_channels] first, so with [in_channels = 0] it raises
    [ZeroDivisionError] before any layer is built.  With positive channel
    counts its initialisation gives each convolution the variance scaling
    and each batch normalisation weight 1 and bias 0, touches no convolution
    bias, does nothing to the activation, and ends by overwriting
    [conv1.weight] with the normal initialisation whose variance is
    [1 / hidden_channels].  On an input with [in_channels] channels
    [forward] returns [out_channels] channels; the tiled identity is added
    exactly when [in_channels] divides [out_channels], and then it has
    [out_channels] channels too.  Any other channel count is refused by the
    first convolution. *)
Theorem bottleneck_expand_channels (in_ch hidden out : Z) :
  (in_ch = 0%Z ->
   Bottleneck.__init__ in_ch hidden out = Some (Py.Raise Py.ZeroDivisionError))
  /\ ((0 < in_ch)%Z -> (0 < hidden)%Z -> (0 < out)%Z ->
      exists self,
        Bottleneck.__init__ in_ch hidden out
        = Some (Py.Ok (self,
                 [([0%nat], VarianceScaling);
                  ([1%nat], OnesWeight); ([1%nat], ZerosBias);
                  ([2%nat], VarianceScaling);
                  ([3%nat], OnesWeight); ([3%nat], ZerosBias);
                  ([4%nat], VarianceScaling);
                  ([5%nat], OnesWeight); ([5%nat], ZerosBias);
                  ([0%nat], NormalWeight hidden)]))
        /\ (Bottleneck.is_residual self = true
            <-> (Bottleneck.expansion self * in_ch = out)%Z)
        /\ (Bottleneck.is_residual self = true <-> (in_ch | out)%Z)
        /\ Bottleneck.forward self in_ch = Py.Ok out
        /\ (forall x, x <> in_ch ->
              Bottleneck.forward self x = Py.Raise Py.RuntimeError)).
Proof.
  split.
  { intros ->. reflexivity. }
  intros Hin Hhidden Hout. unfold Bottleneck.__init__.
  assert (Hne : in_ch <> 0%Z) by lia.
  destruct (Z.eqb_spec in_ch 0) as [Hz | _]; [contradiction |].
  apply Z.ltb_lt in Hin as Hinb, Hhidden as Hhb, Hout as Houtb.
  rewrite Hinb, Hhb, Houtb. cbn [andb].
  eexists. split; [reflexivity |].
  cbn [Bottleneck.is_residual Bottleneck.expansion].
  assert (Hmod : (out mod in_ch =? 0)%Z = true <-> (out / in_ch * in_ch = out)%Z).
  { rewrite Z.eqb_eq. pose proof (Z.div_mod out in_ch Hne). split; lia. }
  split; [exact Hmod |].
  split.
  { rewrite Z.eqb_eq. rewrite <- Z.mod_divide by exact Hne. reflexivity. }
  split.
  - unfold Bottleneck.forward, Bottleneck.conv, Bottleneck.bn, Bottleneck.add_.
    cbn [Bottleneck.in_channels Bottleneck.hidden_channels Bottleneck.out_channels
         Bottleneck.is_residual Bottleneck.expansion].
    repeat (rewrite Z.eqb_refl; cbn [Py.bind]).
    destruct (out mod in_ch =? 0)%Z eqn:Hres; [| reflexivity].
    destruct Hmod as [Hm _]. rewrite (Hm eq_refl), Z.eqb_refl. reflexivity.
  - intros x Hx. unfold Bottleneck.forward, Bottleneck.conv.
    cbn [Bottleneck.in_channels].
    destruct (Z.eqb_spec x in_ch) as [Heq | _]; [contradiction | reflexivity].
Qed.

Lemma weights_init_reaches_witness :
  ~ In ([], ResetParameters) (weights_init Bottleneck.modules)
  /\ In ([4%nat], VarianceScaling) (weights_init Bottleneck.modules).
Proof.
  destruct (weights_init_reaches Bottleneck.modules) as (Hspec & Hroot & _).
  split; [exact Hroot |].
  apply Hspec. eexists. split; [reflexivity |]. left. reflexivity.
Defined.

Lemma bottleneck_expand_channels_witness :
  exists self actions,
    Bottleneck.__init__ 2048 512 8192 = Some (Py.Ok (self, actions))
    /\ Bottleneck.is_residual self = true
    /\ Bottleneck.forward self 2048 = Py.Ok 8192%Z.
Proof.
  destruct (bottleneck_expand_channels 2048 512 8192) as [_ Hok].
  destruct Hok as (self & Hinit & _ & Hdiv & Hfwd & _); [lia | lia | lia |].
  eexists self, _. split; [exact Hinit |]. split; [| exact Hfwd].
  apply Hdiv. exists 4%Z. reflexivity.
Defined.

End InitExtras.

(** ** [variance_scaling_] at its edges *)

Section VarianceScalingExtras.

Import Init.

Lemma of_Z_zero (n : Z) : Q2Qc (inject_Z n) = 0%Qc <-> n = 0%Z.
Proof.
  change 0%Qc with (Q2Qc (inject_Z 0)).
  rewrite Q2Qc_eq_iff. apply inject_Z_injective.
Qed.

Lemma of_Z_pos (n : Z) : (0 < n)%Z -> (0 < Q2Qc (inject_Z n))%Qc.
Proof.
  intros Hn. unfold Qclt. cbn [this Q2Qc].
  apply Qlt_le_trans with (inject_Z n).
  - change (Qred 0) with (inject_Z 0). rewrite <- Zlt_Qlt. exact Hn.
  - setoid_rewrite Qred_correct. apply Qle_refl.
Qed.

Lemma denom_of_unknown (mode : string) (fan_in fan_out : Z) :
  ~ known_mode mode -> denom_of mode fan_in fan_out = None.
Proof.
  intros Hn. unfold denom_of.
  destruct (String.eqb_spec mode "fan_in") as [He | _];
    [exfalso; apply Hn; left; exact He |].
  destruct (String.eqb_spec mode "fan_out") as [He | _];
    [exfalso; apply Hn; right; left; exact He |].
  destruct (String.eqb_spec mode "fan_avg") as [He | _];
    [exfalso; apply Hn; right; right; exact He |].
  reflexivity.
Qed.

(** X14.  [variance_scaling_] does not validate [mode]: with a mode other
    than fan_in, fan_out, fan_avg the name [denom] is unbound and the call
    ends in [UnboundLocalError], whatever the distribution, before the
    tensor is touched.  With mode fan_in and a fan-in of 0 it ends in
    [ZeroDivisionError].  With mode fan_in, a non-zero fan-in and a
    distribution other than truncated_normal, normal and uniform it ends in
    [ValueError], after the division.  As [init_std_modules] calls
    it (scale 1, mode fan_in, truncated normal) on a tensor with positive
    fan-in it fills the tensor from the truncated normal whose standard
    deviation is the root of [1 / fan_in] divided by the constant
    .87962566103423978. *)
Theorem variance_scaling_edges (sqrt : Qc -> Qc) (fan_in fan_out : Z) (scale : Qc) :
  (forall mode distribution,
     ~ known_mode mode ->
     variance_scaling_ sqrt fan_in fan_out scale mode distribution
     = Failed (UnboundLocalError "denom"))
  /\ (forall distribution,
        fan_in = 0%Z ->
        variance_scaling_ sqrt fan_in fan_out scale "fan_in" distribution
        = Failed ZeroDivisionError)
  /\ (forall distribution,
        fan_in <> 0%Z ->
        distribution <> "truncated_normal" ->
        distribution <> "normal" ->
        distribution <> "uniform" ->
        variance_scaling_ sqrt fan_in fan_out scale "fan_in" distribution
        = Failed (ValueError ("invalid distribution " ++ distribution)))
  /\ ((0 < fan_in)%Z ->
      variance_scaling_ sqrt fan_in fan_out 1 "fan_in" "truncated_normal"
      = Filled (TruncNormal (sqrt (1 / Q2Qc (inject_Z fan_in)) / truncated_std)%Qc)).
Proof.
  split.
  { intros mode distribution Hn. unfold variance_scaling_.
    rewrite (denom_of_unknown mode fan_in fan_out Hn). reflexivity. }
  split.
  { intros distribution ->. unfold variance_scaling_, denom_of.
    cbn [String.eqb Ascii.eqb Bool.eqb]. rewrite bool_decide_eq_true_2; reflexivity. }
  split.
  { intros distribution Hfan Ht Hnm Hu. unfold variance_scaling_, denom_of.
    cbn [String.eqb Ascii.eqb Bool.eqb].
    rewrite bool_decide_eq_false_2 by (rewrite of_Z_zero; exact Hfan).
    apply String.eqb_neq in Ht, Hnm, Hu. rewrite Ht, Hnm, Hu. reflexivity. }
  intros Hpos. unfold variance_scaling_, denom_of.
  cbn [String.eqb Ascii.eqb Bool.eqb].
  rewrite bool_decide_eq_false_2 by (rewrite of_Z_zero; lia).
  unfold math_sqrt. rewrite bool_decide_eq_false_2; [reflexivity |].
  apply Qcle_not_lt, Qclt_le_weak.
  unfold Qcdiv. rewrite Qcmult_1_l. apply Qcinv_pos, of_Z_pos, Hpos.
Qed.

Lemma variance_scaling_edges_witness :
  variance_scaling_ (fun x => x) 0 0 1 "fan_in" "truncated_normal"
    = Failed ZeroDivisionError
  /\ variance_scaling_ (fun x => x) 4 4 1 "fan_sum" "normal"
     = Failed (UnboundLocalError "denom")
  /\ variance_scaling_ (fun x => x) 4 4 1 "fan_in" "gaussian"
     = Failed (ValueError "invalid distribution gaussian").
Proof.
  destruct (variance_scaling_edges (fun x => x) 0 0 1) as (_ & Hzero & _).
  destruct (variance_scaling_edges (fun x => x) 4 4 1) as (Hmode & _ & Hdist & _).
  split; [apply Hzero; reflexivity |].
  split.
  - apply Hmode. intros [Hk | [Hk | Hk]]; discriminate Hk.
  - apply (Hdist "gaussian"); discriminate.
Defined.

End VarianceScalingExtras.

(** ** The command line against the configuration *)

Section CliExtras.

Import BaseMethod Observe.

Context `{Optim.Schedules}.

Lemma scheduler_choice_cases (name : string) :
  In name Cli.SUPPORTED_SCHEDULERS ->
  (name = "reduce" \/ name = "exponential")
  \/ name = "none"
  \/ known_scheduler name.
Proof.
  unfold Cli.SUPPORTED_SCHEDULERS, known_scheduler. cbn [In].
  intros [<- | [<- | [<- | [<- | [<- | [<- | []]]]]]]; auto 10.
Qed.

(** X15.  The command line and [configure_optimizers] disagree on
    schedulers.  The parser offers reduce, cosine, warmup_cosine, step,
    exponential and none, with reduce as the default.  With an optimizer
    name the parser accepts (and LARS only over sgd), and the constructors
    of the optimizer and scheduler libraries returning as they are modelled,
    [configure_optimizers] ends in the [ValueError] of an unknown scheduler
    for exactly two of these choices, reduce and exponential, and returns
    for the other four; so a run that does not pass a scheduler on the
    command line fails at optimizer configuration.  The optimizers the
    parser offers are exactly those [configure_optimizers] knows, and the
    backbones it offers are exactly the registered names. *)
Theorem cli_choices_against_configuration :
  (exists a,
     Cli.argument "--scheduler" Cli.add_model_specific_args = Some a
     /\ Cli.choices a = Some Cli.SUPPORTED_SCHEDULERS
     /\ Cli.default a = Py.VStr "reduce"
     /\ Cli.accepts a "reduce" = true)
  /\ (forall (params : list Optim.Group) (self : Hparams),
        known_optimizer (optimizer self) ->
        (lars self = true -> optimizer self = "sgd") ->
        In (scheduler self) Cli.SUPPORTED_SCHEDULERS ->
        (configure_optimizers params self
         = Py.Raise (Py.ValueError
                       (scheduler self ++ " not in (warmup_cosine, cosine, step)"))
         <-> scheduler self = "reduce" \/ scheduler self = "exponential")
        /\ (Py.raises (configure_optimizers params self)
            <-> scheduler self = "reduce" \/ scheduler self = "exponential"))
  /\ (forall (params : list Optim.Group) (self : Hparams),
        known_optimizer (optimizer self) ->
        (lars self = true -> optimizer self = "sgd") ->
        scheduler self = "reduce" ->
        configure_optimizers params self
        = Py.Raise (Py.ValueError "reduce not in (warmup_cosine, cosine, step)"))
  /\ (exists a,
        Cli.argument "--optimizer" Cli.add_model_specific_args = Some a
        /\ Cli.required a = true
        /\ Cli.choices a = Some Cli.SUPPORTED_OPTIMIZERS)
  /\ (forall name, In name Cli.SUPPORTED_OPTIMIZERS <-> known_optimizer name)
  /\ (exists a,
        Cli.argument "--backbone" Cli.add_model_specific_args = Some a
        /\ Cli.choices a = Some Cli.SUPPORTED_BACKBONES)
  /\ (forall name,
        In name Cli.SUPPORTED_BACKBONES
        <-> is_Some (Registry._SUPPORTED_BACKBONES !! name)).
Proof.
  split.
  { eexists. split; [vm_compute; reflexivity |]. repeat split. }
  assert (Hbad : forall (params : list Optim.Group) (self : Hparams),
            known_optimizer (optimizer self) ->
            (lars self = true -> optimizer self = "sgd") ->
            scheduler self = "reduce" \/ scheduler self = "exponential" ->
            configure_optimizers params self
            = Py.Raise (Py.ValueError
                          (scheduler self ++ " not in (warmup_cosine, cosine, step)"))).
  { intros params self Hopt Hlars Hs.
    destruct (select_optimizer_known _ Hopt) as [cls Hcls].
    rewrite (configure_ok params self cls Hcls Hlars).
    assert (Hnone : String.eqb (scheduler self) "none" = false)
      by (apply String.eqb_neq; destruct Hs as [-> | ->]; discriminate).
    rewrite Hnone, select_scheduler_unknown; [reflexivity |].
    intros [Hk | [Hk | Hk]]; destruct Hs as [Hs | Hs]; rewrite Hs in Hk;
      discriminate Hk. }
  split.
  { intros params self Hopt Hlars Hin.
    assert (Hraises : Py.raises (configure_optimizers params self) ->
                      scheduler self = "reduce" \/ scheduler self = "exponential");
      [| split; [split; [intros He; apply Hraises; eexists; exact He
                        | apply (Hbad params self Hopt Hlars)]
                | split; [exact Hraises
                         | intros Hs; eexists; apply (Hbad params self Hopt Hlars Hs)]]].
    - intros [e He].
      destruct (scheduler_choice_cases _ Hin) as [Hs | [Hs | Hs]]; [exact Hs | |].
      + destruct (select_optimizer_known _ Hopt) as [cls Hcls].
        rewrite (configure_ok params self cls Hcls Hlars), Hs in He. discriminate He.
      + destruct (select_optimizer_known _ Hopt) as [cls Hcls].
        destruct (select_scheduler_known _ Hs) as [sch Hsel].
        rewrite (configure_ok params self cls Hcls Hlars), Hsel in He.
        destruct (String.eqb (scheduler self) "none"); discriminate He. }
  split.
  { intros params self Hopt Hlars Hs.
    rewrite (Hbad params self Hopt Hlars (or_introl Hs)), Hs. reflexivity. }
  split.
  { eexists. split; [vm_compute; reflexivity |]. split; reflexivity. }
  split.
  { intros name. unfold Cli.SUPPORTED_OPTIMIZERS, known_optimizer. cbn [In].
    split.
    - intros [<- | [<- | [<- | []]]]; auto.
    - intros [-> | [-> | ->]]; auto. }
  split.
  { eexists. split; [vm_compute; reflexivity |]. reflexivity. }
  intros name. split.
  - unfold Cli.SUPPORTED_BACKBONES. cbn [In].
    intros Hin.
    repeat (destruct Hin as [<- | Hin]; [eexists; vm_compute; reflexivity |]).
    destruct Hin.
  - intros [f Hf]. unfold Registry._SUPPORTED_BACKBONES in Hf.
    apply elem_of_list_to_map_2 in Hf. apply list_elem_of_In in Hf.
    unfold Cli.SUPPORTED_BACKBONES. cbn [In] in Hf |- *.
    repeat (destruct Hf as [Heq | Hf];
            [injection Heq as <- _; repeat (first [left; reflexivity | right]) |]).
    destruct Hf.
Qed.

End CliExtras.

Section CliExtrasExamples.

Import BaseMethod Observe.

Lemma cli_choices_against_configuration_witness :
  let self := store (Sample.args "resnet18" "sgd" "reduce" false None) in
  configure_optimizers (H := Sample.schedules) (learnable_params self) self
  = Py.Raise (Py.ValueError "reduce not in (warmup_cosine, cosine, step)").
Proof.
  intros self.
  destruct (@cli_choices_against_configuration Sample.schedules)
    as (_ & _ & Hdefault & _).
  apply Hdefault; [left; reflexivity | discriminate | reflexivity].
Defined.

End CliExtrasExamples.

(** ** Validation steps *)

Section ValidationExtras.

Import Torch Observe.

Context `{Net}.

Lemma validation_step_ok (self : BaseMethod.Hparams) (sanity_checking : bool)
  (X : Tensor) (targets : Targets) :
  (1 <= size1 (online_logits X))%nat ->
  BaseMethod.validation_step self sanity_checking X targets
  = Py.Ok (validation_output (batch_of X targets),
           if BaseMethod.knn_eval self && negb sanity_checking
           then [BaseMethod.KnnTest (detach (forward Backbone X)) targets]
           else []).
Proof.
  intros Hc. unfold BaseMethod.validation_step.
  rewrite (base_shared_step_ok X targets Hc). reflexivity.
Qed.

(** X16.  Validation on a batch whose online logits have at least one
    class.  The step of the base class returns the batch size
    [targets.size(0)] with the loss and the two accuracies of the online
    classifier, and feeds the k-NN classifier, with the detached features
    of the online backbone, exactly when [knn_eval] is set and the trainer
    is not sanity checking.  The step of a momentum method returns that
    same dictionary first and makes exactly the same k-NN call: the momentum
    features never reach the k-NN classifier.  Its second component is
    [None] when there is no momentum classifier; with a momentum classifier
    of at least five classes it is a dictionary with the same batch size
    and the momentum classifier's loss, top-1 and top-5 accuracy, under keys
    that do not clash with the parent's. *)
Theorem momentum_validation_step_pairs (self : BaseMomentumMethod.t)
  (sanity_checking : bool) (X : Tensor) (targets : Targets) :
  (1 <= size1 (online_logits X))%nat ->
  let parent := validation_output (batch_of X targets) in
  let knn_calls :=
    if BaseMethod.knn_eval (BaseMomentumMethod.base self) && negb sanity_checking
    then [BaseMethod.KnnTest (detach (forward Backbone X)) targets]
    else [] in
  BaseMethod.validation_step (BaseMomentumMethod.base self) sanity_checking X targets
  = Py.Ok (parent, knn_calls)
  /\ parent !! "batch_size" = Some (BaseMethod.of_int (size0 targets))
  /\ parent !! "feats" = None
  /\ (BaseMomentumMethod.momentum_classifier self = None ->
      MomentumValidation.validation_step self sanity_checking X targets
      = Py.Ok ((parent, None), knn_calls))
  /\ (BaseMomentumMethod.momentum_classifier self <> None ->
      (5 <= size1 (momentum_logits X))%nat ->
      exists m,
        MomentumValidation.validation_step self sanity_checking X targets
        = Py.Ok ((parent, Some m), knn_calls)
        /\ m !! "batch_size" = parent !! "batch_size"
        /\ m !! "momentum_val_loss" = Some (cross_entropy (momentum_logits X) targets)
        /\ m !! "momentum_val_acc1" = Some (correct_at 1 (momentum_logits X) targets)
        /\ m !! "momentum_val_acc5" = Some (correct_at 5 (momentum_logits X) targets)
        /\ m !! "val_loss" = None /\ m !! "val_acc1" = None /\ m !! "val_acc5" = None).
Proof.
  intros Hc parent knn_calls.
  pose proof (validation_step_ok (BaseMomentumMethod.base self) sanity_checking
                X targets Hc) as Hparent.
  fold parent in Hparent. fold knn_calls in Hparent.
  split; [exact Hparent |].
  split; [reflexivity |].
  split; [reflexivity |].
  split.
  - intros Hnone. unfold MomentumValidation.validation_step.
    rewrite Hparent. cbn [Py.bind].
    rewrite (shared_step_momentum_none self X targets Hnone). cbn [Py.bind].
    rewrite Hnone. reflexivity.
  - intros Hsome Hfive. unfold MomentumValidation.validation_step.
    rewrite Hparent. cbn [Py.bind].
    rewrite (shared_step_momentum_ok self X targets Hsome Hfive). cbn [Py.bind].
    destruct (BaseMomentumMethod.momentum_classifier self) as [layer|];
      [| contradiction].
    cbn [BaseMomentumMethod.classified Py.bind fst snd].
    eexists. split; [reflexivity |].
    repeat split; reflexivity.
Qed.

End ValidationExtras.

Section ValidationExtrasExamples.

Import Torch Observe.

Lemma momentum_validation_step_pairs_witness :
  exists parent m,
    MomentumValidation.validation_step (H := Sample.net 3 10)
      (Sample.momentum_method true) false [Sample.q 1 2; Sample.q 1 4] [0%Z; 1%Z]
    = Py.Ok ((parent, Some m), [])
    /\ m !! "batch_size" = Some (BaseMethod.of_int 2).
Proof.
  destruct (@momentum_validation_step_pairs (Sample.net 3 10)
              (Sample.momentum_method true) false
              [Sample.q 1 2; Sample.q 1 4] [0%Z; 1%Z])
    as (_ & Hsize & _ & _ & Hsome).
  - vm_compute. lia.
  - destruct Hsome as (m & Hstep & Hm & _).
    + discriminate.
    + vm_compute. lia.
    + eexists _, m. split; [exact Hstep |]. rewrite Hm. exact Hsize.
Defined.

End ValidationExtrasExamples.
